(** * Farmaci Giannina: the dashboard's data operations (src/App.tsx)

    A shallow embedding of the dashboard component: the three backend
    tables it reads and writes ([meds], [stocks], [intake_logs]), the React
    state it keeps ([weekStart], [onlyToday], [meds], [stocks], [intakes],
    [editing], [newMed]) and the handlers that move both.

    Modelling conventions.
    - Numbers are pill counts: integers ([Z]).  On an integer [x || 0] is
      [x], so the source's [|| 0] defaults are not written.  Where a handler
      tests its argument for NaN the argument has type [JsNum].
    - An instant is its time value, milliseconds since the epoch.  A
      calendar day ("YYYY-MM-DD") is the number of days since 1970-01-01;
      [civil_from_days] gives its year, month and day.  [Clock],
      [startOfWeekISO], [addDaysISO] and the handlers built on them are the
      code in a zone of fixed offset from UTC, where
      [d.setDate(d.getDate() + k)] moves the instant by [k] days; [Zone],
      [startOfWeekISOIn], [addDaysISOIn] and [allDaysIn] are the same code
      in a zone whose offset changes.
    - A table is the list of its rows.  [.single()] yields a row only when
      exactly one matches.  Row ids are chosen by the backend: the handlers
      that insert take them as arguments.
    - The key [`${day}|${time}|${m.id}`] of [intakes] is the triple
      [(day, time, id)]; the rendering is injective (the day has ten
      characters and a slot name has no bar).
    - The profile is provisioned ([family_id] is not null): the dashboard
      reloads the page once it has created the family.
    - A handler's awaits run to completion in program order, and a click
      comes after the requests of the previous one have been answered.  The
      calls that [markAllToday] hands to [Promise.all] run together:
      [markAllTodayUnder] takes the order of their requests as an argument,
      and [markAllToday] is the order in which each call ends before the
      next one starts.
    - A numeric field of the stock view is missing or empty ([None]) or
      holds an integer; a click on a checkbox reports the opposite of what
      the box shows. *)

From Stdlib Require Import ZArith Lia String.
From stdpp Require Import base decidable countable finite gmap strings list fin_maps.
Local Open Scope Z_scope.

(** ** Dates *)

Module JsDate.

Definition msPerDay : Z := 86400000.

(** The wall clock of the browser in a zone of fixed offset: the current
    instant and the offset of local time from UTC, both in milliseconds. *)
Record Clock := { now : Z; tzOffset : Z }.

(** Day number of the local calendar date of instant [t]. *)
Definition localDay (c : Clock) (t : Z) : Z := (t + tzOffset c) / msPerDay.

(** [d.getDay()]: 0 is Sunday; 1970-01-01 was a Thursday. *)
Definition getDay (c : Clock) (t : Z) : Z := (localDay c t + 4) mod 7.

(** [d.setDate(d.getDate() + k)] in a zone of fixed offset. *)
Definition addDate (t k : Z) : Z := t + k * msPerDay.

(** [d.toISOString().slice(0, 10)]: the UTC calendar date. *)
Definition toISODate (t : Z) : Z := t / msPerDay.

(** [new Date(iso)] for a date-only string: midnight UTC of that day. *)
Definition parseISODate (iso : Z) : Z := iso * msPerDay.

(** Weekday of a calendar day, counted from Monday (0) to Sunday (6). *)
Definition weekdayFromMonday (iso : Z) : Z := (iso + 3) mod 7.

(** Year, month and day of a day number (proleptic Gregorian calendar). *)
Definition civil_from_days (z0 : Z) : Z * Z * Z :=
  let z := z0 + 719468 in
  let era := z / 146097 in
  let doe := z - era * 146097 in
  let yoe := (doe - doe / 1460 + doe / 36524 - doe / 146096) / 365 in
  let doy := doe - (365 * yoe + yoe / 4 - yoe / 100) in
  let mp := (5 * doy + 2) / 153 in
  let d := doy - (153 * mp + 2) / 5 + 1 in
  let m := if mp <? 10 then mp + 3 else mp - 9 in
  let y := yoe + era * 400 in
  (if m <=? 2 then y + 1 else y, m, d).

End JsDate.

Import JsDate.

Definition todayISO (c : Clock) : Z := toISODate (now c).

(** [startOfWeekISO] and [addDaysISO] in a zone of fixed offset. *)
Definition startOfWeekISO (c : Clock) : Z :=
  let d := now c in
  let day := (getDay c d + 6) mod 7 in
  let d := addDate d (- day) in
  toISODate d.

Definition addDaysISO (iso n : Z) : Z :=
  let d := parseISODate iso in
  let d := addDate d n in
  toISODate d.

(** ** Types *)

Inductive TimeSlot := Mattina | Mezzogiorno | Sera.

#[global] Instance TimeSlot_eq_dec : EqDecision TimeSlot.
Proof. solve_decision. Defined.

#[global] Instance TimeSlot_countable : Countable TimeSlot.
Proof.
  refine (inj_countable'
    (λ t, match t with Mattina => 0%nat | Mezzogiorno => 1%nat | Sera => 2%nat end)
    (λ n, match n with 0%nat => Mattina | 1%nat => Mezzogiorno | _ => Sera end) _).
  by intros [].
Defined.

Definition TIMES : list TimeSlot := [Mattina; Mezzogiorno; Sera].

Module Profile.
Record t := { id : string; email : string; family_id : string }.
End Profile.

Module Med.
Record t := {
  id : string; family_id : string; name : string; dosage : option string;
  per_dose : Z; times : list TimeSlot; threshold : Z; archived : option bool }.
End Med.

Inductive Location := Box | Dispensa.

#[global] Instance Location_eq_dec : EqDecision Location.
Proof. solve_decision. Defined.

(** A row of [stocks]. *)
Module Stock.
Record t := { id : string; med_id : string; location : Location; qty : Z }.
End Stock.

(** A row of [intake_logs]. *)
Module Intake.
Record t := {
  family_id : string; day : Z; time_slot : TimeSlot; med_id : string;
  taken : bool }.
End Intake.

(** An entry of [StocksMap]. *)
Record StockPair := { box : Z; dispensa : Z }.

(** A JavaScript number as a handler receives it from a numeric field. *)
Inductive JsNum := NaN | Num (z : Z).

Record Editing := {
  e_id : string; e_name : string; e_dosage : option string;
  e_per_dose : Z; e_times : list TimeSlot }.

Record NewMed := {
  n_name : string; n_dosage : string; n_per_dose : Z; n_threshold : Z;
  n_times : list TimeSlot; initBox : Z; initDisp : Z }.

Definition emptyNewMed : NewMed :=
  {| n_name := EmptyString; n_dosage := EmptyString; n_per_dose := 1;
     n_threshold := 10; n_times := []; initBox := 0; initDisp := 0 |}.

(** ** The backend *)

Record DB := {
  t_meds : list Med.t;
  t_stocks : list Stock.t;
  t_intake_logs : list Intake.t }.

Definition single {A} (rows : list A) : option A :=
  match rows with [r] => Some r | _ => None end.

Module Sb.

(** [from("stocks").select().eq("med_id", mid).eq("location", loc)]. *)
Definition stocksAt (mid : string) (loc : Location) (st : list Stock.t) : list Stock.t :=
  filter (λ r, Stock.med_id r = mid ∧ Stock.location r = loc) st.

(** The row [r] with its quantity set to [q]. *)
Definition withQty (q : Z) (r : Stock.t) : Stock.t :=
  {| Stock.id := Stock.id r; Stock.med_id := Stock.med_id r;
     Stock.location := Stock.location r; Stock.qty := q |}.

(** [from("stocks").update({ qty }).eq("id", i)]. *)
Definition updateQty (i : string) (q : Z) (st : list Stock.t) : list Stock.t :=
  (λ r, if decide (Stock.id r = i) then withQty q r else r) <$> st.

(** [from("stocks").delete().eq("med_id", mid)]. *)
Definition deleteStocksOf (mid : string) (st : list Stock.t) : list Stock.t :=
  filter (λ r, Stock.med_id r ≠ mid) st.

(** The conflict target of the upsert: (family_id, day, time_slot, med_id). *)
Definition intakeKey (r : Intake.t) : string * Z * TimeSlot * string :=
  (Intake.family_id r, Intake.day r, Intake.time_slot r, Intake.med_id r).

(** [from("intake_logs").upsert(row, { onConflict })]: a row with the same
    key is overwritten, otherwise [row] is inserted. *)
Definition upsertIntake (row : Intake.t) (log : list Intake.t) : list Intake.t :=
  if decide (intakeKey row ∈ intakeKey <$> log)
  then (λ r, if decide (intakeKey r = intakeKey row) then row else r) <$> log
  else log ++ [row].

(** [from("intake_logs").delete().eq(family_id).eq(day).eq(time_slot).eq(med_id)]. *)
Definition deleteIntake (k : string * Z * TimeSlot * string) (log : list Intake.t)
  : list Intake.t :=
  filter (λ r, intakeKey r ≠ k) log.

(** [from("intake_logs").delete().eq("med_id", mid).eq("family_id", fam)]. *)
Definition deleteIntakesOf (mid fam : string) (log : list Intake.t) : list Intake.t :=
  filter (λ r, ¬ (Intake.med_id r = mid ∧ Intake.family_id r = fam)) log.

(** [from("intake_logs").select().eq(family_id).gte("day", from).lte("day", to)]. *)
Definition intakesBetween (fam : string) (from to : Z) (log : list Intake.t)
  : list Intake.t :=
  filter (λ r, Intake.family_id r = fam ∧ from ≤ Intake.day r ∧ Intake.day r ≤ to) log.

(** [.order("name")]: rows by ascending name, rows of equal name in table
    order. *)
Fixpoint insertByName (m : Med.t) (l : list Med.t) : list Med.t :=
  match l with
  | [] => [m]
  | x :: l' => if String.leb (Med.name m) (Med.name x) then m :: l
               else x :: insertByName m l'
  end.

Definition orderByName (l : list Med.t) : list Med.t := foldr insertByName [] l.

End Sb.

Definition onMeds (f : list Med.t → list Med.t) (d : DB) : DB :=
  {| t_meds := f (t_meds d); t_stocks := t_stocks d;
     t_intake_logs := t_intake_logs d |}.

Definition onStocks (f : list Stock.t → list Stock.t) (d : DB) : DB :=
  {| t_meds := t_meds d; t_stocks := f (t_stocks d);
     t_intake_logs := t_intake_logs d |}.

Definition onIntakeLogs (f : list Intake.t → list Intake.t) (d : DB) : DB :=
  {| t_meds := t_meds d; t_stocks := t_stocks d;
     t_intake_logs := f (t_intake_logs d) |}.

(** The primary key of [stocks]. *)
Definition stockIdsUnique (st : list Stock.t) : Prop := NoDup (Stock.id <$> st).

(** The uniqueness constraint of [intake_logs] that the upsert targets. *)
Definition intakeKeysUnique (log : list Intake.t) : Prop :=
  NoDup (Sb.intakeKey <$> log).

(** The rows of the log stored under key [k]. *)
Definition rowsOfKey (k : string * Z * TimeSlot * string) (log : list Intake.t)
  : list Intake.t :=
  filter (λ r, Sb.intakeKey r = k) log.

(** ** The dashboard state *)

Record State := {
  backend : DB;
  weekStart : Z;
  onlyToday : bool;
  meds : list Med.t;
  stocks : gmap string StockPair;
  intakes : gmap (Z * TimeSlot * string) bool;
  editing : option Editing;
  adding : bool;
  newMed : NewMed }.

Definition onBackend (f : DB → DB) (s : State) : State :=
  {| backend := f (backend s); weekStart := weekStart s; onlyToday := onlyToday s;
     meds := meds s; stocks := stocks s; intakes := intakes s;
     editing := editing s; adding := adding s; newMed := newMed s |}.

Definition setWeekStart (w : Z) (s : State) : State :=
  {| backend := backend s; weekStart := w; onlyToday := onlyToday s;
     meds := meds s; stocks := stocks s; intakes := intakes s;
     editing := editing s; adding := adding s; newMed := newMed s |}.

Definition setOnlyToday (b : bool) (s : State) : State :=
  {| backend := backend s; weekStart := weekStart s; onlyToday := b;
     meds := meds s; stocks := stocks s; intakes := intakes s;
     editing := editing s; adding := adding s; newMed := newMed s |}.

Definition setMeds (l : list Med.t) (s : State) : State :=
  {| backend := backend s; weekStart := weekStart s; onlyToday := onlyToday s;
     meds := l; stocks := stocks s; intakes := intakes s;
     editing := editing s; adding := adding s; newMed := newMed s |}.

Definition setStocks (f : gmap string StockPair → gmap string StockPair)
  (s : State) : State :=
  {| backend := backend s; weekStart := weekStart s; onlyToday := onlyToday s;
     meds := meds s; stocks := f (stocks s); intakes := intakes s;
     editing := editing s; adding := adding s; newMed := newMed s |}.

Definition setIntakes
  (f : gmap (Z * TimeSlot * string) bool → gmap (Z * TimeSlot * string) bool)
  (s : State) : State :=
  {| backend := backend s; weekStart := weekStart s; onlyToday := onlyToday s;
     meds := meds s; stocks := stocks s; intakes := f (intakes s);
     editing := editing s; adding := adding s; newMed := newMed s |}.

Definition setEditing (e : option Editing) (s : State) : State :=
  {| backend := backend s; weekStart := weekStart s; onlyToday := onlyToday s;
     meds := meds s; stocks := stocks s; intakes := intakes s;
     editing := e; adding := adding s; newMed := newMed s |}.

Definition setAdding (b : bool) (s : State) : State :=
  {| backend := backend s; weekStart := weekStart s; onlyToday := onlyToday s;
     meds := meds s; stocks := stocks s; intakes := intakes s;
     editing := editing s; adding := b; newMed := newMed s |}.

Definition setNewMed (n : NewMed) (s : State) : State :=
  {| backend := backend s; weekStart := weekStart s; onlyToday := onlyToday s;
     meds := meds s; stocks := stocks s; intakes := intakes s;
     editing := editing s; adding := adding s; newMed := n |}.

Definition logOf (s : State) : list Intake.t := t_intake_logs (backend s).
Definition stocksOf (s : State) : list Stock.t := t_stocks (backend s).
Definition medsOf (s : State) : list Med.t := t_meds (backend s).

(** The quantity the backend holds for medication [mid] at [loc], when
    exactly one row holds it. *)
Definition qtyAt (mid : string) (loc : Location) (s : State) : option Z :=
  Stock.qty <$> single (Sb.stocksAt mid loc (stocksOf s)).

(** [!!intakes[k]]. *)
Definition isTaken (s : State) (k : Z * TimeSlot * string) : bool :=
  default false (intakes s !! k).

(** [st[id] || { box: 0, dispensa: 0 }]. *)
Definition pairOr0 (st : gmap string StockPair) (i : string) : StockPair :=
  default {| box := 0; dispensa := 0 |} (st !! i).

(** The key of [intakes] under which a log row is loaded. *)
Definition uiKey (r : Intake.t) : Z * TimeSlot * string :=
  (Intake.day r, Intake.time_slot r, Intake.med_id r).

(** [(data || []).forEach(r => { map[key] = !!r.taken })] from an empty map. *)
Definition intakesOfRows (data : list Intake.t) : gmap (Z * TimeSlot * string) bool :=
  foldl (λ (map : gmap (Z * TimeSlot * string) bool) r,
           <[uiKey r := Intake.taken r]> map) ∅ data.

Inductive Tone := green | amber | red.

Definition statusTone (s : string) : Tone :=
  if String.eqb s "OK" then green
  else if String.prefix "Copertura" s then amber
  else red.

Definition weeklyNeed (m : Med.t) : Z :=
  Med.per_dose m * Z.of_nat (length (Med.times m)) * 7.

Section Dashboard.

Variable profile : Profile.t.
Variable clock : Clock.

(** The state of the first render. *)
Definition initialState (d : DB) : State :=
  {| backend := d; weekStart := startOfWeekISO clock; onlyToday := false;
     meds := []; stocks := ∅; intakes := ∅;
     editing := None; adding := false; newMed := emptyNewMed |}.

Definition allDays (s : State) : list Z :=
  (λ i, addDaysISO (weekStart s) (Z.of_nat i)) <$> seq 0 7.

Definition days (s : State) : list Z :=
  if onlyToday s then filter (λ d, d = todayISO clock) (allDays s) else allDays s.

Definition loadMeds (s : State) : State :=
  let medsNow :=
    Sb.orderByName
      (filter (λ m, Med.family_id m = Profile.family_id profile
                    ∧ Med.archived m = Some false) (t_meds (backend s))) in
  let s := setMeds medsNow s in
  if (0 <? length medsNow)%nat then
    let ids := Med.id <$> medsNow in
    let st := filter (λ r, Stock.med_id r ∈ ids) (t_stocks (backend s)) in
    let map :=
      foldl (λ (map : gmap string StockPair) r,
               let cur := pairOr0 map (Stock.med_id r) in
               <[Stock.med_id r :=
                   match Stock.location r with
                   | Box => {| box := Stock.qty r; dispensa := dispensa cur |}
                   | Dispensa => {| box := box cur; dispensa := Stock.qty r |}
                   end]> map) ∅ st in
    setStocks (λ _, map) s
  else setStocks (λ _, ∅) s.

Definition loadWeek (s : State) : State :=
  let from := if onlyToday s then todayISO clock else weekStart s in
  let to := if onlyToday s then todayISO clock else addDaysISO (weekStart s) 6 in
  let data :=
    Sb.intakesBetween (Profile.family_id profile) from to
      (t_intake_logs (backend s)) in
  let map := intakesOfRows data in
  setIntakes (λ _, map) s.

Definition saveMed (s : State) : State :=
  match editing s with
  | None => s
  | Some e =>
    let s :=
      onBackend (onMeds (fmap (λ m,
        if decide (Med.id m = e_id e)
        then {| Med.id := Med.id m; Med.family_id := Med.family_id m;
                Med.name := e_name e; Med.dosage := e_dosage e;
                Med.per_dose := e_per_dose e; Med.times := e_times e;
                Med.threshold := Med.threshold m; Med.archived := Med.archived m |}
        else m))) s in
    let s := setEditing None s in
    loadMeds s
  end.

(** [medId], [boxId] and [dispId] are the ids the backend gives the three
    inserted rows.  The branch in which the insert reports an error is not
    modelled. *)
Definition addMed (medId boxId dispId : string) (s : State) : State :=
  let n := newMed s in
  if String.eqb (n_name n) EmptyString || (length (n_times n) =? 0)%nat
  then s
  else
    let created :=
      {| Med.id := medId; Med.family_id := Profile.family_id profile;
         Med.name := n_name n;
         Med.dosage :=
           if String.eqb (n_dosage n) EmptyString then None
           else Some (n_dosage n);
         Med.per_dose := n_per_dose n; Med.times := n_times n;
         Med.threshold := n_threshold n; Med.archived := Some false |} in
    let s := onBackend (onMeds (λ l, l ++ [created])) s in
    let stockRows :=
      [ {| Stock.id := boxId; Stock.med_id := medId; Stock.location := Box;
           Stock.qty := initBox n |};
        {| Stock.id := dispId; Stock.med_id := medId; Stock.location := Dispensa;
           Stock.qty := initDisp n |} ] in
    let s := onBackend (onStocks (λ l, l ++ stockRows)) s in
    let s := setAdding false s in
    let s := setNewMed emptyNewMed s in
    loadMeds s.

Definition archiveMed (m : Med.t) (s : State) : State :=
  let s :=
    onBackend (onMeds (fmap (λ r,
      if decide (Med.id r = Med.id m)
      then {| Med.id := Med.id r; Med.family_id := Med.family_id r;
              Med.name := Med.name r; Med.dosage := Med.dosage r;
              Med.per_dose := Med.per_dose r; Med.times := Med.times r;
              Med.threshold := Med.threshold r; Med.archived := Some true |}
      else r))) s in
  let s := onBackend (onStocks (Sb.deleteStocksOf (Med.id m))) s in
  loadMeds s.

Definition hardDeleteMed (m : Med.t) (s : State) : State :=
  let s :=
    onBackend (onIntakeLogs
      (Sb.deleteIntakesOf (Med.id m) (Profile.family_id profile))) s in
  let s := onBackend (onStocks (Sb.deleteStocksOf (Med.id m))) s in
  let s := onBackend (onMeds (filter (λ r, Med.id r ≠ Med.id m))) s in
  loadMeds s.

Definition toggleTaken (day : Z) (time : TimeSlot) (m : Med.t)
  (force : option bool) (s : State) : State :=
  let k := (day, time, Med.id m) in
  let next := match force with Some b => b | None => negb (isTaken s k) end in
  let s := setIntakes (λ i, <[k := next]> i) s in
  let s :=
    if next then
      onBackend (onIntakeLogs (Sb.upsertIntake
        {| Intake.family_id := Profile.family_id profile; Intake.day := day;
           Intake.time_slot := time; Intake.med_id := Med.id m;
           Intake.taken := true |})) s
    else
      onBackend (onIntakeLogs (Sb.deleteIntake
        (Profile.family_id profile, day, time, Med.id m))) s in
  match single (Sb.stocksAt (Med.id m) Box (t_stocks (backend s))) with
  | Some b =>
    let newQty :=
      Z.max 0 (Stock.qty b + (if next then - Med.per_dose m else Med.per_dose m)) in
    let s := onBackend (onStocks (Sb.updateQty (Stock.id b) newQty)) s in
    setStocks (λ st,
      <[Med.id m := {| box := newQty; dispensa := dispensa (pairOr0 st (Med.id m)) |}]> st) s
  | None => s
  end.

Definition plannedDosesForToday (s : State) : list (Med.t * TimeSlot) :=
  TIMES ≫= (λ time,
    (λ m, (m, time)) <$> filter (λ m, time ∈ Med.times m) (meds s)).

(** The calls [markAllToday] pushes onto [jobs]. *)
Definition markAllTodayJobs (checked : bool) (s : State) : list (Med.t * TimeSlot) :=
  let day := todayISO clock in
  filter (λ p, isTaken s (day, p.2, Med.id p.1) ≠ checked)
    (plannedDosesForToday s).

(** [markAllToday] when each pushed call ends before the next one starts. *)
Definition markAllToday (checked : bool) (s : State) : State :=
  let day := todayISO clock in
  let s :=
    foldl (λ s p, toggleTaken day p.2 p.1 (Some checked) s) s
      (markAllTodayJobs checked s) in
  loadWeek s.

Definition moveFromPantry (m : Med.t) (qty : JsNum) (s : State) : State :=
  match qty with
  | NaN => s
  | Num q =>
    if (q =? 0) || (q <=? 0) then s
    else
      let box_ := single (Sb.stocksAt (Med.id m) Box (t_stocks (backend s))) in
      let pan := single (Sb.stocksAt (Med.id m) Dispensa (t_stocks (backend s))) in
      match box_, pan with
      | Some b, Some p =>
        let newBox := Stock.qty b + q in
        let newPan := Z.max 0 (Stock.qty p - q) in
        let s := onBackend (onStocks (Sb.updateQty (Stock.id b) newBox)) s in
        let s := onBackend (onStocks (Sb.updateQty (Stock.id p) newPan)) s in
        setStocks (λ st, <[Med.id m := {| box := newBox; dispensa := newPan |}]> st) s
      | _, _ => s
      end
  end.

Definition addPantry (m : Med.t) (qty : JsNum) (s : State) : State :=
  match qty with
  | NaN => s
  | Num q =>
    if (q =? 0) || (q <=? 0) then s
    else
      match single (Sb.stocksAt (Med.id m) Dispensa (t_stocks (backend s))) with
      | Some p =>
        let newPan := Stock.qty p + q in
        let s := onBackend (onStocks (Sb.updateQty (Stock.id p) newPan)) s in
        setStocks (λ st,
          <[Med.id m := {| box := box (pairOr0 st (Med.id m)); dispensa := newPan |}]> st) s
      | None => s
      end
  end.

Definition setBoxQty (m : Med.t) (qty : JsNum) (s : State) : State :=
  match qty with
  | NaN => s
  | Num q =>
    if q <? 0 then s
    else
      match single (Sb.stocksAt (Med.id m) Box (t_stocks (backend s))) with
      | Some b =>
        let s := onBackend (onStocks (Sb.updateQty (Stock.id b) q)) s in
        setStocks (λ st,
          <[Med.id m := {| box := q; dispensa := dispensa (pairOr0 st (Med.id m)) |}]> st) s
      | None => s
      end
  end.

Definition setPantryQty (m : Med.t) (qty : JsNum) (s : State) : State :=
  match qty with
  | NaN => s
  | Num q =>
    if q <? 0 then s
    else
      match single (Sb.stocksAt (Med.id m) Dispensa (t_stocks (backend s))) with
      | Some p =>
        let s := onBackend (onStocks (Sb.updateQty (Stock.id p) q)) s in
        setStocks (λ st,
          <[Med.id m := {| box := box (pairOr0 st (Med.id m)); dispensa := q |}]> st) s
      | None => s
      end
  end.

End Dashboard.

(** [stocks[m.id]?.box || 0] plus [stocks[m.id]?.dispensa || 0]. *)
Definition totalStock (s : State) (m : Med.t) : Z :=
  match stocks s !! Med.id m with Some p => box p | None => 0 end
  + match stocks s !! Med.id m with Some p => dispensa p | None => 0 end.

Definition statusText (s : State) (m : Med.t) : string :=
  if totalStock s m <? Med.threshold m then "Sotto soglia"
  else if totalStock s m <? weeklyNeed m then "Copertura < 1 settimana"
  else "OK".

(** ** Sample inputs *)

Module Sample.

Definition profile : Profile.t :=
  {| Profile.id := "u1"; Profile.email := "giannina@example.org";
     Profile.family_id := "fam1" |}.

(** 2023-12-31T23:30:00Z read in a zone one hour ahead of UTC: the local
    time is 00:30 on Monday 2024-01-01. *)
Definition clockLocalMidnight : Clock :=
  {| now := 19722 * msPerDay + 84600000; tzOffset := 3600000 |}.

(** Noon UTC on Wednesday 2024-01-03, read in UTC. *)
Definition clockWednesday : Clock :=
  {| now := 19725 * msPerDay + 43200000; tzOffset := 0 |}.

Definition emptyDB : DB := {| t_meds := []; t_stocks := []; t_intake_logs := [] |}.

Definition aspirina : Med.t :=
  {| Med.id := "m1"; Med.family_id := "fam1"; Med.name := "Aspirina";
     Med.dosage := Some "100mg"; Med.per_dose := 1;
     Med.times := [Mattina; Sera]; Med.threshold := 10;
     Med.archived := Some false |}.

Definition withStock (b d : Z) : State :=
  {| backend := emptyDB; weekStart := 19722; onlyToday := false;
     meds := [aspirina]; stocks := {[ "m1" := {| box := b; dispensa := d |} ]};
     intakes := ∅; editing := None; adding := false; newMed := emptyNewMed |}.

(** One medication with one row per location, nothing logged. *)
Definition stocked (b d : Z) : State :=
  {| backend :=
       {| t_meds := [aspirina];
          t_stocks :=
            [ {| Stock.id := "s1"; Stock.med_id := "m1"; Stock.location := Box;
                 Stock.qty := b |};
              {| Stock.id := "s2"; Stock.med_id := "m1"; Stock.location := Dispensa;
                 Stock.qty := d |} ];
          t_intake_logs := [] |};
     weekStart := 19722; onlyToday := false;
     meds := [aspirina]; stocks := {[ "m1" := {| box := b; dispensa := d |} ]};
     intakes := ∅; editing := None; adding := false; newMed := emptyNewMed |}.

(** The sample medication's row once archived. *)
Definition aspirinaArchived : Med.t :=
  {| Med.id := "m1"; Med.family_id := "fam1"; Med.name := "Aspirina";
     Med.dosage := Some "100mg"; Med.per_dose := 1;
     Med.times := [Mattina; Sera]; Med.threshold := 10;
     Med.archived := Some true |}.

Definition cardio : Med.t :=
  {| Med.id := "m2"; Med.family_id := "fam1"; Med.name := "Cardioaspirin";
     Med.dosage := None; Med.per_dose := 2;
     Med.times := [Mezzogiorno]; Med.threshold := 5;
     Med.archived := Some false |}.

(** Wednesday 2024-01-03 in "today only" mode: three doses planned, the
    morning one already logged and loaded. *)
Definition oneOfThreeTaken : State :=
  {| backend :=
       {| t_meds := [aspirina; cardio];
          t_stocks :=
            [ {| Stock.id := "s1"; Stock.med_id := "m1"; Stock.location := Box;
                 Stock.qty := 10 |};
              {| Stock.id := "s2"; Stock.med_id := "m1"; Stock.location := Dispensa;
                 Stock.qty := 3 |};
              {| Stock.id := "s3"; Stock.med_id := "m2"; Stock.location := Box;
                 Stock.qty := 7 |};
              {| Stock.id := "s4"; Stock.med_id := "m2"; Stock.location := Dispensa;
                 Stock.qty := 0 |} ];
          t_intake_logs :=
            [ {| Intake.family_id := "fam1"; Intake.day := 19725;
                 Intake.time_slot := Mattina; Intake.med_id := "m1";
                 Intake.taken := true |} ] |};
     weekStart := 19723; onlyToday := true;
     meds := [aspirina; cardio];
     stocks := {[ "m1" := {| box := 10; dispensa := 3 |};
                  "m2" := {| box := 7; dispensa := 0 |} ]};
     intakes := {[ (19725, Mattina, "m1") := true ]};
     editing := None; adding := false; newMed := emptyNewMed |}.

(** The edit popup open on the sample medication, dose and slots changed. *)
Definition editingAspirina : State :=
  setEditing
    (Some {| e_id := "m1"; e_name := "Aspirina C"; e_dosage := None;
             e_per_dose := 2; e_times := [Sera] |})
    (stocked 10 3).

(** The add popup filled in with a negative initial Box quantity, on an
    empty database. *)
Definition formNegativeBox : State :=
  setNewMed
    {| n_name := "Aspirina"; n_dosage := "100mg"; n_per_dose := 1;
       n_threshold := 10; n_times := [Mattina]; initBox := -5; initDisp := 0 |}
    (setAdding true (initialState clockWednesday emptyDB)).

End Sample.

(** The bounds of the range [loadWeek] asks the backend for. *)
Definition weekFrom (c : Clock) (s : State) : Z :=
  if onlyToday s then todayISO c else weekStart s.
Definition weekTo (c : Clock) (s : State) : Z :=
  if onlyToday s then todayISO c else addDaysISO (weekStart s) 6.

(** The key of [intakes] for a planned dose of today. *)
Definition todayKey (c : Clock) (p : Med.t * TimeSlot) : Z * TimeSlot * string :=
  (todayISO c, p.2, Med.id p.1).

(** The columns of a medication row that the edit popup does not carry. *)
Definition medFrame (r : Med.t) : string * string * Z * option bool :=
  (Med.id r, Med.family_id r, Med.threshold r, Med.archived r).

(** No stored quantity is negative. *)
Definition stocksNonneg (st : list Stock.t) : Prop :=
  Forall (λ r, 0 ≤ Stock.qty r) st.

(** The state after the first render, a click on the previous-week arrow and
    a tick of "Solo oggi". *)
Definition weekBackOnlyToday (c : Clock) (d : DB) : State :=
  let s := initialState c d in
  let s := setWeekStart (addDaysISO (weekStart s) (-7)) s in
  setOnlyToday true s.

(** ** Handlers of the planner and stock views *)

(** [setWeekStart(w)] with what follows from it: when the anchor changes,
    the effect on [[profile.family_id, weekStart, onlyToday]] runs [loadWeek]
    with the new anchor, and the state is the one its answer leaves; when
    the anchor does not change, nothing is rendered again. *)
Definition changeWeekStart (profile : Profile.t) (c : Clock) (w : Z)
  (s : State) : State :=
  if decide (w = weekStart s) then s
  else loadWeek profile c (setWeekStart w s).

(** The arrows and the "Oggi" button of the week navigation, in a zone of
    fixed offset. *)
Definition prevWeek (profile : Profile.t) (c : Clock) (s : State) : State :=
  changeWeekStart profile c (addDaysISO (weekStart s) (-7)) s.

Definition nextWeek (profile : Profile.t) (c : Clock) (s : State) : State :=
  changeWeekStart profile c (addDaysISO (weekStart s) 7) s.

Definition thisWeek (profile : Profile.t) (c : Clock) (s : State) : State :=
  changeWeekStart profile c (startOfWeekISO c) s.

(** The answer to a [loadWeek] that asked for the range from [from] to
    [to]: whenever it arrives, it replaces the tracked entries. *)
Definition reloadAnswer (profile : Profile.t) (from to : Z) (s : State) : State :=
  setIntakes (λ _,
    intakesOfRows
      (Sb.intakesBetween (Profile.family_id profile) from to
         (t_intake_logs (backend s)))) s.

(** ** Zones whose offset changes *)

(** A time zone as the [Date] object sees it: the offset of local time from
    UTC at a UTC instant, and the offset by which a local time value is read
    back as an instant, both in milliseconds.  Across a daylight-saving
    change the two differ. *)
Record Zone := { utcOffset : Z → Z; localOffset : Z → Z }.

Definition fixedZone (off : Z) : Zone :=
  {| utcOffset := λ _, off; localOffset := λ _, off |}.

(** [LocalTime(t)] and [UTC(t)]. *)
Definition localTime (z : Zone) (t : Z) : Z := t + utcOffset z t.
Definition utcOfLocal (z : Zone) (tl : Z) : Z := tl - localOffset z tl.

(** [d.getDay()]. *)
Definition getDayIn (z : Zone) (t : Z) : Z :=
  (localTime z t / msPerDay + 4) mod 7.

(** [d.setDate(d.getDate() + k)]: the local time value moves by [k] days, the
    time within the day is kept, and the result is read back as an instant. *)
Definition addDateIn (z : Zone) (t k : Z) : Z :=
  utcOfLocal z (localTime z t + k * msPerDay).

Definition startOfWeekISOIn (z : Zone) (now : Z) : Z :=
  let d := now in
  let day := (getDayIn z d + 6) mod 7 in
  let d := addDateIn z d (- day) in
  toISODate d.

Definition addDaysISOIn (z : Zone) (iso n : Z) : Z :=
  let d := parseISODate iso in
  let d := addDateIn z d n in
  toISODate d.

Definition allDaysIn (z : Zone) (s : State) : list Z :=
  (λ i, addDaysISOIn z (weekStart s) (Z.of_nat i)) <$> seq 0 7.

(** By how much the offset at instant [t] exceeds the offset by which the
    local time [k] days away is read back. *)
Definition offsetDrift (z : Zone) (t k : Z) : Z :=
  utcOffset z t - localOffset z (localTime z t + k * msPerDay).

(** ** The bulk operation with its requests in flight *)

(** Where a call of [toggleTaken] pushed by [markAllToday] stands.  Its
    synchronous part ([setIntakes]) has run when it is pushed.  Its three
    requests then reach the backend one after the other, in between those of
    the other calls: the upsert or delete, the select of the Box row, the
    update with the quantity computed from the selected row; after the
    answer to the update comes [setStocks]. *)
Inductive JobPc :=
| AwaitLog
| AwaitBox
| AwaitUpdate (boxId : string) (newQty : Z)
| AwaitAnswer (newQty : Z)
| Finished.

#[global] Instance JobPc_eq_dec : EqDecision JobPc.
Proof. solve_decision. Defined.

(** The next move of the call for the pair [j]: its pending request is
    served, or the answer to its update arrives. *)
Definition stepJob (profile : Profile.t) (day : Z) (checked : bool)
  (j : Med.t * TimeSlot) (pc : JobPc) (s : State) : JobPc * State :=
  match pc with
  | AwaitLog =>
    (AwaitBox,
     if checked then
       onBackend (onIntakeLogs (Sb.upsertIntake
         {| Intake.family_id := Profile.family_id profile; Intake.day := day;
            Intake.time_slot := j.2; Intake.med_id := Med.id j.1;
            Intake.taken := true |})) s
     else
       onBackend (onIntakeLogs (Sb.deleteIntake
         (Profile.family_id profile, day, j.2, Med.id j.1))) s)
  | AwaitBox =>
    match single (Sb.stocksAt (Med.id j.1) Box (t_stocks (backend s))) with
    | Some b =>
      (AwaitUpdate (Stock.id b)
         (Z.max 0 (Stock.qty b
                   + (if checked then - Med.per_dose j.1 else Med.per_dose j.1))),
       s)
    | None => (Finished, s)
    end
  | AwaitUpdate i newQty =>
    (AwaitAnswer newQty, onBackend (onStocks (Sb.updateQty i newQty)) s)
  | AwaitAnswer newQty =>
    (Finished,
     setStocks (λ st,
       <[Med.id j.1 :=
           {| box := newQty; dispensa := dispensa (pairOr0 st (Med.id j.1)) |}]> st)
       s)
  | Finished => (Finished, s)
  end.

(** The call of index [i] makes its next move. *)
Definition runStep (profile : Profile.t) (day : Z) (checked : bool)
  (jobs : list (Med.t * TimeSlot)) (ps : list JobPc * State) (i : nat)
  : list JobPc * State :=
  match jobs !! i, ps.1 !! i with
  | Some j, Some pc =>
    (<[i := (stepJob profile day checked j pc ps.2).1]> ps.1,
     (stepJob profile day checked j pc ps.2).2)
  | _, _ => ps
  end.

(** The synchronous parts of the pushed calls. *)
Definition startJobs (day : Z) (checked : bool) (jobs : list (Med.t * TimeSlot))
  (s : State) : State :=
  foldl (λ s p, setIntakes (λ i, <[(day, p.2, Med.id p.1) := checked]> i) s)
    s jobs.

(** [markAllToday] when the calls move in the order [sched] (a list of call
    indices): [Promise.all] resolves once every call has finished, and
    [loadWeek] follows.  [None] when [sched] leaves a call unfinished. *)
Definition markAllTodayUnder (profile : Profile.t) (c : Clock)
  (sched : list nat) (checked : bool) (s : State) : option State :=
  let day := todayISO c in
  let jobs := markAllTodayJobs c checked s in
  let r :=
    foldl (runStep profile day checked jobs)
      (replicate (length jobs) AwaitLog, startJobs day checked jobs s) sched in
  if bool_decide (Forall (λ pc, pc = Finished) r.1)
  then Some (loadWeek profile c r.2) else None.

(** A call taken from its first request to its end with no other call in
    between. *)
Definition runJob (profile : Profile.t) (day : Z) (checked : bool)
  (s : State) (j : Med.t * TimeSlot) : State :=
  let r := stepJob profile day checked j AwaitLog s in
  let r := stepJob profile day checked j r.1 r.2 in
  let r := stepJob profile day checked j r.1 r.2 in
  let r := stepJob profile day checked j r.1 r.2 in
  r.2.

(** Two orders: every call taken to its end before the next one starts, and
    the calls moving in turn, request by request. *)
Definition issueOrder (n : nat) : list nat := seq 0 n ≫= (λ i, [i; i; i; i]).
Definition lockStep (n : nat) : list nat :=
  seq 0 n ++ seq 0 n ++ seq 0 n ++ seq 0 n.

(** The row a call with [force = true] upserts, and the key of a call. *)
Definition jobRow (profile : Profile.t) (day : Z) (j : Med.t * TimeSlot)
  : Intake.t :=
  {| Intake.family_id := Profile.family_id profile; Intake.day := day;
     Intake.time_slot := j.2; Intake.med_id := Med.id j.1;
     Intake.taken := true |}.

Definition jobKey (profile : Profile.t) (day : Z) (j : Med.t * TimeSlot)
  : string * Z * TimeSlot * string :=
  (Profile.family_id profile, day, j.2, Med.id j.1).

(** How far a call has come. *)
Definition rank (pc : JobPc) : nat :=
  match pc with
  | AwaitLog => 0 | AwaitBox => 1 | AwaitUpdate _ _ => 2 | AwaitAnswer _ => 3
  | Finished => 4
  end.

(** The slot checkboxes of the edit and add popups:
    [on ? [...times, t] : times.filter((x) => x !== t)]. *)
Definition toggleSlot (on : bool) (t : TimeSlot) (times : list TimeSlot)
  : list TimeSlot :=
  if on then times ++ [t] else filter (λ x, x ≠ t) times.

(** A click on the checkbox of slot [t]: the box is drawn checked when
    [times.includes(t)], and the click reports the opposite. *)
Definition clickSlot (t : TimeSlot) (times : list TimeSlot) : list TimeSlot :=
  toggleSlot (negb (bool_decide (t ∈ times))) t times.

(** The "Modifica" button of a medication card. *)
Definition openEditor (m : Med.t) (s : State) : State :=
  setEditing
    (Some {| e_id := Med.id m; e_name := Med.name m; e_dosage := Med.dosage m;
             e_per_dose := Med.per_dose m; e_times := Med.times m |}) s.

(** [Number(el?.value || 0)] and [Number(el?.value ?? "")] for a numeric
    field that is missing or empty ([None]) or holds an integer: both read an
    empty field as zero. *)
Definition numberOfField (v : option Z) : JsNum := Num (default 0 v).

(** [!Number.isNaN(qty) && qty >= 0]. *)
Definition notNaNAndGe0 (qty : JsNum) : bool :=
  match qty with NaN => false | Num q => 0 <=? q end.

(** The four buttons of a medication card in the stock view, given what the
    numeric field next to the button holds. *)
Definition clickMoveFromPantry (m : Med.t) (v : option Z) (s : State) : State :=
  let qty := numberOfField v in moveFromPantry m qty s.

Definition clickAddPantry (m : Med.t) (v : option Z) (s : State) : State :=
  let qty := numberOfField v in addPantry m qty s.

Definition clickSetBox (m : Med.t) (v : option Z) (s : State) : State :=
  let qty := numberOfField v in
  if notNaNAndGe0 qty then setBoxQty m qty s else s.

Definition clickSetPantry (m : Med.t) (v : option Z) (s : State) : State :=
  let qty := numberOfField v in
  if notNaNAndGe0 qty then setPantryQty m qty s else s.

(** One step of the loop of [loadMeds] over the stock rows:
    [map[r.med_id] ||= { box: 0, dispensa: 0 }], then the field of the row's
    location is set to its quantity. *)
Definition stockStep (map : gmap string StockPair) (r : Stock.t)
  : gmap string StockPair :=
  let cur := pairOr0 map (Stock.med_id r) in
  <[Stock.med_id r :=
      match Stock.location r with
      | Box => {| box := Stock.qty r; dispensa := dispensa cur |}
      | Dispensa => {| box := box cur; dispensa := Stock.qty r |}
      end]> map.

(** The map [loadMeds] builds from the stock rows it is given. *)
Definition stocksOfRows (st : list Stock.t) : gmap string StockPair :=
  foldl stockStep ∅ st.

(** Severity of a tone, from worst to best. *)
Definition toneRank (t : Tone) : Z :=
  match t with red => 0 | amber => 1 | green => 2 end.

(** The primary key of [meds]. *)
Definition medIdsUnique (l : list Med.t) : Prop := NoDup (Med.id <$> l).

Module Scenario.

(** The sample medication listed, its stock rows gone. *)
Definition noStockRows : State :=
  {| backend :=
       {| t_meds := [Sample.aspirina]; t_stocks := []; t_intake_logs := [] |};
     weekStart := 19723; onlyToday := false;
     meds := [Sample.aspirina]; stocks := ∅; intakes := ∅;
     editing := None; adding := false; newMed := emptyNewMed |}.

(** Noon UTC on Wednesday 2024-01-03, read five hours behind UTC. *)
Definition clockWest : Clock :=
  {| now := 19725 * msPerDay + 43200000; tzOffset := -18000000 |}.

(** The add popup filled in for a second medication, on the sample
    database. *)
Definition formCardio : State :=
  setNewMed
    {| n_name := "Cardioaspirin"; n_dosage := EmptyString; n_per_dose := 2;
       n_threshold := 5; n_times := [Mezzogiorno]; initBox := 7; initDisp := 20 |}
    (setAdding true (Sample.stocked 10 3)).

(** The add popup with a name and no slot ticked. *)
Definition formNoSlot : State :=
  setNewMed
    {| n_name := "Cardioaspirin"; n_dosage := EmptyString; n_per_dose := 2;
       n_threshold := 5; n_times := []; initBox := 7; initDisp := 20 |}
    (setAdding true (Sample.stocked 10 3)).

(** A medication that is in no table. *)
Definition ghost : Med.t :=
  {| Med.id := "m9"; Med.family_id := "fam1"; Med.name := "Ghost";
     Med.dosage := None; Med.per_dose := 1; Med.times := [Sera];
     Med.threshold := 0; Med.archived := Some false |}.

(** New York around 2024-03-10: five hours behind UTC until 07:00Z of that
    day, four hours behind from then on; local times before 03:00 of that
    day are read back five hours behind. *)
Definition newYork : Zone :=
  {| utcOffset := λ t, if t <? 19792 * msPerDay + 25200000
                       then -18000000 else -14400000;
     localOffset := λ tl, if tl <? 19792 * msPerDay + 10800000
                          then -18000000 else -14400000 |}.

(** New York around 2024-11-03: four hours behind UTC until 06:00Z of that
    day, five hours behind from then on; local times before 02:00 of that
    day are read back four hours behind. *)
Definition newYorkAutumn : Zone :=
  {| utcOffset := λ t, if t <? 20030 * msPerDay + 21600000
                       then -14400000 else -18000000;
     localOffset := λ tl, if tl <? 20030 * msPerDay + 7200000
                          then -14400000 else -18000000 |}.

(** Rome around 2024-03-31: one hour ahead of UTC until 01:00Z of that day,
    two hours ahead from then on; local times before 03:00 of that day are
    read back one hour ahead. *)
Definition rome : Zone :=
  {| utcOffset := λ t, if t <? 19813 * msPerDay + 3600000
                       then 3600000 else 7200000;
     localOffset := λ tl, if tl <? 19813 * msPerDay + 10800000
                          then 3600000 else 7200000 |}.

(** 2024-03-10T23:30Z and 2024-11-04T00:30Z. *)
Definition sundayEvening : Z := 19792 * msPerDay + 84600000.
Definition autumnNight : Z := 20031 * msPerDay + 1800000.

(** Wednesday 2024-01-03 in "today only" mode: three doses planned, two of
    them of the same medication, none taken. *)
Definition noneTaken : State :=
  {| backend :=
       {| t_meds := [Sample.aspirina; Sample.cardio];
          t_stocks := t_stocks (backend Sample.oneOfThreeTaken);
          t_intake_logs := [] |};
     weekStart := 19723; onlyToday := true;
     meds := [Sample.aspirina; Sample.cardio];
     stocks := stocks Sample.oneOfThreeTaken;
     intakes := ∅;
     editing := None; adding := false; newMed := emptyNewMed |}.

(** The same day with the morning dose logged and loaded, and a tick of the
    evening before still tracked although the log has no row for it. *)
Definition oneTakenOneStale : State :=
  setIntakes (λ i, <[(19724, Sera, "m1") := true]> i) Sample.oneOfThreeTaken.

End Scenario.

(** Two clicks in a row on the checkbox of one planner row. *)
Definition clickTwice (profile : Profile.t) (day : Z) (time : TimeSlot)
  (m : Med.t) (s : State) : State :=
  toggleTaken profile day time m None (toggleTaken profile day time m None s).

(** The four stock operations on medication [m] with quantity [qty]. *)
Definition stockOperations (m : Med.t) (qty : JsNum) : list (State → State) :=
  [moveFromPantry m qty; addPantry m qty; setBoxQty m qty; setPantryQty m qty].

(** The medication row [addMed] inserts for the form [n]. *)
Definition medOfForm (profile : Profile.t) (medId : string) (n : NewMed) : Med.t :=
  {| Med.id := medId; Med.family_id := Profile.family_id profile;
     Med.name := n_name n;
     Med.dosage :=
       if String.eqb (n_dosage n) EmptyString then None else Some (n_dosage n);
     Med.per_dose := n_per_dose n; Med.times := n_times n;
     Med.threshold := n_threshold n; Med.archived := Some false |}.

(** Projections of a state built by the setters. *)
Ltac unfold_state :=
  cbn [backend weekStart onlyToday meds stocks intakes editing adding newMed
       t_meds t_stocks t_intake_logs
       onBackend onMeds onStocks onIntakeLogs
       setWeekStart setOnlyToday setMeds setStocks setIntakes setEditing
       setAdding setNewMed].

Ltac unfold_state_in H :=
  cbn [backend weekStart onlyToday meds stocks intakes editing adding newMed
       t_meds t_stocks t_intake_logs
       onBackend onMeds onStocks onIntakeLogs
       setWeekStart setOnlyToday setMeds setStocks setIntakes setEditing
       setAdding setNewMed] in H.

(** * Properties *)

(** ** Dates and the displayed days *)

Lemma addDaysISO_spec (iso n : Z) : addDaysISO iso n = iso + n.
Proof.
  unfold addDaysISO, parseISODate, addDate, toISODate.
  rewrite <- Z.mul_add_distr_r. apply Z.div_mul. discriminate.
Qed.

Lemma startOfWeekISO_spec (c : Clock) :
  startOfWeekISO c = todayISO c - (getDay c (now c) + 6) mod 7.
Proof.
  unfold startOfWeekISO, todayISO, addDate, toISODate.
  rewrite Z.div_add by discriminate. lia.
Qed.

(** Whatever the zone, the week anchored at [startOfWeekISO] contains the
    UTC date [todayISO]. *)
Lemma startOfWeekISO_window (c : Clock) :
  startOfWeekISO c ≤ todayISO c ≤ addDaysISO (startOfWeekISO c) 6.
Proof.
  rewrite addDaysISO_spec, startOfWeekISO_spec.
  pose proof (Z.mod_pos_bound (getDay c (now c) + 6) 7). lia.
Qed.

(** When the local and the UTC calendar date of the instant agree, the week
    starts on a Monday. *)
Lemma startOfWeekISO_monday_same_date (c : Clock) :
  localDay c (now c) = todayISO c →
  weekdayFromMonday (startOfWeekISO c) = 0.
Proof.
  intros Hsame. rewrite startOfWeekISO_spec.
  unfold weekdayFromMonday, getDay. rewrite Hsame.
  generalize (todayISO c). intros t.
  Z.div_mod_to_equations. lia.
Qed.

Lemma allDays_spec (s : State) :
  allDays s = (λ i, weekStart s + Z.of_nat i) <$> seq 0 7.
Proof.
  unfold allDays. apply list_fmap_ext. intros _ i _. apply addDaysISO_spec.
Qed.

(** In "today only" mode the displayed days are today when the anchored week
    contains it, and no day at all otherwise. *)
Lemma days_onlyToday (c : Clock) (s : State) :
  onlyToday s = true →
  days c s =
    if decide (weekStart s ≤ todayISO c ≤ weekStart s + 6) then [todayISO c] else [].
Proof.
  intros Ho. unfold days. rewrite Ho, allDays_spec. cbn [seq fmap list_fmap].
  generalize (todayISO c). generalize (weekStart s). intros w t.
  rewrite !filter_cons, filter_nil.
  repeat case_decide; cbn in *;
    first [ exfalso; lia | f_equal; lia | reflexivity ].
Qed.

(** C2 (the code departs from the claim).  The claim: for every reference
    date [startOfWeekISO] returns a Monday whose seven-day window contains
    the reference date.  On the code: at 00:30 local time on Monday
    2024-01-01 in a zone one hour ahead of UTC, [getDay] reads the local
    Monday, no day is subtracted, and [toISOString] renders the UTC date
    2023-12-31, a Sunday. *)
Theorem startOfWeekISO_sunday_after_local_midnight :
  civil_from_days (localDay Sample.clockLocalMidnight (now Sample.clockLocalMidnight))
    = (2024, 1, 1)
  ∧ getDay Sample.clockLocalMidnight (now Sample.clockLocalMidnight) = 1
  ∧ civil_from_days (startOfWeekISO Sample.clockLocalMidnight) = (2023, 12, 31)
  ∧ weekdayFromMonday (startOfWeekISO Sample.clockLocalMidnight) = 6
  ∧ ¬ (∀ c : Clock, weekdayFromMonday (startOfWeekISO c) = 0).
Proof.
  split; [vm_compute; reflexivity|].
  split; [vm_compute; reflexivity|].
  split; [vm_compute; reflexivity|].
  split; [vm_compute; reflexivity|].
  intros H. specialize (H Sample.clockLocalMidnight). vm_compute in H. discriminate.
Qed.

(** C4 (the code departs from the claim).  The claim: in "today only" mode
    the displayed days are exactly today, whatever the week-start anchor.
    On the code: after one step back in the week navigation the anchored
    week no longer contains today, and ticking "Solo oggi" leaves no day
    displayed, at every instant and in every zone, while [loadWeek] in the
    same mode still loads today. *)
Theorem days_onlyToday_empty_after_week_back (c : Clock) (d : DB) :
  onlyToday (weekBackOnlyToday c d) = true
  ∧ weekStart (weekBackOnlyToday c d) = startOfWeekISO c - 7
  ∧ days c (weekBackOnlyToday c d) = [].
Proof.
  split; [reflexivity|]. 
  assert (Hw : weekStart (weekBackOnlyToday c d) = startOfWeekISO c - 7).
  { cbn. rewrite addDaysISO_spec. lia. }
  split; [exact Hw|].
  rewrite days_onlyToday by reflexivity. rewrite Hw.
  pose proof (startOfWeekISO_window c) as Hwin. rewrite addDaysISO_spec in Hwin.
  case_decide; [exfalso; lia | reflexivity].
Qed.

(** ** Stock indicators *)

(** C6.  Weekly need is per-dose times scheduled slots times seven, total
    stock is on-hand plus reserve, and the status is "Sotto soglia" (red)
    when the total is below the threshold, else "Copertura < 1 settimana"
    (amber) when it is below the weekly need, else "OK" (green); with
    threshold 10, per-dose 1 and two slots the need is 14 and totals 5, 12
    and 20 give red, amber and green. *)
Theorem statusText_statusTone_spec (s : State) (m : Med.t) :
  weeklyNeed m = Med.per_dose m * Z.of_nat (length (Med.times m)) * 7
  ∧ totalStock s m
      = box (pairOr0 (stocks s) (Med.id m)) + dispensa (pairOr0 (stocks s) (Med.id m))
  ∧ (totalStock s m < Med.threshold m →
       statusText s m = "Sotto soglia" ∧ statusTone (statusText s m) = red)
  ∧ (Med.threshold m ≤ totalStock s m → totalStock s m < weeklyNeed m →
       statusText s m = "Copertura < 1 settimana"
       ∧ statusTone (statusText s m) = amber)
  ∧ (Med.threshold m ≤ totalStock s m → weeklyNeed m ≤ totalStock s m →
       statusText s m = "OK" ∧ statusTone (statusText s m) = green)
  ∧ (Med.threshold m = 10 → Med.per_dose m = 1 → length (Med.times m) = 2%nat →
       weeklyNeed m = 14
       ∧ (totalStock s m = 5 →
            statusText s m = "Sotto soglia" ∧ statusTone (statusText s m) = red)
       ∧ (totalStock s m = 12 →
            statusText s m = "Copertura < 1 settimana"
            ∧ statusTone (statusText s m) = amber)
       ∧ (totalStock s m = 20 →
            statusText s m = "OK" ∧ statusTone (statusText s m) = green)).
Proof.
  assert (Hred : totalStock s m < Med.threshold m →
            statusText s m = "Sotto soglia" ∧ statusTone (statusText s m) = red).
  { intros H. unfold statusText. apply Z.ltb_lt in H. rewrite H. by split. }
  assert (Hamber : Med.threshold m ≤ totalStock s m → totalStock s m < weeklyNeed m →
            statusText s m = "Copertura < 1 settimana"
            ∧ statusTone (statusText s m) = amber).
  { intros H1 H2. unfold statusText.
    apply Z.ltb_ge in H1. apply Z.ltb_lt in H2. rewrite H1, H2. by split. }
  assert (Hgreen : Med.threshold m ≤ totalStock s m → weeklyNeed m ≤ totalStock s m →
            statusText s m = "OK" ∧ statusTone (statusText s m) = green).
  { intros H1 H2. unfold statusText.
    apply Z.ltb_ge in H1. apply Z.ltb_ge in H2. rewrite H1, H2. by split. }
  split; [reflexivity|]. split.
  { unfold totalStock, pairOr0. by destruct (stocks s !! Med.id m). }
  do 3 (split; [assumption|]).
  intros Ht Hp Hn.
  assert (Hneed : weeklyNeed m = 14) by (unfold weeklyNeed; rewrite Hp, Hn; reflexivity).
  split; [exact Hneed|].
  split; [intros Htot; apply Hred; lia|].
  split; [intros Htot; apply Hamber; lia|].
  intros Htot; apply Hgreen; lia.
Qed.

Lemma statusText_statusTone_spec_witness :
  statusTone (statusText (Sample.withStock 3 2) Sample.aspirina) = red
  ∧ statusTone (statusText (Sample.withStock 6 6) Sample.aspirina) = amber
  ∧ statusTone (statusText (Sample.withStock 12 8) Sample.aspirina) = green.
Proof.
  pose proof (statusText_statusTone_spec (Sample.withStock 3 2) Sample.aspirina)
    as (_ & _ & _ & _ & _ & H5).
  pose proof (statusText_statusTone_spec (Sample.withStock 6 6) Sample.aspirina)
    as (_ & _ & _ & _ & _ & H12).
  pose proof (statusText_statusTone_spec (Sample.withStock 12 8) Sample.aspirina)
    as (_ & _ & _ & _ & _ & H20).
  destruct (H5 eq_refl eq_refl eq_refl) as (_ & Hred & _ & _).
  destruct (H12 eq_refl eq_refl eq_refl) as (_ & _ & Hamber & _).
  destruct (H20 eq_refl eq_refl eq_refl) as (_ & _ & _ & Hgreen).
  split; [apply Hred; vm_compute; reflexivity|].
  split; [apply Hamber; vm_compute; reflexivity|].
  apply Hgreen; vm_compute; reflexivity.
Defined.

(** ** Backend tables *)

Lemma single_fmap {A B} (f : A → B) (l : list A) :
  single (f <$> l) = f <$> single l.
Proof. by destruct l as [|? []]. Qed.

Lemma filter_fmap_stable {A} (P : A → Prop) `{!∀ x, Decision (P x)}
  (g : A → A) (l : list A) :
  (∀ x, P (g x) ↔ P x) → filter P (g <$> l) = g <$> filter P l.
Proof.
  intros Hg. induction l as [|a l IH]; [reflexivity|].
  rewrite fmap_cons, !filter_cons.
  destruct (decide (P (g a))) as [Hy|Hn], (decide (P a)) as [Hy'|Hn'].
  - by rewrite fmap_cons, IH.
  - exfalso. apply Hn'. by apply Hg.
  - exfalso. apply Hn. by apply Hg.
  - exact IH.
Qed.

Lemma filter_all {A} (P : A → Prop) `{!∀ x, Decision (P x)} (l : list A) :
  (∀ x, x ∈ l → P x) → filter P l = l.
Proof.
  induction l as [|a l IH]; intros Hall; [reflexivity|].
  rewrite filter_cons, decide_True by (apply Hall; left).
  f_equal. apply IH. intros x Hx. apply Hall. by right.
Qed.

Lemma filter_none {A} (P : A → Prop) `{!∀ x, Decision (P x)} (l : list A) :
  (∀ x, x ∈ l → ¬ P x) → filter P l = [].
Proof.
  induction l as [|a l IH]; intros Hall; [reflexivity|].
  rewrite filter_cons, decide_False by (apply Hall; left).
  apply IH. intros x Hx. apply Hall. by right.
Qed.

Lemma fmap_fixed {A} (g : A → A) (l : list A) :
  (∀ x, x ∈ l → g x = x) → g <$> l = l.
Proof.
  induction l as [|a l IH]; intros H; [reflexivity|].
  rewrite fmap_cons, H by left. f_equal. apply IH. intros x Hx. apply H. by right.
Qed.

(** Under a uniqueness constraint on [f], the rows that share the [f] of a
    stored row are that row alone. *)
Lemma filter_unique_key {A K} `{!EqDecision K} (f : A → K) (l : list A) (x : A) :
  NoDup (f <$> l) → x ∈ l → filter (λ r, f r = f x) l = [x].
Proof.
  induction l as [|a l IH]; intros Hnd Hx; [by apply elem_of_nil in Hx|].
  rewrite fmap_cons in Hnd. apply NoDup_cons in Hnd as [Ha Hnd].
  rewrite filter_cons. apply elem_of_cons in Hx as [->|Hx].
  - rewrite decide_True by reflexivity. f_equal.
    apply filter_none. intros r Hr Heq. apply Ha. rewrite <- Heq.
    apply list_elem_of_fmap. eauto.
  - rewrite decide_False; [by apply IH|].
    intros Heq. apply Ha. rewrite Heq. apply list_elem_of_fmap. eauto.
Qed.

Lemma unique_key_inj {A K} (f : A → K) (l : list A) (x y : A) :
  NoDup (f <$> l) → x ∈ l → y ∈ l → f x = f y → x = y.
Proof.
  induction l as [|a l IH]; intros Hnd Hx Hy Heq; [by apply elem_of_nil in Hx|].
  rewrite fmap_cons in Hnd. apply NoDup_cons in Hnd as [Ha Hnd].
  apply elem_of_cons in Hx as [->|Hx]; apply elem_of_cons in Hy as [->|Hy].
  - reflexivity.
  - exfalso. apply Ha. rewrite Heq. apply list_elem_of_fmap. eauto.
  - exfalso. apply Ha. rewrite <- Heq. apply list_elem_of_fmap. eauto.
  - by apply IH.
Qed.

Lemma single_Some {A} (l : list A) (x : A) : single l = Some x → l = [x].
Proof. destruct l as [|? []]; intros H; by inversion H. Qed.

Lemma stocksAt_updateQty mid loc i q st :
  Sb.stocksAt mid loc (Sb.updateQty i q st)
  = Sb.updateQty i q (Sb.stocksAt mid loc st).
Proof.
  unfold Sb.stocksAt, Sb.updateQty. apply filter_fmap_stable.
  intros r. by destruct (decide (Stock.id r = i)).
Qed.

Lemma updateQty_ids i q st : Stock.id <$> Sb.updateQty i q st = Stock.id <$> st.
Proof.
  unfold Sb.updateQty. rewrite <- list_fmap_compose. apply list_fmap_ext.
  intros _ r _. cbn. by destruct (decide (Stock.id r = i)).
Qed.

Lemma updateQty_unique i q st :
  stockIdsUnique st → stockIdsUnique (Sb.updateQty i q st).
Proof. unfold stockIdsUnique. by rewrite updateQty_ids. Qed.

(** Reading a location after an update by id. *)
Lemma single_stocksAt_updateQty mid loc i q st :
  single (Sb.stocksAt mid loc (Sb.updateQty i q st))
  = (λ r, if decide (Stock.id r = i) then Sb.withQty q r else r)
      <$> single (Sb.stocksAt mid loc st).
Proof. rewrite stocksAt_updateQty. apply single_fmap. Qed.

Lemma upsertIntake_elem row log : row ∈ Sb.upsertIntake row log.
Proof.
  unfold Sb.upsertIntake. case_decide as Hin.
  - apply list_elem_of_fmap in Hin as (r & Hk & Hr).
    apply list_elem_of_fmap. exists r. split; [|exact Hr].
    by rewrite decide_True.
  - apply elem_of_app. right. by left.
Qed.

Lemma upsertIntake_keys row log :
  Sb.intakeKey <$> Sb.upsertIntake row log
  = if decide (Sb.intakeKey row ∈ Sb.intakeKey <$> log)
    then Sb.intakeKey <$> log
    else (Sb.intakeKey <$> log) ++ [Sb.intakeKey row].
Proof.
  unfold Sb.upsertIntake. case_decide as Hin.
  - rewrite <- list_fmap_compose. apply list_fmap_ext. intros _ r _. cbn.
    by case_decide.
  - by rewrite fmap_app.
Qed.

Lemma upsertIntake_unique row log :
  intakeKeysUnique log → intakeKeysUnique (Sb.upsertIntake row log).
Proof.
  unfold intakeKeysUnique. rewrite upsertIntake_keys. intros Hnd.
  case_decide as Hin; [exact Hnd|].
  apply NoDup_app. split; [exact Hnd|]. split; [|apply NoDup_singleton].
  intros k Hk Hk'. apply list_elem_of_singleton in Hk' as ->. by apply Hin.
Qed.

(** After an upsert the log holds the upserted row, and only it, under the
    row's key. *)
Lemma upsertIntake_rowsOfKey row log :
  intakeKeysUnique log →
  rowsOfKey (Sb.intakeKey row) (Sb.upsertIntake row log) = [row].
Proof.
  intros Hnd. unfold rowsOfKey.
  apply (filter_unique_key Sb.intakeKey).
  - by apply upsertIntake_unique.
  - apply upsertIntake_elem.
Qed.

(** A second upsert of the same row changes nothing. *)
Lemma upsertIntake_idem row log :
  Sb.upsertIntake row (Sb.upsertIntake row log) = Sb.upsertIntake row log.
Proof.
  assert (Hin : Sb.intakeKey row ∈ Sb.intakeKey <$> Sb.upsertIntake row log).
  { apply list_elem_of_fmap. exists row. split; [reflexivity|apply upsertIntake_elem]. }
  unfold Sb.upsertIntake at 1. rewrite decide_True by exact Hin.
  apply fmap_fixed. intros r Hr. case_decide as Hk; [|reflexivity].
  unfold Sb.upsertIntake in Hr. case_decide as Hin'.
  - apply list_elem_of_fmap in Hr as (r0 & -> & _).
    case_decide as Hk0; [reflexivity|contradiction].
  - apply elem_of_app in Hr as [Hr|Hr].
    + exfalso. apply Hin'. rewrite <- Hk. apply list_elem_of_fmap. eauto.
    + by apply list_elem_of_singleton in Hr.
Qed.

Lemma deleteIntake_absent k log :
  k ∉ Sb.intakeKey <$> log → Sb.deleteIntake k log = log.
Proof.
  intros Hk. apply filter_all. intros r Hr Heq. apply Hk. rewrite <- Heq.
  apply list_elem_of_fmap. eauto.
Qed.

Lemma deleteIntake_unique k log :
  intakeKeysUnique log → intakeKeysUnique (Sb.deleteIntake k log).
Proof.
  unfold intakeKeysUnique, Sb.deleteIntake. intros Hnd.
  induction log as [|r log IH]; [exact Hnd|].
  rewrite fmap_cons in Hnd. apply NoDup_cons in Hnd as [Hr Hnd].
  rewrite filter_cons. case_decide; [|by apply IH].
  rewrite fmap_cons. apply NoDup_cons. split; [|by apply IH].
  intros Hin. apply Hr. apply list_elem_of_fmap in Hin as (r' & -> & Hr').
  apply list_elem_of_filter in Hr' as [_ Hr']. apply list_elem_of_fmap. eauto.
Qed.

(** ** Recording an intake *)

Lemma toggleTaken_logOf profile day time m (b : bool) s :
  logOf (toggleTaken profile day time m (Some b) s)
  = if b then
      Sb.upsertIntake
        {| Intake.family_id := Profile.family_id profile; Intake.day := day;
           Intake.time_slot := time; Intake.med_id := Med.id m;
           Intake.taken := true |} (logOf s)
    else Sb.deleteIntake (Profile.family_id profile, day, time, Med.id m) (logOf s).
Proof.
  unfold toggleTaken, logOf.
  destruct b; unfold_state;
    match goal with |- context [single ?l] => destruct (single l) end;
    reflexivity.
Qed.

Lemma toggleTaken_intakes profile day time m (b : bool) s :
  intakes (toggleTaken profile day time m (Some b) s)
  = <[(day, time, Med.id m) := b]> (intakes s).
Proof.
  unfold toggleTaken.
  destruct b; unfold_state;
    match goal with |- context [single ?l] => destruct (single l) end;
    reflexivity.
Qed.

(** The stock rows after [toggleTaken]: the one Box row of the medication,
    when there is exactly one, moves by [per_dose] and is clamped at zero. *)
Lemma toggleTaken_stocksOf profile day time m (b : bool) s :
  stocksOf (toggleTaken profile day time m (Some b) s)
  = match single (Sb.stocksAt (Med.id m) Box (stocksOf s)) with
    | Some r =>
      Sb.updateQty (Stock.id r)
        (Z.max 0 (Stock.qty r + (if b then - Med.per_dose m else Med.per_dose m)))
        (stocksOf s)
    | None => stocksOf s
    end.
Proof.
  unfold toggleTaken, stocksOf.
  destruct b; unfold_state;
    match goal with |- context [single ?l] => destruct (single l) end;
    reflexivity.
Qed.

(** The Box adjustment of [toggleTaken] does not look at the log. *)
Lemma toggleTaken_qtyAt_Box profile day time m (b : bool) s q :
  qtyAt (Med.id m) Box s = Some q →
  qtyAt (Med.id m) Box (toggleTaken profile day time m (Some b) s)
  = Some (Z.max 0 (q + (if b then - Med.per_dose m else Med.per_dose m))).
Proof.
  unfold qtyAt. rewrite toggleTaken_stocksOf. intros Hq.
  destruct (single (Sb.stocksAt (Med.id m) Box (stocksOf s))) as [r|] eqn:Hr;
    [|discriminate].
  rewrite single_stocksAt_updateQty, Hr. cbn.
  rewrite decide_True by reflexivity. cbn in *. congruence.
Qed.

(** C1.  Two successive [toggleTaken(day, time, m, true)] leave exactly one
    log row under the key, the second call leaves the log as the first one
    made it, and each call lowers the Box quantity by [per_dose], clamped at
    zero. *)
Theorem toggleTaken_true_twice profile day time m s q :
  intakeKeysUnique (logOf s) →
  qtyAt (Med.id m) Box s = Some q →
  length (rowsOfKey (Profile.family_id profile, day, time, Med.id m)
            (logOf (toggleTaken profile day time m (Some true)
                      (toggleTaken profile day time m (Some true) s)))) = 1%nat
  ∧ logOf (toggleTaken profile day time m (Some true)
             (toggleTaken profile day time m (Some true) s))
    = logOf (toggleTaken profile day time m (Some true) s)
  ∧ qtyAt (Med.id m) Box (toggleTaken profile day time m (Some true) s)
    = Some (Z.max 0 (q - Med.per_dose m))
  ∧ qtyAt (Med.id m) Box
      (toggleTaken profile day time m (Some true)
         (toggleTaken profile day time m (Some true) s))
    = Some (Z.max 0 (Z.max 0 (q - Med.per_dose m) - Med.per_dose m)).
Proof.
  intros Hnd Hq.
  pose proof (toggleTaken_qtyAt_Box profile day time m true s q Hq) as H1.
  cbv beta iota in H1. rewrite Z.add_opp_r in H1.
  pose proof (toggleTaken_qtyAt_Box profile day time m true _ _ H1) as H2.
  cbv beta iota in H2. rewrite Z.add_opp_r in H2.
  rewrite !toggleTaken_logOf, upsertIntake_idem.
  split; [|by repeat split].
  set (row := {| Intake.family_id := Profile.family_id profile; Intake.day := day;
                 Intake.time_slot := time; Intake.med_id := Med.id m;
                 Intake.taken := true |}).
  change (Profile.family_id profile, day, time, Med.id m) with (Sb.intakeKey row).
  by rewrite upsertIntake_rowsOfKey.
Qed.

Lemma toggleTaken_true_twice_witness :
  qtyAt "m1" Box (Sample.stocked 10 3) = Some 10
  ∧ qtyAt "m1" Box
      (toggleTaken Sample.profile 19725 Mattina Sample.aspirina (Some true)
         (toggleTaken Sample.profile 19725 Mattina Sample.aspirina (Some true)
            (Sample.stocked 10 3)))
    = Some 8.
Proof.
  split; [reflexivity|].
  refine (proj2 (proj2 (proj2
    (toggleTaken_true_twice Sample.profile 19725 Mattina Sample.aspirina
       (Sample.stocked 10 3) 10 _ _)))).
  - apply NoDup_nil_2.
  - reflexivity.
Defined.

(** C5.  [toggleTaken(day, time, m, false)] with no log row under the key
    leaves the log as it is and still raises the Box quantity by
    [per_dose] (the result clamped at zero). *)
Theorem toggleTaken_false_absent profile day time m s q :
  (Profile.family_id profile, day, time, Med.id m) ∉ Sb.intakeKey <$> logOf s →
  qtyAt (Med.id m) Box s = Some q →
  logOf (toggleTaken profile day time m (Some false) s) = logOf s
  ∧ qtyAt (Med.id m) Box (toggleTaken profile day time m (Some false) s)
    = Some (Z.max 0 (q + Med.per_dose m)).
Proof.
  intros Habs Hq. split.
  - rewrite toggleTaken_logOf. by apply deleteIntake_absent.
  - exact (toggleTaken_qtyAt_Box profile day time m false s q Hq).
Qed.

Lemma toggleTaken_false_absent_witness :
  logOf (toggleTaken Sample.profile 19725 Mattina Sample.aspirina (Some false)
           (Sample.stocked 10 3)) = []
  ∧ qtyAt "m1" Box
      (toggleTaken Sample.profile 19725 Mattina Sample.aspirina (Some false)
         (Sample.stocked 10 3))
    = Some 11.
Proof.
  refine (toggleTaken_false_absent Sample.profile 19725 Mattina Sample.aspirina
            (Sample.stocked 10 3) 10 _ _).
  - apply not_elem_of_nil.
  - reflexivity.
Defined.

(** ** Moving stock between the locations *)

Lemma qtyAt_Some mid loc s q :
  qtyAt mid loc s = Some q →
  ∃ r, single (Sb.stocksAt mid loc (stocksOf s)) = Some r
       ∧ Stock.qty r = q ∧ r ∈ stocksOf s
       ∧ Stock.med_id r = mid ∧ Stock.location r = loc.
Proof.
  unfold qtyAt. intros Hq.
  destruct (single (Sb.stocksAt mid loc (stocksOf s))) as [r|] eqn:Hr;
    [|discriminate].
  exists r. split; [reflexivity|]. split; [by inversion Hq|].
  apply single_Some in Hr.
  assert (Hin : r ∈ Sb.stocksAt mid loc (stocksOf s)) by (rewrite Hr; left).
  apply list_elem_of_filter in Hin as [[? ?] ?]. done.
Qed.

Lemma moveFromPantry_noop m qty s :
  qty = NaN ∨ (∃ q, qty = Num q ∧ q ≤ 0) → moveFromPantry m qty s = s.
Proof.
  intros [->|(q & -> & Hq)]; [reflexivity|].
  unfold moveFromPantry.
  destruct (q =? 0) eqn:H0; [reflexivity|].
  apply Z.leb_le in Hq. by rewrite Hq.
Qed.

(** C3.  [moveFromPantry] with a NaN, zero or negative quantity changes
    nothing; with a positive quantity [q] the Box row receives all of [q]
    and the Dispensa row keeps what is left of it, zero at the least. *)
Theorem moveFromPantry_spec m s b p :
  stockIdsUnique (stocksOf s) →
  qtyAt (Med.id m) Box s = Some b →
  qtyAt (Med.id m) Dispensa s = Some p →
  moveFromPantry m NaN s = s
  ∧ (∀ q, q ≤ 0 → moveFromPantry m (Num q) s = s)
  ∧ (∀ q, 0 < q →
       qtyAt (Med.id m) Box (moveFromPantry m (Num q) s) = Some (b + q)
       ∧ qtyAt (Med.id m) Dispensa (moveFromPantry m (Num q) s)
         = Some (Z.max 0 (p - q))
       ∧ stocks (moveFromPantry m (Num q) s) !! Med.id m
         = Some {| box := b + q; dispensa := Z.max 0 (p - q) |}).
Proof.
  intros Hnd Hb Hp.
  split; [reflexivity|].
  split; [intros q Hq; apply moveFromPantry_noop; right; eauto|].
  intros q Hq.
  apply qtyAt_Some in Hb as (rb & Hrb & <- & Hinb & _ & Hlb).
  apply qtyAt_Some in Hp as (rp & Hrp & <- & Hinp & _ & Hlp).
  assert (Hne : Stock.id rb ≠ Stock.id rp).
  { intros Heq.
    assert (rb = rp) by (eapply (unique_key_inj Stock.id); eauto).
    congruence. }
  unfold moveFromPantry, qtyAt, stocksOf in *.
  assert (Hq0 : (q =? 0) || (q <=? 0) = false).
  { apply orb_false_iff. split; [apply Z.eqb_neq|apply Z.leb_gt]; lia. }
  rewrite Hq0, Hrb, Hrp. unfold_state.
  rewrite !single_stocksAt_updateQty, Hrb, Hrp. cbn.
  rewrite (decide_True (P := Stock.id rb = Stock.id rb)) by reflexivity.
  rewrite (decide_False (P := Stock.id rp = Stock.id rb)) by congruence.
  cbn.
  rewrite (decide_True (P := Stock.id rp = Stock.id rp)) by reflexivity.
  rewrite (decide_False (P := Stock.id rb = Stock.id rp)) by congruence.
  repeat split. apply lookup_insert_eq.
Qed.

Lemma moveFromPantry_spec_witness :
  moveFromPantry Sample.aspirina (Num (-2)) (Sample.stocked 10 3)
    = Sample.stocked 10 3
  ∧ qtyAt "m1" Box (moveFromPantry Sample.aspirina (Num 5) (Sample.stocked 10 3))
    = Some 15
  ∧ qtyAt "m1" Dispensa (moveFromPantry Sample.aspirina (Num 5) (Sample.stocked 10 3))
    = Some 0.
Proof.
  assert (Hnd : stockIdsUnique (stocksOf (Sample.stocked 10 3))).
  { unfold stockIdsUnique. cbn. apply NoDup_cons. split.
    - intros Hin. apply list_elem_of_singleton in Hin. discriminate.
    - apply NoDup_singleton. }
  destruct (moveFromPantry_spec Sample.aspirina (Sample.stocked 10 3) 10 3
              Hnd eq_refl eq_refl) as (_ & Hle & Hgt).
  split; [apply Hle; lia|].
  destruct (Hgt 5 ltac:(lia)) as (Hbox & Hpan & _).
  split; [exact Hbox | exact Hpan].
Defined.

(** ** The catalog *)

Lemma insertByName_elem (x m : Med.t) (l : list Med.t) :
  x ∈ Sb.insertByName m l ↔ x = m ∨ x ∈ l.
Proof.
  induction l as [|a l IH]; cbn.
  - rewrite list_elem_of_singleton, elem_of_nil. tauto.
  - destruct (String.leb (Med.name m) (Med.name a)).
    + by rewrite elem_of_cons.
    + rewrite !elem_of_cons, IH. tauto.
Qed.

Lemma orderByName_elem (x : Med.t) (l : list Med.t) :
  x ∈ Sb.orderByName l ↔ x ∈ l.
Proof.
  unfold Sb.orderByName. induction l as [|a l IH]; cbn; [reflexivity|].
  by rewrite insertByName_elem, IH, elem_of_cons.
Qed.

Lemma loadMeds_backend profile s : backend (loadMeds profile s) = backend s.
Proof.
  unfold loadMeds. cbv zeta.
  match goal with |- context [(0 <? ?n)%nat] => destruct (0 <? n)%nat end;
    reflexivity.
Qed.

Lemma loadMeds_meds profile s :
  meds (loadMeds profile s)
  = Sb.orderByName
      (filter (λ m, Med.family_id m = Profile.family_id profile
                    ∧ Med.archived m = Some false) (medsOf s)).
Proof.
  unfold loadMeds. cbv zeta.
  match goal with |- context [(0 <? ?n)%nat] => destruct (0 <? n)%nat end;
    reflexivity.
Qed.

(** The active listing holds exactly the family's rows whose flag is
    [false]. *)
Lemma loadMeds_listing profile s (x : Med.t) :
  x ∈ meds (loadMeds profile s)
  ↔ x ∈ medsOf s ∧ Med.family_id x = Profile.family_id profile
    ∧ Med.archived x = Some false.
Proof.
  rewrite loadMeds_meds, orderByName_elem, list_elem_of_filter. tauto.
Qed.

(** C8.  [archiveMed] sets the flag of the medication's row, deletes its
    stock rows and those only, keeps every log row, and the archived
    medication is not in the active listing; [hardDeleteMed] deletes the
    family's log rows of the medication, its stock rows and its row, and
    nothing else. *)
Theorem archiveMed_hardDeleteMed_spec profile (m : Med.t) (s : State) :
  (∀ r, r ∈ medsOf (archiveMed profile m s) → Med.id r = Med.id m →
        Med.archived r = Some true)
  ∧ (Med.id <$> medsOf (archiveMed profile m s) = Med.id <$> medsOf s)
  ∧ (∀ r, r ∈ stocksOf (archiveMed profile m s)
          ↔ r ∈ stocksOf s ∧ Stock.med_id r ≠ Med.id m)
  ∧ logOf (archiveMed profile m s) = logOf s
  ∧ (∀ r, r ∈ meds (archiveMed profile m s) → Med.id r ≠ Med.id m)
  ∧ (∀ r, r ∈ logOf (hardDeleteMed profile m s)
          ↔ r ∈ logOf s
            ∧ ¬ (Intake.med_id r = Med.id m
                 ∧ Intake.family_id r = Profile.family_id profile))
  ∧ (∀ r, r ∈ stocksOf (hardDeleteMed profile m s)
          ↔ r ∈ stocksOf s ∧ Stock.med_id r ≠ Med.id m)
  ∧ (∀ r, r ∈ medsOf (hardDeleteMed profile m s)
          ↔ r ∈ medsOf s ∧ Med.id r ≠ Med.id m).
Proof.
  assert (Harch : ∀ r, r ∈ medsOf (archiveMed profile m s) → Med.id r = Med.id m →
                       Med.archived r = Some true).
  { intros r. unfold archiveMed, medsOf. rewrite loadMeds_backend. unfold_state.
    intros Hr Hid. apply list_elem_of_fmap in Hr as (r0 & -> & _).
    case_decide as Hd; [reflexivity|]. contradiction. }
  split; [exact Harch|].
  split.
  { unfold archiveMed, medsOf. rewrite loadMeds_backend. unfold_state.
    rewrite <- list_fmap_compose. apply list_fmap_ext. intros _ r _. cbn.
    by case_decide. }
  split.
  { intros r. unfold archiveMed, stocksOf. rewrite loadMeds_backend. unfold_state.
    unfold Sb.deleteStocksOf. by rewrite list_elem_of_filter, (comm and). }
  split.
  { unfold archiveMed, logOf. by rewrite loadMeds_backend. }
  split.
  { intros r Hr Hid. apply loadMeds_listing in Hr as (Hr & _ & Hfl).
    unfold archiveMed in Hr, Harch.
    rewrite (Harch r) in Hfl; [discriminate| |exact Hid].
    unfold medsOf in *. by rewrite loadMeds_backend. }
  split.
  { intros r. unfold hardDeleteMed, logOf. rewrite loadMeds_backend. unfold_state.
    unfold Sb.deleteIntakesOf. by rewrite list_elem_of_filter, (comm and). }
  split.
  { intros r. unfold hardDeleteMed, stocksOf. rewrite loadMeds_backend. unfold_state.
    unfold Sb.deleteStocksOf. by rewrite list_elem_of_filter, (comm and). }
  intros r. unfold hardDeleteMed, medsOf. rewrite loadMeds_backend. unfold_state.
  by rewrite list_elem_of_filter, (comm and).
Qed.

Lemma archiveMed_hardDeleteMed_spec_witness :
  Sample.aspirinaArchived
    ∈ medsOf (archiveMed Sample.profile Sample.aspirina (Sample.stocked 10 3))
  ∧ Med.archived Sample.aspirinaArchived = Some true
  ∧ meds (archiveMed Sample.profile Sample.aspirina (Sample.stocked 10 3)) = [].
Proof.
  destruct (archiveMed_hardDeleteMed_spec Sample.profile Sample.aspirina
              (Sample.stocked 10 3)) as (Hflag & _).
  assert (Hin : Sample.aspirinaArchived
                  ∈ medsOf (archiveMed Sample.profile Sample.aspirina
                              (Sample.stocked 10 3)))
    by (vm_compute; left).
  split; [exact Hin|].
  split; [exact (Hflag _ Hin eq_refl)|reflexivity].
Defined.

(** C10.  [saveMed] leaves [stocks] and [intake_logs] as they are, keeps
    every medication row in place with its id, family, threshold and
    archived flag, changes no row other than the edited one, and gives the
    edited row the popup's name, dosage, per-dose and slots. *)
Theorem saveMed_frame profile (s : State) :
  stocksOf (saveMed profile s) = stocksOf s
  ∧ logOf (saveMed profile s) = logOf s
  ∧ medFrame <$> medsOf (saveMed profile s) = medFrame <$> medsOf s
  ∧ (editing s = None → saveMed profile s = s)
  ∧ (∀ e (i : nat) r, editing s = Some e → medsOf s !! i = Some r →
       ∃ r', medsOf (saveMed profile s) !! i = Some r'
             ∧ (Med.id r ≠ e_id e → r' = r)
             ∧ (Med.id r = e_id e →
                  Med.name r' = e_name e ∧ Med.dosage r' = e_dosage e
                  ∧ Med.per_dose r' = e_per_dose e ∧ Med.times r' = e_times e)).
Proof.
  unfold saveMed, stocksOf, logOf, medsOf.
  destruct (editing s) as [e|] eqn:He.
  - rewrite !loadMeds_backend. unfold_state.
    split; [reflexivity|]. split; [reflexivity|]. split.
    { rewrite <- list_fmap_compose. apply list_fmap_ext. intros _ r _. cbn.
      by case_decide. }
    split; [discriminate|].
    intros e' i r [= <-] Hr. rewrite list_lookup_fmap, Hr. cbn.
    eexists. split; [reflexivity|].
    case_decide as Hd; split; try done.
  - split; [reflexivity|]. split; [reflexivity|]. split; [reflexivity|].
    split; [reflexivity|]. discriminate.
Qed.

Lemma saveMed_frame_witness :
  editing Sample.editingAspirina
    = Some {| e_id := "m1"; e_name := "Aspirina C"; e_dosage := None;
              e_per_dose := 2; e_times := [Sera] |}
  ∧ ∃ r', medsOf (saveMed Sample.profile Sample.editingAspirina) !! 0%nat = Some r'
          ∧ Med.per_dose r' = 2.
Proof.
  split; [reflexivity|].
  destruct (saveMed_frame Sample.profile Sample.editingAspirina)
    as (_ & _ & _ & _ & Hrow).
  destruct (Hrow _ 0%nat Sample.aspirina eq_refl eq_refl) as (r' & Hr' & _ & Hset).
  exists r'. split; [exact Hr'|].
  by destruct (Hset eq_refl) as (_ & _ & Hdose & _).
Defined.

(** ** Stored quantities *)

Lemma updateQty_nonneg i q st :
  0 ≤ q → stocksNonneg st → stocksNonneg (Sb.updateQty i q st).
Proof.
  unfold stocksNonneg, Sb.updateQty. intros Hq Hst.
  apply Forall_fmap. eapply Forall_impl; [exact Hst|].
  intros r Hr. cbn. by case_decide.
Qed.

(** [toggleTaken], the two incremental movements and the two absolute
    corrections keep every stored quantity at zero or above. *)
Lemma toggleTaken_nonneg profile day time m (b : bool) s :
  stocksNonneg (stocksOf s) →
  stocksNonneg (stocksOf (toggleTaken profile day time m (Some b) s)).
Proof.
  intros Hst. rewrite toggleTaken_stocksOf.
  destruct (single _); [|exact Hst]. apply updateQty_nonneg; [lia|exact Hst].
Qed.

Lemma moveFromPantry_nonneg m qty s :
  stocksNonneg (stocksOf s) → stocksNonneg (stocksOf (moveFromPantry m qty s)).
Proof.
  intros Hst. unfold moveFromPantry.
  destruct qty as [|q]; [exact Hst|].
  destruct ((q =? 0) || (q <=? 0)) eqn:Hq; [exact Hst|].
  apply orb_false_iff in Hq as [_ Hq%Z.leb_gt].
  destruct (single (Sb.stocksAt (Med.id m) Box (t_stocks (backend s))))
    as [rb|] eqn:Hrb; [|exact Hst].
  destruct (single (Sb.stocksAt (Med.id m) Dispensa (t_stocks (backend s))))
    as [rp|] eqn:Hrp; [|exact Hst].
  unfold stocksOf in *. unfold_state.
  apply updateQty_nonneg; [lia|]. apply updateQty_nonneg; [|exact Hst].
  apply single_Some in Hrb.
  assert (Hin : rb ∈ Sb.stocksAt (Med.id m) Box (t_stocks (backend s)))
    by (rewrite Hrb; left).
  apply list_elem_of_filter in Hin as [_ Hin].
  pose proof (proj1 (Forall_forall _ _) Hst rb Hin) as Hb. cbn in Hb. lia.
Qed.

Lemma addPantry_nonneg m qty s :
  stocksNonneg (stocksOf s) → stocksNonneg (stocksOf (addPantry m qty s)).
Proof.
  intros Hst. unfold addPantry.
  destruct qty as [|q]; [exact Hst|].
  destruct ((q =? 0) || (q <=? 0)) eqn:Hq; [exact Hst|].
  apply orb_false_iff in Hq as [_ Hq%Z.leb_gt].
  destruct (single (Sb.stocksAt (Med.id m) Dispensa (t_stocks (backend s))))
    as [rp|] eqn:Hrp; [|exact Hst].
  unfold stocksOf in *. unfold_state.
  apply updateQty_nonneg; [|exact Hst].
  apply single_Some in Hrp.
  assert (Hin : rp ∈ Sb.stocksAt (Med.id m) Dispensa (t_stocks (backend s)))
    by (rewrite Hrp; left).
  apply list_elem_of_filter in Hin as [_ Hin].
  pose proof (proj1 (Forall_forall _ _) Hst rp Hin) as Hb. cbn in Hb. lia.
Qed.

Lemma setBoxQty_nonneg m qty s :
  stocksNonneg (stocksOf s) → stocksNonneg (stocksOf (setBoxQty m qty s)).
Proof.
  intros Hst. unfold setBoxQty.
  destruct qty as [|q]; [exact Hst|].
  destruct (q <? 0) eqn:Hq; [exact Hst|]. apply Z.ltb_ge in Hq.
  destruct (single _); [|exact Hst].
  unfold stocksOf in *. unfold_state. by apply updateQty_nonneg.
Qed.

Lemma setPantryQty_nonneg m qty s :
  stocksNonneg (stocksOf s) → stocksNonneg (stocksOf (setPantryQty m qty s)).
Proof.
  intros Hst. unfold setPantryQty.
  destruct qty as [|q]; [exact Hst|].
  destruct (q <? 0) eqn:Hq; [exact Hst|]. apply Z.ltb_ge in Hq.
  destruct (single _); [|exact Hst].
  unfold stocksOf in *. unfold_state. by apply updateQty_nonneg.
Qed.

(** [addMed] stores the two initial quantities as the form holds them. *)
Lemma addMed_stocksOf profile medId boxId dispId s :
  String.eqb (n_name (newMed s)) EmptyString
    || (length (n_times (newMed s)) =? 0)%nat = false →
  stocksOf (addMed profile medId boxId dispId s)
  = stocksOf s
    ++ [ {| Stock.id := boxId; Stock.med_id := medId; Stock.location := Box;
            Stock.qty := initBox (newMed s) |};
         {| Stock.id := dispId; Stock.med_id := medId; Stock.location := Dispensa;
            Stock.qty := initDisp (newMed s) |} ].
Proof.
  intros Hok. unfold addMed, stocksOf. cbv zeta. rewrite Hok.
  by rewrite loadMeds_backend.
Qed.

(** With initial quantities at zero or above [addMed] keeps the stored
    quantities so. *)
Lemma addMed_nonneg profile medId boxId dispId s :
  0 ≤ initBox (newMed s) → 0 ≤ initDisp (newMed s) →
  stocksNonneg (stocksOf s) →
  stocksNonneg (stocksOf (addMed profile medId boxId dispId s)).
Proof.
  intros Hb Hd Hst.
  destruct (String.eqb (n_name (newMed s)) EmptyString
            || (length (n_times (newMed s)) =? 0)%nat) eqn:Hok.
  - unfold addMed. cbv zeta. by rewrite Hok.
  - rewrite addMed_stocksOf by exact Hok.
    apply Forall_app. split; [exact Hst|].
    repeat apply Forall_cons_2; [exact Hb|exact Hd|apply Forall_nil_2].
Qed.

(** C9 (the code departs from the claim).  The claim: every operation that
    writes a stock quantity keeps it at zero or above.  On the code:
    [addMed] writes the form's initial quantities without the clamp of
    [toggleTaken] or the guard of [setBoxQty]; with -5 typed into the
    initial Box field of the add popup, the row stored for Box holds -5 and
    the dashboard shows it. *)
Theorem addMed_stores_negative_quantity :
  stocksNonneg (stocksOf Sample.formNegativeBox)
  ∧ qtyAt "m1" Box (addMed Sample.profile "m1" "s1" "s2" Sample.formNegativeBox)
    = Some (-5)
  ∧ stocks (addMed Sample.profile "m1" "s1" "s2" Sample.formNegativeBox) !! "m1"
    = Some {| box := -5; dispensa := 0 |}
  ∧ ¬ stocksNonneg
        (stocksOf (addMed Sample.profile "m1" "s1" "s2" Sample.formNegativeBox)).
Proof.
  split; [apply Forall_nil_2|].
  split; [reflexivity|].
  split; [vm_compute; reflexivity|].
  rewrite addMed_stocksOf by reflexivity. intros Hst.
  apply Forall_app in Hst as [_ Hst]. apply Forall_cons in Hst as [Hneg _].
  cbn in Hneg. lia.
Qed.

(** ** Loading the week and the bulk operation *)

Lemma filter_fmap_untouched {A} (P : A → Prop) `{!∀ x, Decision (P x)}
  (g : A → A) (l : list A) :
  (∀ x, x ∈ l → g x = x ∨ (¬ P x ∧ ¬ P (g x))) →
  filter P (g <$> l) = filter P l.
Proof.
  induction l as [|a l IH]; intros Hg; [reflexivity|].
  rewrite fmap_cons, !filter_cons.
  rewrite IH by (intros x Hx; apply Hg; by right).
  destruct (Hg a) as [->|[Hn Hn']]; [left|reflexivity|].
  by rewrite !decide_False.
Qed.

(** A key of the loaded map reads the last row stored under it. *)
Lemma foldl_insert_lookup (data : list Intake.t)
  (acc : gmap (Z * TimeSlot * string) bool) (k : Z * TimeSlot * string) :
  foldl (λ (map : gmap (Z * TimeSlot * string) bool) r,
           <[uiKey r := Intake.taken r]> map) acc data !! k
  = match last (filter (λ r, uiKey r = k) data) with
    | Some r => Some (Intake.taken r)
    | None => acc !! k
    end.
Proof.
  revert acc. induction data as [|r data IH]; intros acc; [reflexivity|].
  cbn [foldl]. rewrite IH, filter_cons.
  destruct (decide (uiKey r = k)) as [Hk|Hk].
  - rewrite last_cons.
    destruct (last (filter (λ r0, uiKey r0 = k) data)); [reflexivity|].
    rewrite Hk. apply lookup_insert_eq.
  - destruct (last (filter (λ r0, uiKey r0 = k) data)); [reflexivity|].
    by apply lookup_insert_ne.
Qed.

Lemma intakesOfRows_lookup (data : list Intake.t) (k : Z * TimeSlot * string) :
  intakesOfRows data !! k
  = Intake.taken <$> last (filter (λ r, uiKey r = k) data).
Proof.
  unfold intakesOfRows. rewrite foldl_insert_lookup.
  by destruct (last _).
Qed.

(** An upsert under another key leaves the rows loaded under [k] alone. *)
Lemma upsertIntake_loaded_other fam from to row log k :
  uiKey row ≠ k →
  filter (λ r, uiKey r = k) (Sb.intakesBetween fam from to (Sb.upsertIntake row log))
  = filter (λ r, uiKey r = k) (Sb.intakesBetween fam from to log).
Proof.
  intros Hk. unfold Sb.intakesBetween. rewrite !list_filter_filter.
  unfold Sb.upsertIntake. case_decide as Hin.
  - apply filter_fmap_untouched. intros r _.
    case_decide as Hr; [right|by left].
    assert (uiKey r = uiKey row) by (unfold uiKey, Sb.intakeKey in *; congruence).
    split; intros [Hu _]; congruence.
  - rewrite filter_app, filter_cons, filter_nil.
    rewrite decide_False by (intros [Hu _]; congruence).
    apply app_nil_r.
Qed.

(** After an upsert of a row of the family inside the range, the last row
    loaded under its key is the upserted one. *)
Lemma upsertIntake_loaded_same fam from to row log :
  Intake.family_id row = fam → from ≤ Intake.day row ≤ to →
  last (filter (λ r, uiKey r = uiKey row)
          (Sb.intakesBetween fam from to (Sb.upsertIntake row log)))
  = Some row.
Proof.
  intros Hfam Hday. unfold Sb.intakesBetween. rewrite list_filter_filter.
  unfold Sb.upsertIntake. case_decide as Hin.
  - set (g := λ r, if decide (Sb.intakeKey r = Sb.intakeKey row) then row else r).
    set (L := filter _ (g <$> log)).
    assert (Hall : ∀ x, x ∈ L → x = row).
    { intros x Hx. apply list_elem_of_filter in Hx as [(Hu & Hf & _) Hx].
      apply list_elem_of_fmap in Hx as (r0 & -> & _).
      unfold g in *. case_decide as Hr0; [reflexivity|].
      exfalso. apply Hr0. unfold uiKey, Sb.intakeKey in *. congruence. }
    assert (Hne : L ≠ []).
    { apply list_elem_of_fmap in Hin as (r0 & Hk0 & Hr0).
      assert (Hrow : row ∈ L).
      { apply list_elem_of_filter. split; [by repeat split; try apply Hday|].
        apply list_elem_of_fmap. exists r0. split; [|exact Hr0].
        unfold g. by rewrite decide_True. }
      intros HL. rewrite HL in Hrow. by apply elem_of_nil in Hrow. }
    apply last_is_Some in Hne as [x Hx]. rewrite Hx. f_equal.
    apply Hall. by apply last_Some_elem_of.
  - rewrite filter_app, filter_cons, filter_nil.
    rewrite decide_True by (by repeat split; try apply Hday).
    apply last_snoc.
Qed.

Lemma loadWeek_intakes profile c s :
  intakes (loadWeek profile c s)
  = intakesOfRows
      (Sb.intakesBetween (Profile.family_id profile) (weekFrom c s) (weekTo c s)
         (logOf s)).
Proof. reflexivity. Qed.

Lemma toggleTaken_view profile day time m force s :
  onlyToday (toggleTaken profile day time m force s) = onlyToday s
  ∧ weekStart (toggleTaken profile day time m force s) = weekStart s
  ∧ meds (toggleTaken profile day time m force s) = meds s.
Proof.
  unfold toggleTaken. cbv zeta.
  destruct (match force with Some b => b | None => _ end); unfold_state;
    match goal with |- context [single ?l] => destruct (single l) end;
    by repeat split.
Qed.

Lemma toggleTaken_window profile c day time m force s :
  weekFrom c (toggleTaken profile day time m force s) = weekFrom c s
  ∧ weekTo c (toggleTaken profile day time m force s) = weekTo c s.
Proof.
  unfold weekFrom, weekTo.
  destruct (toggleTaken_view profile day time m force s) as (-> & -> & _). done.
Qed.

(** What a reload would show as taken stays so after a forced tick, and
    the ticked dose shows as taken. *)
Lemma toggleTaken_true_loaded profile c day time m s k :
  weekFrom c s ≤ day ≤ weekTo c s →
  intakes (loadWeek profile c s) !! k = Some true ∨ k = (day, time, Med.id m) →
  intakes (loadWeek profile c (toggleTaken profile day time m (Some true) s)) !! k
  = Some true.
Proof.
  intros Hwin Hk. rewrite loadWeek_intakes in *.
  destruct (toggleTaken_window profile c day time m (Some true) s) as [-> ->].
  rewrite toggleTaken_logOf, intakesOfRows_lookup.
  set (row := {| Intake.family_id := Profile.family_id profile; Intake.day := day;
                 Intake.time_slot := time; Intake.med_id := Med.id m;
                 Intake.taken := true |}).
  destruct (decide (k = (day, time, Med.id m))) as [->|Hne].
  - change (day, time, Med.id m) with (uiKey row).
    by rewrite upsertIntake_loaded_same.
  - destruct Hk as [Hk|Hk]; [|contradiction].
    rewrite upsertIntake_loaded_other
      by (intros Heq; apply Hne; by rewrite <- Heq).
    by rewrite <- intakesOfRows_lookup.
Qed.

Lemma foldl_toggleTaken_true_loaded profile c day jobs s k :
  weekFrom c s ≤ day ≤ weekTo c s →
  intakes (loadWeek profile c s) !! k = Some true
  ∨ (∃ j : Med.t * TimeSlot, j ∈ jobs ∧ k = (day, j.2, Med.id j.1)) →
  intakes (loadWeek profile c
             (foldl (λ s j, toggleTaken profile day j.2 j.1 (Some true) s) s jobs))
    !! k
  = Some true.
Proof.
  revert s. induction jobs as [|j jobs IH]; intros s Hwin Hk.
  - destruct Hk as [Hk|(j & Hj & _)]; [exact Hk|]. by apply elem_of_nil in Hj.
  - cbn [foldl]. apply IH.
    + by destruct (toggleTaken_window profile c day j.2 j.1 (Some true) s)
        as [-> ->].
    + destruct Hk as [Hk|(j' & Hj' & Hk)].
      * left. apply toggleTaken_true_loaded; auto.
      * apply elem_of_cons in Hj' as [->|Hj'].
        -- left. apply toggleTaken_true_loaded; auto.
        -- right. eauto.
Qed.

Lemma isTaken_true s k : isTaken s k = true ↔ intakes s !! k = Some true.
Proof.
  unfold isTaken. destruct (intakes s !! k) as [[]|]; cbn; split; congruence.
Qed.

Lemma plannedDosesForToday_elem s (m : Med.t) (slot : TimeSlot) :
  (m, slot) ∈ plannedDosesForToday s ↔ m ∈ meds s ∧ slot ∈ Med.times m.
Proof.
  unfold plannedDosesForToday. rewrite list_elem_of_bind. split.
  - intros (time & Hm & _). apply list_elem_of_fmap in Hm as (m' & [= -> ->] & Hm).
    apply list_elem_of_filter in Hm. tauto.
  - intros [Hm Hs]. exists slot. split.
    + apply list_elem_of_fmap. exists m. split; [reflexivity|].
      by apply list_elem_of_filter.
    + unfold TIMES. destruct slot; set_solver.
Qed.

(** ** The bulk operation, whatever the order of its requests *)

Lemma stepJob_pc profile day checked j pc s :
  (stepJob profile day checked j pc s).1 ≠ AwaitLog
  ∧ ((rank pc < rank (stepJob profile day checked j pc s).1)%nat
     ∨ (stepJob profile day checked j pc s).1 = Finished).
Proof.
  destruct pc; cbn [stepJob fst]; try destruct (single _); cbn [fst rank];
    (split; [discriminate | first [left; lia | right; reflexivity]]).
Qed.

Lemma stepJob_view profile day checked j pc s :
  onlyToday (stepJob profile day checked j pc s).2 = onlyToday s
  ∧ weekStart (stepJob profile day checked j pc s).2 = weekStart s
  ∧ meds (stepJob profile day checked j pc s).2 = meds s
  ∧ medsOf (stepJob profile day checked j pc s).2 = medsOf s.
Proof.
  destruct pc, checked; cbn [stepJob snd]; try destruct (single _); done.
Qed.

Lemma stepJob_logOf profile day checked j pc s :
  logOf (stepJob profile day checked j pc s).2
  = match pc with
    | AwaitLog =>
      if checked then Sb.upsertIntake (jobRow profile day j) (logOf s)
      else Sb.deleteIntake (jobKey profile day j) (logOf s)
    | _ => logOf s
    end.
Proof.
  destruct pc, checked; cbn [stepJob snd]; try destruct (single _); reflexivity.
Qed.

Lemma runStep_cases profile day checked jobs ps i :
  ((jobs !! i = None ∨ ps.1 !! i = None)
   ∧ runStep profile day checked jobs ps i = ps)
  ∨ ∃ j pc, jobs !! i = Some j ∧ ps.1 !! i = Some pc
      ∧ runStep profile day checked jobs ps i
        = (<[i := (stepJob profile day checked j pc ps.2).1]> ps.1,
           (stepJob profile day checked j pc ps.2).2).
Proof.
  unfold runStep. destruct (jobs !! i) as [j|]; [|left; auto].
  destruct (ps.1 !! i) as [pc|]; [|left; auto].
  right. by exists j, pc.
Qed.

(** What every move of a call preserves holds at the end of every order. *)
Lemma run_invariant profile day checked jobs (P : list JobPc * State → Prop) :
  (∀ ps i j pc, P ps → jobs !! i = Some j → ps.1 !! i = Some pc →
     P (<[i := (stepJob profile day checked j pc ps.2).1]> ps.1,
        (stepJob profile day checked j pc ps.2).2)) →
  ∀ sched ps, P ps → P (foldl (runStep profile day checked jobs) ps sched).
Proof.
  intros Hstep sched. induction sched as [|i sched IH]; intros ps HP; [exact HP|].
  cbn [foldl]. apply IH.
  destruct (runStep_cases profile day checked jobs ps i)
    as [[_ ->] | (j & pc & Hj & Hpc & ->)]; eauto.
Qed.

Lemma startJobs_frame day checked jobs s :
  backend (startJobs day checked jobs s) = backend s
  ∧ onlyToday (startJobs day checked jobs s) = onlyToday s
  ∧ weekStart (startJobs day checked jobs s) = weekStart s
  ∧ meds (startJobs day checked jobs s) = meds s.
Proof.
  unfold startJobs. revert s. induction jobs as [|p jobs IH]; intros s; [done|].
  cbn [foldl].
  destruct (IH (setIntakes (λ i, <[(day, p.2, Med.id p.1) := checked]> i) s))
    as (-> & -> & -> & ->).
  done.
Qed.

Lemma upsertIntake_rowsOfKey_other row log k :
  k ≠ Sb.intakeKey row →
  rowsOfKey k (Sb.upsertIntake row log) = rowsOfKey k log.
Proof.
  intros Hk. unfold rowsOfKey, Sb.upsertIntake. case_decide as Hin.
  - apply filter_fmap_untouched. intros r _.
    case_decide as Hr; [right|by left]. split; congruence.
  - rewrite filter_app, filter_cons, filter_nil.
    rewrite decide_False by congruence. apply app_nil_r.
Qed.

Lemma rowsOfKey_deleteIntake k k' log :
  rowsOfKey k (Sb.deleteIntake k' log)
  = if decide (k = k') then [] else rowsOfKey k log.
Proof.
  unfold rowsOfKey, Sb.deleteIntake. rewrite list_filter_filter.
  case_decide as Hk.
  - apply filter_none. intros r _ [Heq Hne]. congruence.
  - apply list_filter_iff. intros r. split; [tauto|]. intros Heq.
    split; [exact Heq|congruence].
Qed.

Lemma upsertIntake_keeps row log x :
  x ∈ log → (Sb.intakeKey x = Sb.intakeKey row → x = row) →
  x ∈ Sb.upsertIntake row log.
Proof.
  intros Hx Hsame. unfold Sb.upsertIntake. case_decide as Hin.
  - apply list_elem_of_fmap. exists x. split; [|exact Hx].
    case_decide as Hk; [by apply Hsame|reflexivity].
  - apply elem_of_app. by left.
Qed.

Lemma jobRow_same_key profile day j j' :
  Sb.intakeKey (jobRow profile day j') = Sb.intakeKey (jobRow profile day j) →
  jobRow profile day j' = jobRow profile day j.
Proof. unfold Sb.intakeKey, jobRow. cbn. by intros [= -> ->]. Qed.

(** The calls keep their number, touch neither the displayed week nor the
    catalog, and leave alone the log rows of every key that is not theirs. *)
Lemma run_frame profile day checked jobs s sched :
  let r := foldl (runStep profile day checked jobs)
             (replicate (length jobs) AwaitLog, startJobs day checked jobs s)
             sched in
  length r.1 = length jobs
  ∧ onlyToday r.2 = onlyToday s ∧ weekStart r.2 = weekStart s
  ∧ meds r.2 = meds s ∧ medsOf r.2 = medsOf s
  ∧ (∀ k, (∀ j, j ∈ jobs → k ≠ jobKey profile day j) →
          rowsOfKey k (logOf r.2) = rowsOfKey k (logOf s)).
Proof.
  cbv zeta.
  apply (run_invariant profile day checked jobs (λ ps,
    length ps.1 = length jobs
    ∧ onlyToday ps.2 = onlyToday s ∧ weekStart ps.2 = weekStart s
    ∧ meds ps.2 = meds s ∧ medsOf ps.2 = medsOf s
    ∧ (∀ k, (∀ j, j ∈ jobs → k ≠ jobKey profile day j) →
            rowsOfKey k (logOf ps.2) = rowsOfKey k (logOf s)))).
  - intros ps i j pc (Hlen & Ho & Hw & Hm & Hb & Hrows) Hj Hpc. cbn [fst snd].
    destruct (stepJob_view profile day checked j pc ps.2) as (-> & -> & -> & ->).
    rewrite length_insert. repeat split; try done.
    intros k Hk. rewrite stepJob_logOf.
    assert (Hne : k ≠ jobKey profile day j)
      by (apply Hk; by eapply list_elem_of_lookup_2).
    destruct pc; try (by apply Hrows). destruct checked.
    + rewrite upsertIntake_rowsOfKey_other by exact Hne. by apply Hrows.
    + rewrite rowsOfKey_deleteIntake, decide_False by exact Hne. by apply Hrows.
  - cbn [fst snd]. rewrite length_replicate.
    destruct (startJobs_frame day checked jobs s) as (Hb & -> & -> & ->).
    unfold medsOf, logOf. rewrite Hb. done.
Qed.

(** Once a call with [force = true] has passed its upsert, its row is in
    the log. *)
Lemma run_rows_true profile day jobs s sched :
  let r := foldl (runStep profile day true jobs)
             (replicate (length jobs) AwaitLog, startJobs day true jobs s)
             sched in
  ∀ i j pc, jobs !! i = Some j → r.1 !! i = Some pc → pc ≠ AwaitLog →
            jobRow profile day j ∈ logOf r.2.
Proof.
  cbv zeta.
  apply (run_invariant profile day true jobs (λ ps,
    ∀ i j pc, jobs !! i = Some j → ps.1 !! i = Some pc → pc ≠ AwaitLog →
              jobRow profile day j ∈ logOf ps.2)).
  - intros ps i j pc Hinv Hj Hpc i' j' pc' Hj' Hpc' Hne. cbn [fst snd] in *.
    rewrite stepJob_logOf.
    apply list_lookup_insert_Some in Hpc' as [(<- & _ & _) | (Hii & Hpc')].
    + assert (j' = j) by congruence. subst j'.
      destruct pc; try (by eapply Hinv; eauto).
      apply upsertIntake_elem.
    + destruct pc; try (by eapply Hinv; eauto).
      apply upsertIntake_keeps; [by eapply Hinv; eauto|].
      apply jobRow_same_key.
  - cbn [fst snd]. intros i j pc _ Hpc Hne.
    apply lookup_replicate_1 in Hpc as [-> _]. contradiction.
Qed.

(** Once a call with [force = false] has passed its delete, the log holds
    no row under its key. *)
Lemma run_rows_false profile day jobs s sched :
  let r := foldl (runStep profile day false jobs)
             (replicate (length jobs) AwaitLog, startJobs day false jobs s)
             sched in
  ∀ i j pc, jobs !! i = Some j → r.1 !! i = Some pc → pc ≠ AwaitLog →
            rowsOfKey (jobKey profile day j) (logOf r.2) = [].
Proof.
  cbv zeta.
  apply (run_invariant profile day false jobs (λ ps,
    ∀ i j pc, jobs !! i = Some j → ps.1 !! i = Some pc → pc ≠ AwaitLog →
              rowsOfKey (jobKey profile day j) (logOf ps.2) = [])).
  - intros ps i j pc Hinv Hj Hpc i' j' pc' Hj' Hpc' Hne. cbn [fst snd] in *.
    rewrite stepJob_logOf.
    apply list_lookup_insert_Some in Hpc' as [(<- & _ & _) | (Hii & Hpc')].
    + assert (j' = j) by congruence. subst j'.
      destruct pc; try (by eapply Hinv; eauto).
      rewrite rowsOfKey_deleteIntake. by rewrite decide_True.
    + destruct pc; try (by eapply Hinv; eauto).
      rewrite rowsOfKey_deleteIntake. case_decide; [reflexivity|].
      by eapply Hinv; eauto.
  - cbn [fst snd]. intros i j pc _ Hpc Hne.
    apply lookup_replicate_1 in Hpc as [-> _]. contradiction.
Qed.

(** What a load of the range shows as taken stays so after an upsert of a
    taken row, and the upserted row shows as taken when its day is in the
    range. *)
Lemma upsertIntake_loaded_true fam from to row log k :
  Intake.family_id row = fam → Intake.taken row = true →
  from ≤ Intake.day row ≤ to →
  intakesOfRows (Sb.intakesBetween fam from to log) !! k = Some true
  ∨ k = uiKey row →
  intakesOfRows (Sb.intakesBetween fam from to (Sb.upsertIntake row log)) !! k
  = Some true.
Proof.
  intros Hf Ht Hd Hk. rewrite intakesOfRows_lookup.
  destruct (decide (k = uiKey row)) as [->|Hne].
  - rewrite upsertIntake_loaded_same by done. cbn. by rewrite Ht.
  - destruct Hk as [Hk|Hk]; [|contradiction].
    rewrite upsertIntake_loaded_other by congruence.
    by rewrite <- intakesOfRows_lookup.
Qed.

(** With today in the loaded range, what a load would show as taken before
    the bulk operation it shows as taken at every point of it, together
    with the pair of every call that has passed its upsert. *)
Lemma run_loaded_true profile day jobs s sched from to :
  from ≤ day ≤ to →
  let r := foldl (runStep profile day true jobs)
             (replicate (length jobs) AwaitLog, startJobs day true jobs s)
             sched in
  let shown log k :=
    intakesOfRows (Sb.intakesBetween (Profile.family_id profile) from to log) !! k
    = Some true in
  (∀ k, shown (logOf s) k → shown (logOf r.2) k)
  ∧ (∀ i j pc, jobs !! i = Some j → r.1 !! i = Some pc → pc ≠ AwaitLog →
               shown (logOf r.2) (day, j.2, Med.id j.1)).
Proof.
  intros Hwin. cbv zeta.
  apply (run_invariant profile day true jobs (λ ps,
    (∀ k, intakesOfRows (Sb.intakesBetween (Profile.family_id profile) from to
                           (logOf s)) !! k = Some true →
          intakesOfRows (Sb.intakesBetween (Profile.family_id profile) from to
                           (logOf ps.2)) !! k = Some true)
    ∧ (∀ i j pc, jobs !! i = Some j → ps.1 !! i = Some pc → pc ≠ AwaitLog →
         intakesOfRows (Sb.intakesBetween (Profile.family_id profile) from to
                          (logOf ps.2)) !! (day, j.2, Med.id j.1) = Some true))).
  - intros ps i j pc [Hold Hdone] Hj Hpc. cbn [fst snd] in *.
    rewrite stepJob_logOf. split.
    + intros k Hk. destruct pc; try (by apply Hold).
      apply upsertIntake_loaded_true; try done. left. by apply Hold.
    + intros i' j' pc' Hj' Hpc' Hne.
      apply list_lookup_insert_Some in Hpc' as [(<- & _ & _) | (Hii & Hpc')].
      * assert (j' = j) by congruence. subst j'.
        destruct pc; try (by eapply Hdone; eauto).
        apply upsertIntake_loaded_true; try done. by right.
      * destruct pc; try (by eapply Hdone; eauto).
        apply upsertIntake_loaded_true; try done. left. by eapply Hdone; eauto.
  - cbn [fst snd]. destruct (startJobs_frame day true jobs s) as (Hb & _).
    unfold logOf. rewrite Hb. split; [done|].
    intros i j pc _ Hpc Hne.
    apply lookup_replicate_1 in Hpc as [-> _]. contradiction.
Qed.

(** A call that is given four moves finishes. *)
Lemma run_progress profile day checked jobs sched :
  ∀ ps i pc, length ps.1 = length jobs → ps.1 !! i = Some pc →
    ∃ pc', (foldl (runStep profile day checked jobs) ps sched).1 !! i = Some pc'
           ∧ (Nat.min 4 (rank pc + length (filter (λ x, x = i) sched))
              ≤ rank pc')%nat.
Proof.
  induction sched as [|x sched IH]; intros ps i pc Hlen Hpc.
  { exists pc. split; [exact Hpc|]. rewrite filter_nil. cbn [length]. lia. }
  cbn [foldl]. rewrite filter_cons.
  destruct (runStep_cases profile day checked jobs ps x)
    as [[Hnone ->] | (j & pcx & Hj & Hpcx & ->)].
  - rewrite decide_False.
    + by apply IH.
    + intros ->. destruct Hnone as [Hnone|Hnone]; [|congruence].
      apply lookup_lt_Some in Hpc. rewrite Hlen in Hpc.
      apply (lookup_lt_is_Some_2 jobs) in Hpc as [? ?]. congruence.
  - destruct (stepJob_pc profile day checked j pcx ps.2) as [_ Hrank].
    case_decide as Hx.
    + subst x. assert (pcx = pc) by congruence. subst pcx.
      destruct (IH (<[i := (stepJob profile day checked j pc ps.2).1]> ps.1,
                    (stepJob profile day checked j pc ps.2).2) i
                   (stepJob profile day checked j pc ps.2).1)
        as (pc' & Hpc' & Hle).
      * cbn [fst]. by rewrite length_insert.
      * cbn [fst]. apply list_lookup_insert_eq. by eapply lookup_lt_Some.
      * exists pc'. split; [exact Hpc'|]. cbn [length].
        destruct Hrank as [Hrank|Hrank]; [lia|].
        rewrite Hrank in Hle. cbn [rank] in Hle. lia.
    + apply IH; cbn [fst].
      * by rewrite length_insert.
      * by rewrite list_lookup_insert_ne.
Qed.

Lemma rank_Finished pc : (4 ≤ rank pc)%nat → pc = Finished.
Proof. destruct pc; cbn; (lia || reflexivity). Qed.

(** ** The order in which every call ends before the next one starts *)

Lemma runStep_at profile day checked jobs pcs s i j pc :
  jobs !! i = Some j → pcs !! i = Some pc →
  runStep profile day checked jobs (pcs, s) i
  = (<[i := (stepJob profile day checked j pc s).1]> pcs,
     (stepJob profile day checked j pc s).2).
Proof. intros Hj Hpc. unfold runStep. cbn [fst snd]. by rewrite Hj, Hpc. Qed.

Lemma runJob_ends profile day checked j s :
  let r := stepJob profile day checked j AwaitLog s in
  let r := stepJob profile day checked j r.1 r.2 in
  let r := stepJob profile day checked j r.1 r.2 in
  let r := stepJob profile day checked j r.1 r.2 in
  r.1 = Finished.
Proof.
  cbv zeta. cbn [stepJob fst snd].
  match goal with |- context [single ?l] => destruct (single l) end;
    reflexivity.
Qed.

Lemma run_one_job profile day checked jobs pcs s i j :
  jobs !! i = Some j → pcs !! i = Some AwaitLog →
  foldl (runStep profile day checked jobs) (pcs, s) [i; i; i; i]
  = (<[i := Finished]> pcs, runJob profile day checked s j).
Proof.
  intros Hj Hpc. assert (Hi : (i < length pcs)%nat) by (by eapply lookup_lt_Some).
  cbn [foldl].
  rewrite (runStep_at _ _ _ _ _ _ _ j AwaitLog Hj Hpc).
  erewrite (runStep_at _ _ _ _ _ _ _ j);
    [|exact Hj|by apply list_lookup_insert_eq].
  erewrite (runStep_at _ _ _ _ _ _ _ j);
    [|exact Hj|apply list_lookup_insert_eq; by rewrite length_insert].
  erewrite (runStep_at _ _ _ _ _ _ _ j);
    [|exact Hj|apply list_lookup_insert_eq; by rewrite !length_insert].
  rewrite !list_insert_insert_eq.
  pose proof (runJob_ends profile day checked j s) as Hend. cbv zeta in Hend.
  rewrite Hend. reflexivity.
Qed.

Lemma run_issueOrder profile day checked jobs s k :
  ∀ m, (k + m)%nat = length jobs →
  foldl (runStep profile day checked jobs)
    (replicate (k + m) AwaitLog, s) (issueOrder k)
  = (replicate k Finished ++ replicate m AwaitLog,
     foldl (runJob profile day checked) s (take k jobs)).
Proof.
  unfold issueOrder. induction k as [|k IH]; intros m Hlen; [reflexivity|].
  rewrite seq_S, bind_app, foldl_app.
  replace (S k + m)%nat with (k + S m)%nat by lia.
  rewrite IH by lia. cbn [mbind list_bind app plus].
  destruct (lookup_lt_is_Some_2 jobs k) as [j Hj]; [lia|].
  rewrite (run_one_job _ _ _ _ _ _ _ j Hj).
  - rewrite (take_S_r _ _ j Hj), foldl_snoc. f_equal.
    rewrite insert_app_r_alt by (by rewrite length_replicate).
    rewrite length_replicate, Nat.sub_diag. cbn.
    change (Finished :: replicate k Finished ++ replicate m AwaitLog)
      with (replicate (S k) Finished ++ replicate m AwaitLog).
    rewrite replicate_S_end, <- app_assoc. reflexivity.
  - rewrite lookup_app_r by (by rewrite length_replicate).
    by rewrite length_replicate, Nat.sub_diag.
Qed.

Lemma toggleTaken_runJob profile day checked s j :
  toggleTaken profile day j.2 j.1 (Some checked) s
  = runJob profile day checked
      (setIntakes (λ i, <[(day, j.2, Med.id j.1) := checked]> i) s) j.
Proof.
  unfold toggleTaken, runJob. cbv zeta. destruct checked;
    cbn [stepJob fst snd]; unfold_state;
    match goal with |- context [single ?l] => destruct (single l) end;
    reflexivity.
Qed.

Lemma runJob_setIntakes profile day checked f s j :
  runJob profile day checked (setIntakes f s) j
  = setIntakes f (runJob profile day checked s j).
Proof.
  unfold runJob. cbv zeta. destruct checked;
    cbn [stepJob fst snd]; unfold_state;
    match goal with |- context [single ?l] => destruct (single l) end;
    reflexivity.
Qed.

Lemma loadWeek_setIntakes profile c f s :
  loadWeek profile c (setIntakes f s) = loadWeek profile c s.
Proof. reflexivity. Qed.

Lemma startJobs_untracked day checked jobs s :
  setIntakes (λ _, ∅) (startJobs day checked jobs s) = setIntakes (λ _, ∅) s.
Proof.
  unfold startJobs. revert s. induction jobs as [|p jobs IH]; intros s; [done|].
  cbn [foldl]. by rewrite IH.
Qed.

(** Taken to their ends one after the other, the calls are the successive
    [toggleTaken]s up to the tracked entries, which the reload replaces. *)
Lemma foldl_runJob_toggleTaken profile day checked jobs s s' :
  setIntakes (λ _, ∅) s = setIntakes (λ _, ∅) s' →
  setIntakes (λ _, ∅)
    (foldl (λ s j, toggleTaken profile day j.2 j.1 (Some checked) s) s jobs)
  = setIntakes (λ _, ∅) (foldl (runJob profile day checked) s' jobs).
Proof.
  revert s s'. induction jobs as [|j jobs IH]; intros s s' Heq; [exact Heq|].
  cbn [foldl]. apply IH.
  rewrite toggleTaken_runJob, <- !runJob_setIntakes.
  change (setIntakes (λ _, ∅)
            (setIntakes (λ i, <[(day, j.2, Med.id j.1) := checked]> i) s))
    with (setIntakes (λ _, ∅) s).
  by rewrite Heq.
Qed.

Lemma markAllTodayUnder_issueOrder profile c checked s :
  markAllTodayUnder profile c
    (issueOrder (length (markAllTodayJobs c checked s))) checked s
  = Some (markAllToday profile c checked s).
Proof.
  unfold markAllTodayUnder. cbv zeta.
  set (jobs := markAllTodayJobs c checked s).
  pose proof (run_issueOrder profile (todayISO c) checked jobs
                (startJobs (todayISO c) checked jobs s) (length jobs) 0%nat)
    as Hrun.
  rewrite Nat.add_0_r in Hrun. rewrite Hrun by reflexivity. cbn [fst snd].
  rewrite bool_decide_true.
  2: { rewrite app_nil_r. apply Forall_forall. intros pc Hpc.
       by apply elem_of_replicate in Hpc as [-> _]. }
  f_equal. rewrite firstn_all. unfold markAllToday. cbv zeta. fold jobs.
  rewrite <- (loadWeek_setIntakes profile c (λ _, ∅) (foldl (runJob _ _ _) _ _)).
  rewrite <- (loadWeek_setIntakes profile c (λ _, ∅)
                (foldl (λ s j, toggleTaken _ _ _ _ _ s) _ _)).
  f_equal. symmetry. apply foldl_runJob_toggleTaken.
  by rewrite startJobs_untracked.
Qed.

Lemma rowsOfKey_not_loaded fam from to day time mid log :
  rowsOfKey (fam, day, time, mid) log = [] →
  intakesOfRows (Sb.intakesBetween fam from to log) !! (day, time, mid) = None.
Proof.
  intros Hrows. rewrite intakesOfRows_lookup.
  rewrite (filter_none (λ r, uiKey r = (day, time, mid))); [reflexivity|].
  intros r Hr Hu. apply list_elem_of_filter in Hr as [[Hf _] Hr].
  assert (Hin : r ∈ rowsOfKey (fam, day, time, mid) log).
  { apply list_elem_of_filter. split; [|exact Hr].
    unfold uiKey, Sb.intakeKey in *. congruence. }
  rewrite Hrows in Hin. by apply elem_of_nil in Hin.
Qed.

Lemma markAllTodayUnder_inv profile c sched checked s F :
  markAllTodayUnder profile c sched checked s = Some F →
  ∃ pcs s',
    foldl (runStep profile (todayISO c) checked (markAllTodayJobs c checked s))
      (replicate (length (markAllTodayJobs c checked s)) AwaitLog,
       startJobs (todayISO c) checked (markAllTodayJobs c checked s) s) sched
    = (pcs, s')
    ∧ Forall (λ pc, pc = Finished) pcs ∧ F = loadWeek profile c s'.
Proof.
  unfold markAllTodayUnder. cbv zeta. intros HF.
  case_bool_decide as Hfin; [|discriminate]. injection HF as <-.
  destruct (foldl _ _ sched) as [pcs s'] eqn:Hrun. by exists pcs, s'.
Qed.

(** C7.  [markAllToday(checked)] goes through every (medication, slot) pair
    planned for today and calls [toggleTaken] with [force = checked] for the
    pairs whose tracked state differs from [checked] and for no other; with
    three planned pairs of which one is taken, [markAllToday(true)] issues
    two calls.  The calls run together.  Whenever each of them is given its
    four moves they all finish, and the order in which each ends before the
    next starts gives what successive [toggleTaken]s and a [loadWeek] give.
    In whatever order they finish: the tracked state is then what the log
    holds for the loaded range (the reload), the displayed week and the
    catalog are as before, the log holds a taken row for each called pair
    ([true]) or no row under its key ([false]), the rows of every other key
    are as before, each called pair reads as [checked] (for [true], when
    today is in the loaded range), and when moreover the pairs tracked as
    taken are so in the backend all planned pairs read as taken. *)
Theorem markAllToday_spec profile c (s : State) :
  (∀ checked m slot,
     (m, slot) ∈ markAllTodayJobs c checked s
     ↔ m ∈ meds s ∧ slot ∈ Med.times m
       ∧ isTaken s (todayISO c, slot, Med.id m) ≠ checked)
  ∧ (length (plannedDosesForToday s) = 3%nat →
     length (filter (λ p, isTaken s (todayKey c p) = true)
               (plannedDosesForToday s)) = 1%nat →
     length (markAllTodayJobs c true s) = 2%nat)
  ∧ (∀ checked sched,
       (∀ i, (i < length (markAllTodayJobs c checked s))%nat →
             (4 ≤ length (filter (λ x, x = i) sched))%nat) →
       is_Some (markAllTodayUnder profile c sched checked s))
  ∧ (∀ checked,
       markAllTodayUnder profile c
         (issueOrder (length (markAllTodayJobs c checked s))) checked s
       = Some (markAllToday profile c checked s))
  ∧ (∀ checked sched F,
       markAllTodayUnder profile c sched checked s = Some F →
       intakes F
       = intakesOfRows
           (Sb.intakesBetween (Profile.family_id profile)
              (weekFrom c s) (weekTo c s) (logOf F))
       ∧ (weekStart F, onlyToday F, meds F, medsOf F)
         = (weekStart s, onlyToday s, meds s, medsOf s)
       ∧ (∀ j, j ∈ markAllTodayJobs c checked s →
            if checked then jobRow profile (todayISO c) j ∈ logOf F
            else rowsOfKey (jobKey profile (todayISO c) j) (logOf F) = [])
       ∧ (∀ k, (∀ j, j ∈ markAllTodayJobs c checked s →
                     k ≠ jobKey profile (todayISO c) j) →
               rowsOfKey k (logOf F) = rowsOfKey k (logOf s))
       ∧ (checked = false →
          Forall (λ j, isTaken F (todayKey c j) = false)
            (markAllTodayJobs c false s))
       ∧ (checked = true →
          onlyToday s = true ∨ weekStart s ≤ todayISO c ≤ weekStart s + 6 →
          Forall (λ j, isTaken F (todayKey c j) = true)
            (markAllTodayJobs c true s)
          ∧ (Forall (λ p, isTaken s (todayKey c p) = true →
                          isTaken (loadWeek profile c s) (todayKey c p) = true)
               (plannedDosesForToday s) →
             Forall (λ p, isTaken F (todayKey c p) = true)
               (plannedDosesForToday s)))).
Proof.
  split.
  { intros checked m slot. unfold markAllTodayJobs.
    rewrite list_elem_of_filter, plannedDosesForToday_elem. cbn. tauto. }
  split.
  { intros Hlen Htaken.
    pose proof (filter_app_complement
                  (λ p, isTaken s (todayKey c p) = true) (plannedDosesForToday s))
      as Hperm.
    apply Permutation_length in Hperm. rewrite length_app, Hlen, Htaken in Hperm.
    unfold markAllTodayJobs. unfold todayKey in Hperm. lia. }
  split.
  { intros checked sched Hfair. unfold markAllTodayUnder. cbv zeta.
    rewrite bool_decide_true; [by eexists|].
    apply Forall_lookup_2. intros i pc Hpc.
    pose proof (run_frame profile (todayISO c) checked
                  (markAllTodayJobs c checked s) s sched) as Hfr.
    cbv zeta in Hfr. destruct Hfr as (Hlen & _).
    assert (Hi : (i < length (markAllTodayJobs c checked s))%nat)
      by (rewrite <- Hlen; by eapply lookup_lt_Some).
    destruct (run_progress profile (todayISO c) checked
                (markAllTodayJobs c checked s) sched
                (replicate (length (markAllTodayJobs c checked s)) AwaitLog,
                 startJobs (todayISO c) checked (markAllTodayJobs c checked s) s)
                i AwaitLog) as (pc' & Hpc' & Hle).
    - cbn [fst]. apply length_replicate.
    - cbn [fst]. by apply lookup_replicate_2.
    - rewrite Hpc in Hpc'. injection Hpc' as <-. apply rank_Finished.
      specialize (Hfair i Hi). cbn [rank] in Hle. lia. }
  split; [intros checked; apply markAllTodayUnder_issueOrder|].
  intros checked sched F HF.
  apply markAllTodayUnder_inv in HF as (pcs & s' & Hrun & Hfin & ->).
  pose proof (run_frame profile (todayISO c) checked
                (markAllTodayJobs c checked s) s sched) as Hfr.
  cbv zeta in Hfr. rewrite Hrun in Hfr. cbn [fst snd] in Hfr.
  destruct Hfr as (Hlen & Ho & Hw & Hm & Hb & Hrows).
  assert (Hdone : ∀ j, j ∈ markAllTodayJobs c checked s →
            ∃ i, markAllTodayJobs c checked s !! i = Some j
                 ∧ pcs !! i = Some Finished).
  { intros j Hj. apply list_elem_of_lookup_1 in Hj as [i Hi].
    exists i. split; [exact Hi|].
    destruct (lookup_lt_is_Some_2 pcs i) as [pc Hpc].
    { rewrite Hlen. by eapply lookup_lt_Some. }
    rewrite Hpc. f_equal. exact (Forall_lookup_1 _ _ _ _ Hfin Hpc). }
  assert (Hfrom : weekFrom c s' = weekFrom c s)
    by (unfold weekFrom; by rewrite Ho, Hw).
  assert (Hto : weekTo c s' = weekTo c s)
    by (unfold weekTo; by rewrite Ho, Hw).
  assert (Hload : intakes (loadWeek profile c s')
                  = intakesOfRows
                      (Sb.intakesBetween (Profile.family_id profile)
                         (weekFrom c s) (weekTo c s) (logOf s')))
    by (by rewrite loadWeek_intakes, Hfrom, Hto).
  split; [exact Hload|].
  split.
  { change (weekStart (loadWeek profile c s')) with (weekStart s').
    change (onlyToday (loadWeek profile c s')) with (onlyToday s').
    change (meds (loadWeek profile c s')) with (meds s').
    change (medsOf (loadWeek profile c s')) with (medsOf s').
    by rewrite Hw, Ho, Hm, Hb. }
  change (logOf (loadWeek profile c s')) with (logOf s').
  split.
  { intros j Hj. destruct (Hdone j Hj) as (i & Hi & Hpc). destruct checked.
    - pose proof (run_rows_true profile (todayISO c)
                    (markAllTodayJobs c true s) s sched) as Hr.
      cbv zeta in Hr. rewrite Hrun in Hr. by apply (Hr i j Finished).
    - pose proof (run_rows_false profile (todayISO c)
                    (markAllTodayJobs c false s) s sched) as Hr.
      cbv zeta in Hr. rewrite Hrun in Hr. by apply (Hr i j Finished). }
  split; [exact Hrows|].
  split.
  { intros ->. apply Forall_forall. intros j Hj.
    destruct (Hdone j Hj) as (i & Hi & Hpc).
    pose proof (run_rows_false profile (todayISO c)
                  (markAllTodayJobs c false s) s sched) as Hr.
    cbv zeta in Hr. rewrite Hrun in Hr.
    unfold isTaken, todayKey. rewrite Hload, rowsOfKey_not_loaded; [reflexivity|].
    by apply (Hr i j Finished). }
  intros -> Hwin.
  assert (Hwin' : weekFrom c s ≤ todayISO c ≤ weekTo c s).
  { unfold weekFrom, weekTo. rewrite addDaysISO_spec.
    destruct Hwin as [->|Hwin]; [lia|]. destruct (onlyToday s); lia. }
  pose proof (run_loaded_true profile (todayISO c) (markAllTodayJobs c true s)
                s sched _ _ Hwin') as Hl.
  cbv zeta in Hl. rewrite Hrun in Hl. cbn [fst snd] in Hl.
  destruct Hl as [Hold Hnew].
  assert (Hjobs : Forall (λ j, isTaken (loadWeek profile c s') (todayKey c j) = true)
                    (markAllTodayJobs c true s)).
  { apply Forall_forall. intros j Hj. destruct (Hdone j Hj) as (i & Hi & Hpc).
    apply isTaken_true. rewrite Hload. by apply (Hnew i j Finished). }
  split; [exact Hjobs|].
  intros Hsync. apply Forall_forall. intros p Hp.
  destruct (isTaken s (todayKey c p)) eqn:Ht.
  - apply isTaken_true. rewrite Hload. apply Hold.
    rewrite <- loadWeek_intakes. apply isTaken_true.
    by apply (proj1 (Forall_forall _ _) Hsync p Hp).
  - apply (proj1 (Forall_forall _ _) Hjobs p).
    unfold markAllTodayJobs. apply list_elem_of_filter. split; [|exact Hp].
    unfold todayKey in Ht. cbn. congruence.
Qed.

Lemma markAllToday_spec_witness :
  length (plannedDosesForToday Scenario.oneTakenOneStale) = 3%nat
  ∧ length (markAllTodayJobs Sample.clockWednesday true Scenario.oneTakenOneStale)
    = 2%nat
  ∧ isTaken Scenario.oneTakenOneStale (19724, Sera, "m1") = true
  ∧ ∃ F,
      markAllTodayUnder Sample.profile Sample.clockWednesday (lockStep 2) true
        Scenario.oneTakenOneStale = Some F
      ∧ intakes F
        = intakesOfRows
            (Sb.intakesBetween "fam1" 19725 19725 (logOf F))
      ∧ Forall (λ p, isTaken F (todayKey Sample.clockWednesday p) = true)
          (plannedDosesForToday Scenario.oneTakenOneStale).
Proof.
  destruct (markAllToday_spec Sample.profile Sample.clockWednesday
              Scenario.oneTakenOneStale) as (_ & Hcount & _ & _ & Hall).
  split; [reflexivity|].
  split; [apply Hcount; vm_compute; reflexivity|].
  split; [reflexivity|].
  destruct (markAllTodayUnder Sample.profile Sample.clockWednesday (lockStep 2)
              true Scenario.oneTakenOneStale) as [F|] eqn:HF;
    [|vm_compute in HF; discriminate].
  exists F. split; [reflexivity|].
  destruct (Hall true (lockStep 2) F HF) as (Hload & _ & _ & _ & _ & Htaken).
  split; [exact Hload|].
  apply Htaken; [reflexivity|by left|].
  apply (bool_decide_unpack _). vm_compute. exact I.
Defined.

(** Two calls for one medication that both read its Box row before either
    writes it take one dose from the Box, not two; taken to their ends one
    after the other they take two. *)
Lemma markAllToday_lost_update :
  length (markAllTodayJobs Sample.clockWednesday true Scenario.noneTaken) = 3%nat
  ∧ qtyAt "m1" Box Scenario.noneTaken = Some 10
  ∧ qtyAt "m1" Box
      <$> markAllTodayUnder Sample.profile Sample.clockWednesday (lockStep 3)
            true Scenario.noneTaken
    = Some (Some 9)
  ∧ qtyAt "m1" Box
      <$> markAllTodayUnder Sample.profile Sample.clockWednesday (issueOrder 3)
            true Scenario.noneTaken
    = Some (Some 8).
Proof. repeat split; vm_compute; reflexivity. Qed.

(** * Further properties of the dashboard *)

(** ** Week arithmetic and navigation *)

(** The fixed-offset clock is the zone whose two offsets are constant. *)
Lemma startOfWeekISOIn_fixedZone (c : Clock) :
  startOfWeekISOIn (fixedZone (tzOffset c)) (now c) = startOfWeekISO c.
Proof.
  unfold startOfWeekISOIn, startOfWeekISO, getDayIn, getDay, addDateIn, addDate,
    localDay, utcOfLocal, localTime, fixedZone. cbn.
  f_equal. lia.
Qed.

Lemma addDaysISOIn_fixedZone (off iso n : Z) :
  addDaysISOIn (fixedZone off) iso n = addDaysISO iso n.
Proof.
  unfold addDaysISOIn, addDaysISO, addDateIn, addDate, utcOfLocal, localTime,
    fixedZone. cbn.
  f_equal. lia.
Qed.

Lemma addDaysISOIn_spec (z : Zone) (iso n : Z) :
  addDaysISOIn z iso n
  = iso + n + offsetDrift z (parseISODate iso) n / msPerDay.
Proof.
  unfold addDaysISOIn, addDateIn, utcOfLocal, offsetDrift, localTime,
    parseISODate, toISODate.
  set (u := utcOffset z _). set (l := localOffset z _).
  replace (iso * msPerDay + u + n * msPerDay - l)
    with ((u - l) + (iso + n) * msPerDay) by lia.
  rewrite Z.div_add by (unfold msPerDay; lia). lia.
Qed.

(** X1.  In any zone, [startOfWeekISO] moves the local time of the instant
    back to the Monday of its local week and prints the UTC date of that
    local time as it is read back in the zone.  So the result is that Monday
    or the Sunday before it when the offset in force on that Monday is ahead
    of UTC by less than a day, and that Monday or the Tuesday after it when
    it is behind; for a fixed offset the weekday is the distance between the
    UTC date and the local date of the instant.  Across a change of offset
    the result can be a Tuesday although the two dates of the instant agree
    (New York, 2024-03-10T23:30Z: 2024-03-05). *)
Theorem startOfWeekISO_weekday (z : Zone) (t : Z) (c : Clock) :
  (let monday := localTime z t - (getDayIn z t + 6) mod 7 * msPerDay in
   weekdayFromMonday (toISODate monday) = 0
   ∧ startOfWeekISOIn z t = toISODate (utcOfLocal z monday)
   ∧ (0 ≤ localOffset z monday < msPerDay →
        weekdayFromMonday (startOfWeekISOIn z t) = 0
        ∨ weekdayFromMonday (startOfWeekISOIn z t) = 6)
   ∧ (- msPerDay < localOffset z monday ≤ 0 →
        weekdayFromMonday (startOfWeekISOIn z t) = 0
        ∨ weekdayFromMonday (startOfWeekISOIn z t) = 1))
  ∧ startOfWeekISOIn (fixedZone (tzOffset c)) (now c) = startOfWeekISO c
  ∧ weekdayFromMonday (startOfWeekISO c)
    = (todayISO c - localDay c (now c)) mod 7
  ∧ (0 ≤ tzOffset c < msPerDay →
       weekdayFromMonday (startOfWeekISO c) = 0
       ∨ weekdayFromMonday (startOfWeekISO c) = 6)
  ∧ (- msPerDay < tzOffset c ≤ 0 →
       weekdayFromMonday (startOfWeekISO c) = 0
       ∨ weekdayFromMonday (startOfWeekISO c) = 1)
  ∧ toISODate Scenario.sundayEvening
    = toISODate (localTime Scenario.newYork Scenario.sundayEvening)
  ∧ startOfWeekISOIn Scenario.newYork Scenario.sundayEvening = 19787
  ∧ weekdayFromMonday 19787 = 1.
Proof.
  split.
  { cbv zeta.
    assert (Hmon : weekdayFromMonday
                     (toISODate (localTime z t
                                 - (getDayIn z t + 6) mod 7 * msPerDay)) = 0).
    { unfold weekdayFromMonday, toISODate, getDayIn.
      generalize (localTime z t). intros l.
      set (k := ((l / msPerDay + 4) mod 7 + 6) mod 7).
      replace (l - k * msPerDay) with (l + (- k) * msPerDay) by lia.
      rewrite Z.div_add by (unfold msPerDay; lia).
      subst k. generalize (l / msPerDay). intros d.
      Z.div_mod_to_equations. lia. }
    assert (Heq : startOfWeekISOIn z t
                  = toISODate (utcOfLocal z (localTime z t
                                 - (getDayIn z t + 6) mod 7 * msPerDay))).
    { unfold startOfWeekISOIn, addDateIn. cbv zeta. do 2 f_equal. lia. }
    split; [exact Hmon|]. split; [exact Heq|]. rewrite Heq. clear Heq.
    revert Hmon. unfold utcOfLocal.
    generalize (localTime z t - (getDayIn z t + 6) mod 7 * msPerDay). intros m.
    generalize (localOffset z m). intros l.
    unfold weekdayFromMonday, toISODate, msPerDay. intros Hmon.
    split; intros Hl; Z.div_mod_to_equations; lia. }
  split; [apply startOfWeekISOIn_fixedZone|].
  assert (Heq : weekdayFromMonday (startOfWeekISO c)
                = (todayISO c - localDay c (now c)) mod 7).
  { rewrite startOfWeekISO_spec. unfold weekdayFromMonday, getDay.
    generalize (todayISO c) (localDay c (now c)). intros d l.
    Z.div_mod_to_equations. lia. }
  split; [exact Heq|]. rewrite Heq. clear Heq.
  split; [|split].
  1, 2: unfold todayISO, localDay, toISODate, msPerDay;
        generalize (now c) (tzOffset c); intros n o;
        intros Ho; Z.div_mod_to_equations; lia.
  split; [vm_compute; reflexivity|]. split; vm_compute; reflexivity.
Qed.

Lemma startOfWeekISO_weekday_witness :
  (weekdayFromMonday
     (startOfWeekISOIn Scenario.newYork Scenario.sundayEvening) = 0
   ∨ weekdayFromMonday
       (startOfWeekISOIn Scenario.newYork Scenario.sundayEvening) = 1)
  ∧ (weekdayFromMonday (startOfWeekISO Sample.clockLocalMidnight) = 0
     ∨ weekdayFromMonday (startOfWeekISO Sample.clockLocalMidnight) = 6).
Proof.
  destruct (startOfWeekISO_weekday Scenario.newYork Scenario.sundayEvening
              Sample.clockLocalMidnight)
    as ((_ & _ & _ & Hbehind) & _ & _ & Hahead & _).
  split.
  - apply Hbehind. vm_compute. split; [reflexivity|discriminate].
  - apply Hahead. unfold msPerDay. cbn. lia.
Defined.


Lemma allDays_elem (s : State) (d : Z) :
  d ∈ allDays s ↔ weekStart s ≤ d ≤ weekStart s + 6.
Proof.
  rewrite allDays_spec, list_elem_of_fmap. split.
  - intros (i & -> & Hi). apply elem_of_seq in Hi. lia.
  - intros Hd. exists (Z.to_nat (d - weekStart s)). split; [lia|].
    apply elem_of_seq. lia.
Qed.

(** X3.  In any zone the [i]-th displayed day is the anchor plus [i] days
    plus the whole days by which the offset at the anchor's UTC midnight
    exceeds the offset by which the local time [i] days later is read back.
    When that excess stays within [0, one day) over the week (a fixed offset
    has excess 0) the displayed week is seven distinct days, the anchor and
    the six days after it, in order.  Across a change of offset a day can
    show twice (Rome, week anchored at 2024-03-31), and seven days after
    2024-03-25 is 2024-03-31. *)
Theorem allDays_week (z : Zone) (s : State) :
  allDaysIn z s
  = (λ i, weekStart s + Z.of_nat i
          + offsetDrift z (parseISODate (weekStart s)) (Z.of_nat i) / msPerDay)
    <$> seq 0 7
  ∧ ((∀ i, 0 ≤ i ≤ 6 →
        0 ≤ offsetDrift z (parseISODate (weekStart s)) i < msPerDay) →
     allDaysIn z s = allDays s)
  ∧ (∀ off, allDaysIn (fixedZone off) s = allDays s)
  ∧ (∀ d, d ∈ allDays s ↔ weekStart s ≤ d ≤ weekStart s + 6)
  ∧ NoDup (allDays s)
  ∧ length (allDays s) = 7%nat
  ∧ head (allDays s) = Some (weekStart s)
  ∧ last (allDays s) = Some (addDaysISO (weekStart s) 6)
  ∧ allDaysIn Scenario.rome (setWeekStart 19813 s)
    = [19813; 19813; 19814; 19815; 19816; 19817; 19818]
  ∧ addDaysISOIn Scenario.rome 19807 7 = 19813.
Proof.
  split.
  { unfold allDaysIn. apply list_fmap_ext. intros _ i _.
    apply addDaysISOIn_spec. }
  split.
  { intros Hd. unfold allDaysIn, allDays. apply list_fmap_ext. intros i x Hx.
    apply lookup_seq in Hx as [-> Hi].
    rewrite addDaysISOIn_spec, addDaysISO_spec.
    rewrite Z.div_small by (apply Hd; lia). lia. }
  split.
  { intros off. unfold allDaysIn, allDays. apply list_fmap_ext. intros _ i _.
    apply addDaysISOIn_fixedZone. }
  split; [apply allDays_elem|]. split.
  { rewrite allDays_spec. apply NoDup_fmap_2; [|apply NoDup_seq].
    intros i j Hij. lia. }
  split; [reflexivity|]. rewrite allDays_spec, addDaysISO_spec. cbn.
  split; [f_equal; lia|]. split; [f_equal; lia|].
  split; vm_compute; reflexivity.
Qed.

Lemma allDays_week_witness :
  offsetDrift Scenario.newYorkAutumn (parseISODate 20029) 2 = 3600000
  ∧ allDaysIn Scenario.newYorkAutumn (setWeekStart 20029 Sample.oneOfThreeTaken)
    = allDays (setWeekStart 20029 Sample.oneOfThreeTaken).
Proof.
  split; [reflexivity|].
  refine (proj1 (proj2 (allDays_week Scenario.newYorkAutumn
                          (setWeekStart 20029 Sample.oneOfThreeTaken))) _).
  intros i Hi.
  assert (Hcases : i = 0 ∨ i = 1 ∨ i = 2 ∨ i = 3 ∨ i = 4 ∨ i = 5 ∨ i = 6) by lia.
  destruct Hcases as [->|[->|[->|[->|[->|[->| ->]]]]]];
    (vm_compute; split; [discriminate|reflexivity]).
Defined.

Lemma changeWeekStart_ne profile c w s :
  w ≠ weekStart s →
  changeWeekStart profile c w s = loadWeek profile c (setWeekStart w s).
Proof. intros Hne. unfold changeWeekStart. by rewrite decide_False. Qed.

Lemma nextWeek_spec profile c s :
  nextWeek profile c s = loadWeek profile c (setWeekStart (weekStart s + 7) s).
Proof.
  unfold nextWeek. rewrite addDaysISO_spec. apply changeWeekStart_ne. lia.
Qed.

Lemma prevWeek_spec profile c s :
  prevWeek profile c s = loadWeek profile c (setWeekStart (weekStart s - 7) s).
Proof.
  unfold prevWeek. rewrite addDaysISO_spec.
  replace (weekStart s + -7) with (weekStart s - 7) by lia.
  apply changeWeekStart_ne. lia.
Qed.

Lemma loadWeek_setWeekStart_back profile c w s :
  loadWeek profile c (setWeekStart (weekStart s) (loadWeek profile c (setWeekStart w s)))
  = loadWeek profile c s.
Proof. by destruct s. Qed.

(** X4.  In a zone of fixed offset: an arrow moves the anchor and every
    displayed day by seven days, keeps the anchor's weekday, and, the anchor
    having changed, is followed by a reload, so that in week mode the
    tracked entries are then those of the log for the displayed week and
    none for another day; one arrow after the other, each reload answered
    before the next click, restores the anchor and leaves the state a reload
    gives, whereas if the answer to the first reload comes last the restored
    week shows the entries of the other week; "Oggi" brings back a week that
    contains today, with a reload unless the anchor is already that week's.
    Across a
    change of offset this fails: in Rome the right arrow and then the left
    one lead from 2024-03-25 to 2024-03-24, and in New York at
    2024-11-04T00:30Z the week "Oggi" anchors ends the day before today. *)
Theorem week_navigation profile (c : Clock) (s : State) :
  nextWeek profile c s = loadWeek profile c (setWeekStart (weekStart s + 7) s)
  ∧ prevWeek profile c s = loadWeek profile c (setWeekStart (weekStart s - 7) s)
  ∧ prevWeek profile c (nextWeek profile c s) = loadWeek profile c s
  ∧ nextWeek profile c (prevWeek profile c s) = loadWeek profile c s
  ∧ allDays (nextWeek profile c s) = (λ d, d + 7) <$> allDays s
  ∧ allDays (prevWeek profile c s) = (λ d, d - 7) <$> allDays s
  ∧ weekdayFromMonday (weekStart (nextWeek profile c s))
    = weekdayFromMonday (weekStart s)
  ∧ weekdayFromMonday (weekStart (prevWeek profile c s))
    = weekdayFromMonday (weekStart s)
  ∧ (onlyToday s = false →
     ∀ s', s' = nextWeek profile c s ∨ s' = prevWeek profile c s →
       backend s' = backend s
       ∧ (∀ k v, intakes s' !! k = Some v →
            k.1.1 ∈ allDays s'
            ∧ ∃ r, r ∈ logOf s ∧ uiKey r = k ∧ Intake.taken r = v
                   ∧ Intake.family_id r = Profile.family_id profile)
       ∧ (∀ r, r ∈ logOf s → Intake.family_id r = Profile.family_id profile →
               Intake.day r ∈ allDays s' → is_Some (intakes s' !! uiKey r)))
  ∧ (onlyToday s = false →
     loadWeek profile c s
     = reloadAnswer profile (weekStart s) (weekStart s + 6) s
     ∧ ∀ late,
         late = reloadAnswer profile (weekStart s + 7) (weekStart s + 13)
                  (reloadAnswer profile (weekStart s) (weekStart s + 6)
                     (setWeekStart (weekStart s) (setWeekStart (weekStart s + 7) s))) →
         weekStart late = weekStart s
         ∧ intakes late = intakes (nextWeek profile c s))
  ∧ todayISO c ∈ allDays (thisWeek profile c s)
  ∧ (weekStart s = startOfWeekISO c → thisWeek profile c s = s)
  ∧ (weekStart s ≠ startOfWeekISO c →
     thisWeek profile c s
     = loadWeek profile c (setWeekStart (startOfWeekISO c) s))
  ∧ addDaysISOIn Scenario.rome (addDaysISOIn Scenario.rome 19807 7) (-7) = 19806
  ∧ toISODate Scenario.autumnNight = 20031
  ∧ allDaysIn Scenario.newYorkAutumn
      (setWeekStart (startOfWeekISOIn Scenario.newYorkAutumn Scenario.autumnNight) s)
    = [20024; 20025; 20026; 20027; 20028; 20029; 20030].
Proof.
  split; [apply nextWeek_spec|]. split; [apply prevWeek_spec|].
  split.
  { rewrite prevWeek_spec, nextWeek_spec.
    replace (weekStart (loadWeek profile c (setWeekStart (weekStart s + 7) s)) - 7)
      with (weekStart s) by (cbn; lia).
    apply loadWeek_setWeekStart_back. }
  split.
  { rewrite nextWeek_spec, prevWeek_spec.
    replace (weekStart (loadWeek profile c (setWeekStart (weekStart s - 7) s)) + 7)
      with (weekStart s) by (cbn; lia).
    apply loadWeek_setWeekStart_back. }
  split; [|split].
  1, 2: rewrite ?nextWeek_spec, ?prevWeek_spec, !allDays_spec,
          <- list_fmap_compose;
        apply list_fmap_ext; intros _ i _; cbn; lia.
  split; [|split].
  1, 2: rewrite ?nextWeek_spec, ?prevWeek_spec; unfold weekdayFromMonday; cbn;
        Z.div_mod_to_equations; lia.
  split.
  { intros Hweek s' Hs'.
    assert (Hload : ∃ w, s' = loadWeek profile c (setWeekStart w s)).
    { destruct Hs' as [-> | ->];
        [rewrite nextWeek_spec|rewrite prevWeek_spec]; eauto. }
    destruct Hload as [w ->]. clear Hs'.
    split; [reflexivity|].
    assert (Hfrom : weekFrom c (setWeekStart w s) = w)
      by (unfold weekFrom; cbn; by rewrite Hweek).
    assert (Hto : weekTo c (setWeekStart w s) = w + 6)
      by (unfold weekTo; cbn; by rewrite Hweek, addDaysISO_spec).
    split.
    - intros k v. rewrite loadWeek_intakes, intakesOfRows_lookup.
      destruct (last _) as [r|] eqn:Hl; [|discriminate].
      intros [= <-].
      apply last_Some_elem_of, list_elem_of_filter in Hl as [Hu Hl].
      apply list_elem_of_filter in Hl as [[Hf Hd] Hl].
      rewrite Hfrom, Hto in Hd. split.
      + apply allDays_elem. rewrite <- Hu. cbn. lia.
      + exists r. done.
    - intros r Hr Hf Hd. apply allDays_elem in Hd. cbn in Hd.
      rewrite loadWeek_intakes, intakesOfRows_lookup.
      assert (Hin : r ∈ filter (λ x, uiKey x = uiKey r)
                          (Sb.intakesBetween (Profile.family_id profile)
                             (weekFrom c (setWeekStart w s))
                             (weekTo c (setWeekStart w s))
                             (logOf (setWeekStart w s)))).
      { apply list_elem_of_filter. split; [reflexivity|].
        apply list_elem_of_filter. rewrite Hfrom, Hto. split; [|exact Hr].
        split; [exact Hf|lia]. }
      destruct (last _) as [x|] eqn:Hl; [by eexists|].
      apply last_None in Hl. rewrite Hl in Hin. by apply elem_of_nil in Hin. }
  split.
  { intros Hweek. split.
    - unfold loadWeek, reloadAnswer. cbv zeta. rewrite Hweek, addDaysISO_spec.
      reflexivity.
    - intros late ->. split; [reflexivity|].
      rewrite nextWeek_spec. unfold loadWeek, reloadAnswer. cbv zeta.
      cbn [onlyToday weekStart backend intakes setWeekStart setIntakes].
      rewrite Hweek, addDaysISO_spec. do 2 f_equal. lia. }
  assert (Hthis : weekStart (thisWeek profile c s) = startOfWeekISO c).
  { unfold thisWeek, changeWeekStart. by case_decide. }
  split.
  { apply allDays_elem. rewrite Hthis.
    pose proof (startOfWeekISO_window c) as Hwin. rewrite addDaysISO_spec in Hwin.
    lia. }
  split.
  { intros Heq. unfold thisWeek, changeWeekStart. by rewrite decide_True. }
  split.
  { intros Hne. unfold thisWeek. apply changeWeekStart_ne. congruence. }
  split; [vm_compute; reflexivity|]. split; vm_compute; reflexivity.
Qed.

Lemma week_navigation_witness :
  isTaken (setOnlyToday false Sample.oneOfThreeTaken) (19725, Mattina, "m1") = true
  ∧ (∀ k v,
       intakes (nextWeek Sample.profile Sample.clockWednesday
                  (setOnlyToday false Sample.oneOfThreeTaken)) !! k = Some v →
       k.1.1 ∈ allDays (nextWeek Sample.profile Sample.clockWednesday
                          (setOnlyToday false Sample.oneOfThreeTaken))).
Proof.
  split; [reflexivity|].
  intros k v Hk.
  destruct (week_navigation Sample.profile Sample.clockWednesday
              (setOnlyToday false Sample.oneOfThreeTaken))
    as (_ & _ & _ & _ & _ & _ & _ & _ & Hreload & _).
  destruct (Hreload eq_refl _ (or_introl eq_refl)) as (_ & Hsound & _).
  by destruct (Hsound k v Hk).
Defined.

(** ** Ticking and unticking a dose *)

Lemma toggleTaken_None profile day time m s :
  toggleTaken profile day time m None s
  = toggleTaken profile day time m
      (Some (negb (isTaken s (day, time, Med.id m)))) s.
Proof. reflexivity. Qed.

Lemma toggleTaken_force profile day time m force s :
  ∃ b : bool,
    toggleTaken profile day time m force s
    = toggleTaken profile day time m (Some b) s.
Proof.
  destruct force as [b|]; [by exists b|].
  eexists. apply toggleTaken_None.
Qed.

Lemma toggleTaken_medsOf profile day time m force s :
  medsOf (toggleTaken profile day time m force s) = medsOf s.
Proof.
  destruct (toggleTaken_force profile day time m force s) as [b ->].
  unfold toggleTaken, medsOf.
  destruct b; unfold_state;
    match goal with |- context [single ?l] => destruct (single l) end;
    reflexivity.
Qed.

Lemma deleteIntake_upsertIntake_absent row log :
  Sb.intakeKey row ∉ Sb.intakeKey <$> log →
  Sb.deleteIntake (Sb.intakeKey row) (Sb.upsertIntake row log) = log.
Proof.
  intros Habs. unfold Sb.upsertIntake, Sb.deleteIntake.
  rewrite decide_False by exact Habs.
  rewrite filter_app, filter_cons, filter_nil.
  rewrite decide_False by (intros Hne; by apply Hne).
  rewrite app_nil_r. apply filter_all. intros r Hr Heq. apply Habs.
  rewrite <- Heq. apply list_elem_of_fmap. eauto.
Qed.

(** A delete under another key leaves the rows loaded under [k] alone. *)
Lemma deleteIntake_loaded_other fam from to day time mid log k :
  k ≠ (day, time, mid) →
  filter (λ r, uiKey r = k)
    (Sb.intakesBetween fam from to (Sb.deleteIntake (fam, day, time, mid) log))
  = filter (λ r, uiKey r = k) (Sb.intakesBetween fam from to log).
Proof.
  intros Hk. unfold Sb.intakesBetween, Sb.deleteIntake.
  rewrite !list_filter_filter. apply list_filter_iff. intros r.
  split; [tauto|]. intros [Hu Hf]. repeat split; try tauto.
  intros Heq. apply Hk. rewrite <- Hu.
  unfold uiKey, Sb.intakeKey in *. congruence.
Qed.

(** After a delete no row of the family is loaded under the deleted key. *)
Lemma deleteIntake_loaded_same fam from to day time mid log :
  filter (λ r, uiKey r = (day, time, mid))
    (Sb.intakesBetween fam from to (Sb.deleteIntake (fam, day, time, mid) log))
  = [].
Proof.
  unfold Sb.intakesBetween, Sb.deleteIntake. rewrite !list_filter_filter.
  apply filter_none. intros r _ [(Hu & Hf & _) Hne]. apply Hne.
  unfold uiKey, Sb.intakeKey in *. congruence.
Qed.

Lemma toggleTaken_false_loaded profile c day time m s k :
  intakes (loadWeek profile c (toggleTaken profile day time m (Some false) s)) !! k
  = if decide (k = (day, time, Med.id m)) then None
    else intakes (loadWeek profile c s) !! k.
Proof.
  rewrite !loadWeek_intakes.
  destruct (toggleTaken_window profile c day time m (Some false) s) as [-> ->].
  rewrite toggleTaken_logOf, !intakesOfRows_lookup.
  case_decide as Hk.
  - subst k. by rewrite deleteIntake_loaded_same.
  - by rewrite deleteIntake_loaded_other.
Qed.

Lemma isTaken_false s k : isTaken s k = false ↔ intakes s !! k ≠ Some true.
Proof.
  unfold isTaken. destruct (intakes s !! k) as [[]|]; cbn; split; congruence.
Qed.

(** X5.  From an unticked dose with no log row, a tick followed by an
    untick restores the log and the tracked state; the Box quantity comes
    back to what it was when it covered the dose, and ends at [per_dose]
    when it did not (the tick was clamped at zero, the untick was not). *)
Theorem clickTwice_round_trip profile day time m s q :
  isTaken s (day, time, Med.id m) = false →
  (Profile.family_id profile, day, time, Med.id m) ∉ Sb.intakeKey <$> logOf s →
  qtyAt (Med.id m) Box s = Some q →
  isTaken (toggleTaken profile day time m None s) (day, time, Med.id m) = true
  ∧ logOf (clickTwice profile day time m s) = logOf s
  ∧ isTaken (clickTwice profile day time m s) (day, time, Med.id m) = false
  ∧ qtyAt (Med.id m) Box (clickTwice profile day time m s)
    = Some (Z.max 0 (Z.max 0 (q - Med.per_dose m) + Med.per_dose m))
  ∧ (0 ≤ Med.per_dose m ≤ q →
       qtyAt (Med.id m) Box (clickTwice profile day time m s) = Some q)
  ∧ (0 ≤ q < Med.per_dose m →
       qtyAt (Med.id m) Box (clickTwice profile day time m s)
       = Some (Med.per_dose m)).
Proof.
  intros Hunt Habs Hq. unfold clickTwice.
  assert (Ht1 : isTaken (toggleTaken profile day time m (Some true) s)
                  (day, time, Med.id m) = true).
  { apply isTaken_true. rewrite toggleTaken_intakes. apply lookup_insert_eq. }
  assert (Hc1 : toggleTaken profile day time m None s
                = toggleTaken profile day time m (Some true) s)
    by (by rewrite toggleTaken_None, Hunt).
  assert (Hc2 : toggleTaken profile day time m None
                  (toggleTaken profile day time m (Some true) s)
                = toggleTaken profile day time m (Some false)
                    (toggleTaken profile day time m (Some true) s))
    by (by rewrite toggleTaken_None, Ht1).
  rewrite Hc1, Hc2.
  pose proof (toggleTaken_qtyAt_Box profile day time m true s q Hq) as H1.
  cbv beta iota in H1. rewrite Z.add_opp_r in H1.
  pose proof (toggleTaken_qtyAt_Box profile day time m false _ _ H1) as H2.
  cbv beta iota in H2.
  split; [exact Ht1|]. split.
  { rewrite !toggleTaken_logOf.
    set (row := {| Intake.family_id := Profile.family_id profile;
                   Intake.day := day; Intake.time_slot := time;
                   Intake.med_id := Med.id m; Intake.taken := true |}).
    change (Profile.family_id profile, day, time, Med.id m)
      with (Sb.intakeKey row) in *.
    by apply deleteIntake_upsertIntake_absent. }
  split.
  { apply isTaken_false. rewrite toggleTaken_intakes, lookup_insert_eq. discriminate. }
  split; [exact H2|].
  split; intros Hp; rewrite H2; f_equal; lia.
Qed.

Lemma clickTwice_round_trip_witness :
  qtyAt "m1" Box
    (clickTwice Sample.profile 19725 Mattina Sample.aspirina (Sample.stocked 10 3))
  = Some 10
  ∧ qtyAt "m1" Box
      (clickTwice Sample.profile 19725 Mattina Sample.aspirina (Sample.stocked 0 3))
    = Some 1.
Proof.
  split.
  - refine (proj1 (proj2 (proj2 (proj2 (proj2
      (clickTwice_round_trip Sample.profile 19725 Mattina Sample.aspirina
         (Sample.stocked 10 3) 10 eq_refl _ eq_refl))))) _).
    + apply not_elem_of_nil.
    + cbn. lia.
  - refine (proj2 (proj2 (proj2 (proj2 (proj2
      (clickTwice_round_trip Sample.profile 19725 Mattina Sample.aspirina
         (Sample.stocked 0 3) 0 eq_refl _ eq_refl))))) _).
    + apply not_elem_of_nil.
    + cbn. lia.
Defined.

(** X6.  After an untick a reload never shows the dose as taken, whatever
    the log held, and the other keys load as before; after a tick a reload
    shows the dose as taken when its day is in the loaded range, and loads
    nothing under its key when it is not. *)
Theorem toggleTaken_then_loadWeek profile c day time m s :
  isTaken (loadWeek profile c (toggleTaken profile day time m (Some false) s))
    (day, time, Med.id m) = false
  ∧ (∀ k, k ≠ (day, time, Med.id m) →
       intakes (loadWeek profile c (toggleTaken profile day time m (Some false) s))
         !! k
       = intakes (loadWeek profile c s) !! k)
  ∧ (weekFrom c s ≤ day ≤ weekTo c s →
       isTaken (loadWeek profile c (toggleTaken profile day time m (Some true) s))
         (day, time, Med.id m) = true)
  ∧ (¬ (weekFrom c s ≤ day ≤ weekTo c s) →
       intakes (loadWeek profile c (toggleTaken profile day time m (Some true) s))
         !! (day, time, Med.id m) = None).
Proof.
  split.
  { apply isTaken_false. rewrite toggleTaken_false_loaded.
    rewrite decide_True by reflexivity. discriminate. }
  split.
  { intros k Hk. rewrite toggleTaken_false_loaded. by rewrite decide_False. }
  split.
  { intros Hwin. apply isTaken_true. apply toggleTaken_true_loaded; auto. }
  intros Hout. rewrite loadWeek_intakes.
  destruct (toggleTaken_window profile c day time m (Some true) s) as [-> ->].
  rewrite intakesOfRows_lookup.
  rewrite filter_none; [reflexivity|].
  intros r Hr Hu. apply list_elem_of_filter in Hr as [(_ & Hday) _].
  apply Hout. unfold uiKey in Hu. inversion Hu. subst. exact Hday.
Qed.

Lemma toggleTaken_then_loadWeek_witness :
  isTaken
    (loadWeek Sample.profile Sample.clockWednesday
       (toggleTaken Sample.profile 19725 Sera Sample.aspirina (Some true)
          Sample.oneOfThreeTaken))
    (19725, Sera, "m1") = true.
Proof.
  refine (proj1 (proj2 (proj2
    (toggleTaken_then_loadWeek Sample.profile Sample.clockWednesday 19725 Sera
       Sample.aspirina Sample.oneOfThreeTaken))) _).
  vm_compute. split; discriminate.
Defined.

Lemma qtyAt_None mid loc s :
  qtyAt mid loc s = None ↔ single (Sb.stocksAt mid loc (stocksOf s)) = None.
Proof.
  unfold qtyAt. destruct (single _); cbn; split; congruence.
Qed.

(** An update by the id of a row of another location or medication does not
    change what is read at [(mid, loc)]. *)
Lemma stocksAt_updateQty_other st r q mid loc :
  stockIdsUnique st → r ∈ st →
  (Stock.med_id r, Stock.location r) ≠ (mid, loc) →
  Sb.stocksAt mid loc (Sb.updateQty (Stock.id r) q st) = Sb.stocksAt mid loc st.
Proof.
  intros Hnd Hr Hne. rewrite stocksAt_updateQty. unfold Sb.updateQty.
  apply fmap_fixed. intros x Hx. case_decide as Hid; [|reflexivity].
  exfalso. apply list_elem_of_filter in Hx as [[Hm Hl] Hx].
  assert (x = r) by (eapply (unique_key_inj Stock.id); eauto).
  subst x. apply Hne. congruence.
Qed.

Lemma single_elem {A} (l : list A) (x : A) : single l = Some x → x ∈ l.
Proof. intros ->%single_Some. left. Qed.

Lemma toggleTaken_stocks_map profile day time m (b : bool) s :
  stocks (toggleTaken profile day time m (Some b) s)
  = match single (Sb.stocksAt (Med.id m) Box (stocksOf s)) with
    | Some r =>
      <[Med.id m :=
          {| box := Z.max 0 (Stock.qty r
                             + (if b then - Med.per_dose m else Med.per_dose m));
             dispensa := dispensa (pairOr0 (stocks s) (Med.id m)) |}]> (stocks s)
    | None => stocks s
    end.
Proof.
  unfold toggleTaken, stocksOf.
  destruct b; unfold_state;
    match goal with |- context [single ?l] => destruct (single l) end;
    reflexivity.
Qed.

(** X7.  When the medication has no Box row, or more than one, the click
    still writes the tracked state and the log, and no stock quantity moves,
    in the backend or on the dashboard. *)
Theorem toggleTaken_without_box_row profile day time m (b : bool) s :
  qtyAt (Med.id m) Box s = None →
  stocksOf (toggleTaken profile day time m (Some b) s) = stocksOf s
  ∧ stocks (toggleTaken profile day time m (Some b) s) = stocks s
  ∧ isTaken (toggleTaken profile day time m (Some b) s) (day, time, Med.id m) = b
  ∧ ((Profile.family_id profile, day, time, Med.id m)
       ∈ Sb.intakeKey <$> logOf (toggleTaken profile day time m (Some b) s)
     ↔ b = true).
Proof.
  intros Hq%qtyAt_None.
  rewrite toggleTaken_stocksOf, toggleTaken_stocks_map, Hq.
  split; [reflexivity|]. split; [reflexivity|]. split.
  { unfold isTaken. by rewrite toggleTaken_intakes, lookup_insert_eq. }
  rewrite toggleTaken_logOf. destruct b.
  - split; [done|]. intros _. apply list_elem_of_fmap. eexists.
    split; [|apply upsertIntake_elem]. reflexivity.
  - split; [|discriminate]. intros Hin. exfalso.
    apply list_elem_of_fmap in Hin as (r & Hk & Hr).
    apply list_elem_of_filter in Hr as [Hne _]. by apply Hne.
Qed.

Lemma toggleTaken_without_box_row_witness :
  stocksOf (toggleTaken Sample.profile 19725 Sera Sample.aspirina (Some true)
              Scenario.noStockRows) = []
  ∧ isTaken (toggleTaken Sample.profile 19725 Sera Sample.aspirina (Some true)
               Scenario.noStockRows) (19725, Sera, "m1") = true.
Proof.
  destruct (toggleTaken_without_box_row Sample.profile 19725 Sera Sample.aspirina
              true Scenario.noStockRows eq_refl) as (Hst & _ & Htk & _).
  split; [exact Hst | exact Htk].
Defined.

(** X8.  A click on one dose leaves the medication table and the view
    settings alone, keeps the log's uniqueness constraint and the stock ids
    unique, changes no tracked key but its own, and under unique stock ids
    changes no quantity other than the Box of its medication. *)
Theorem toggleTaken_frame profile day time m force s :
  medsOf (toggleTaken profile day time m force s) = medsOf s
  ∧ weekStart (toggleTaken profile day time m force s) = weekStart s
  ∧ onlyToday (toggleTaken profile day time m force s) = onlyToday s
  ∧ meds (toggleTaken profile day time m force s) = meds s
  ∧ (∀ k, k ≠ (day, time, Med.id m) →
       intakes (toggleTaken profile day time m force s) !! k = intakes s !! k)
  ∧ (intakeKeysUnique (logOf s) →
     intakeKeysUnique (logOf (toggleTaken profile day time m force s)))
  ∧ (stockIdsUnique (stocksOf s) →
     stockIdsUnique (stocksOf (toggleTaken profile day time m force s))
     ∧ ∀ mid loc, (mid, loc) ≠ (Med.id m, Box) →
         qtyAt mid loc (toggleTaken profile day time m force s) = qtyAt mid loc s).
Proof.
  split; [apply toggleTaken_medsOf|].
  destruct (toggleTaken_view profile day time m force s) as (Ho & Hw & Hm).
  split; [exact Hw|]. split; [exact Ho|]. split; [exact Hm|].
  destruct (toggleTaken_force profile day time m force s) as [b ->].
  split.
  { intros k Hk. rewrite toggleTaken_intakes. by apply lookup_insert_ne. }
  split.
  { intros Hnd. rewrite toggleTaken_logOf.
    destruct b; [by apply upsertIntake_unique|by apply deleteIntake_unique]. }
  intros Hnd. rewrite toggleTaken_stocksOf. unfold qtyAt.
  rewrite toggleTaken_stocksOf.
  destruct (single (Sb.stocksAt (Med.id m) Box (stocksOf s))) as [r|] eqn:Hr;
    [|by split].
  split; [by apply updateQty_unique|].
  intros mid loc Hne.
  apply single_elem, list_elem_of_filter in Hr as [[Hrm Hrl] Hr].
  rewrite stocksAt_updateQty_other; [reflexivity|exact Hnd|exact Hr|].
  intros Heq. apply Hne. congruence.
Qed.

Lemma toggleTaken_frame_witness :
  qtyAt "m1" Dispensa
    (toggleTaken Sample.profile 19725 Sera Sample.aspirina None
       (Sample.stocked 10 3))
  = Some 3.
Proof.
  assert (Hnd : stockIdsUnique (stocksOf (Sample.stocked 10 3))).
  { unfold stockIdsUnique. cbn. apply NoDup_cons. split.
    - intros Hin. apply list_elem_of_singleton in Hin. discriminate.
    - apply NoDup_singleton. }
  destruct (toggleTaken_frame Sample.profile 19725 Sera Sample.aspirina None
              (Sample.stocked 10 3)) as (_ & _ & _ & _ & _ & _ & Hst).
  destruct (Hst Hnd) as [_ Hother].
  rewrite Hother; [reflexivity|discriminate].
Defined.

(** ** Loading the tracked state *)

Lemma last_all_eq {A} (l : list A) (a : A) :
  (∀ x, x ∈ l → x = a) → a ∈ l → last l = Some a.
Proof.
  intros Hall Ha.
  assert (Hne : l ≠ []) by (intros ->; by apply elem_of_nil in Ha).
  apply last_is_Some in Hne as [x Hx]. rewrite Hx. f_equal.
  apply Hall. by apply last_Some_elem_of.
Qed.


(** X9.  [loadWeek] changes nothing in the backend and loading twice is
    loading once; every tracked entry it produces comes from a log row of
    the family inside the requested range, with that row's flag; and under
    the log's uniqueness constraint every such row is tracked with its
    flag. *)
Theorem loadWeek_reads_log profile c s :
  loadWeek profile c (loadWeek profile c s) = loadWeek profile c s
  ∧ backend (loadWeek profile c s) = backend s
  ∧ (∀ k v, intakes (loadWeek profile c s) !! k = Some v →
       ∃ r, r ∈ logOf s ∧ Intake.family_id r = Profile.family_id profile
            ∧ uiKey r = k ∧ Intake.taken r = v
            ∧ weekFrom c s ≤ Intake.day r ≤ weekTo c s)
  ∧ (intakeKeysUnique (logOf s) →
     ∀ r, r ∈ logOf s → Intake.family_id r = Profile.family_id profile →
          weekFrom c s ≤ Intake.day r ≤ weekTo c s →
          intakes (loadWeek profile c s) !! uiKey r = Some (Intake.taken r)).
Proof.
  split; [reflexivity|]. split; [reflexivity|]. split.
  - intros k v. rewrite loadWeek_intakes, intakesOfRows_lookup.
    destruct (last _) as [r|] eqn:Hl; [|discriminate].
    intros [= <-]. exists r.
    apply last_Some_elem_of, list_elem_of_filter in Hl as [Hu Hl].
    apply list_elem_of_filter in Hl as [[Hf Hd] Hl]. done.
  - intros Hnd r Hr Hf Hd. rewrite loadWeek_intakes, intakesOfRows_lookup.
    rewrite (last_all_eq _ r); [reflexivity| |].
    + intros x Hx. apply list_elem_of_filter in Hx as [Hu Hx].
      apply list_elem_of_filter in Hx as [[Hxf _] Hx].
      eapply (unique_key_inj Sb.intakeKey); eauto.
      unfold uiKey, Sb.intakeKey in *. congruence.
    + apply list_elem_of_filter. split; [reflexivity|].
      by apply list_elem_of_filter.
Qed.

Lemma loadWeek_reads_log_witness :
  intakes (loadWeek Sample.profile Sample.clockWednesday Sample.oneOfThreeTaken)
    !! (19725, Mattina, "m1") = Some true
  ∧ ∃ r, r ∈ logOf Sample.oneOfThreeTaken ∧ uiKey r = (19725, Mattina, "m1").
Proof.
  destruct (loadWeek_reads_log Sample.profile Sample.clockWednesday
              Sample.oneOfThreeTaken) as (_ & _ & Hsound & Hcompl).
  assert (Hl : intakes (loadWeek Sample.profile Sample.clockWednesday
                          Sample.oneOfThreeTaken)
                 !! (19725, Mattina, "m1") = Some true).
  { refine (Hcompl _ {| Intake.family_id := "fam1"; Intake.day := 19725;
                        Intake.time_slot := Mattina; Intake.med_id := "m1";
                        Intake.taken := true |} _ eq_refl _).
    - apply NoDup_singleton.
    - left.
    - vm_compute. split; discriminate. }
  split; [exact Hl|].
  destruct (Hsound _ _ Hl) as (r & Hr & _ & Hu & _). eauto.
Defined.



(** ** The bulk buttons *)

Lemma foldl_toggleTaken_view profile day (checked : bool) jobs s :
  onlyToday (foldl (λ s j, toggleTaken profile day j.2 j.1 (Some checked) s) s jobs)
    = onlyToday s
  ∧ weekStart (foldl (λ s j, toggleTaken profile day j.2 j.1 (Some checked) s) s jobs)
    = weekStart s
  ∧ meds (foldl (λ s j, toggleTaken profile day j.2 j.1 (Some checked) s) s jobs)
    = meds s.
Proof.
  revert s. induction jobs as [|j jobs IH]; intros s; [done|].
  cbn [foldl]. destruct (IH (toggleTaken profile day j.2 j.1 (Some checked) s))
    as (-> & -> & ->).
  apply toggleTaken_view.
Qed.

Lemma plannedDosesForToday_meds s s' :
  meds s' = meds s → plannedDosesForToday s' = plannedDosesForToday s.
Proof. unfold plannedDosesForToday. by intros ->. Qed.

Lemma markAllToday_meds profile c checked s :
  meds (markAllToday profile c checked s) = meds s.
Proof.
  unfold markAllToday. cbv zeta.
  change (meds (loadWeek profile c ?x)) with (meds x).
  apply foldl_toggleTaken_view.
Qed.

(** After the forced ticks of a bulk "check all", a reload shows every
    planned dose as taken when the tracked ticks are in the backend and today
    is in the loaded range. *)
Lemma markAllToday_true_taken profile c s :
  weekFrom c s ≤ todayISO c ≤ weekTo c s →
  Forall (λ p, isTaken s (todayKey c p) = true →
               isTaken (loadWeek profile c s) (todayKey c p) = true)
    (plannedDosesForToday s) →
  Forall (λ p, isTaken (markAllToday profile c true s) (todayKey c p) = true)
    (plannedDosesForToday s).
Proof.
  intros Hwin Hsync. apply Forall_forall. intros p Hp.
  apply isTaken_true. unfold markAllToday.
  apply foldl_toggleTaken_true_loaded; [exact Hwin|].
  destruct (isTaken s (todayKey c p)) eqn:Ht.
  - left. apply isTaken_true.
    by apply (proj1 (Forall_forall _ _) Hsync p Hp).
  - right. exists p. split; [|reflexivity].
    unfold markAllTodayJobs. apply list_elem_of_filter. split; [|exact Hp].
    unfold todayKey in Ht. cbn. congruence.
Qed.

Lemma foldl_toggleTaken_false_loaded profile c day jobs s k :
  (intakes (loadWeek profile c
              (foldl (λ s j, toggleTaken profile day j.2 j.1 (Some false) s) s jobs))
     !! k = None
   ∨ intakes (loadWeek profile c
                (foldl (λ s j, toggleTaken profile day j.2 j.1 (Some false) s) s jobs))
       !! k = intakes (loadWeek profile c s) !! k)
  ∧ ((∃ j : Med.t * TimeSlot, j ∈ jobs ∧ k = (day, j.2, Med.id j.1)) →
     intakes (loadWeek profile c
                (foldl (λ s j, toggleTaken profile day j.2 j.1 (Some false) s) s jobs))
       !! k = None).
Proof.
  revert s. induction jobs as [|j jobs IH]; intros s.
  - split; [by right|]. intros (j & Hj & _). by apply elem_of_nil in Hj.
  - cbn [foldl].
    destruct (IH (toggleTaken profile day j.2 j.1 (Some false) s)) as [Hor Hex].
    rewrite toggleTaken_false_loaded in Hor.
    split.
    + destruct Hor as [Hn|He]; [by left|]. rewrite He.
      case_decide; [by left|by right].
    + intros (j' & Hj' & Hk). apply elem_of_cons in Hj' as [->|Hj'].
      * destruct Hor as [Hn|He]; [exact Hn|]. rewrite He.
        by rewrite decide_True.
      * apply Hex. eauto.
Qed.

Lemma markAllToday_false_untaken profile c s :
  Forall (λ p, isTaken s (todayKey c p) = false →
               isTaken (loadWeek profile c s) (todayKey c p) = false)
    (plannedDosesForToday s) →
  Forall (λ p, isTaken (markAllToday profile c false s) (todayKey c p) = false)
    (plannedDosesForToday s).
Proof.
  intros Hsync. apply Forall_forall. intros p Hp.
  apply isTaken_false. unfold markAllToday. cbv zeta.
  destruct (foldl_toggleTaken_false_loaded profile c (todayISO c)
              (markAllTodayJobs c false s) s (todayKey c p)) as [Hor Hex].
  destruct (isTaken s (todayKey c p)) eqn:Ht.
  - rewrite Hex; [discriminate|]. exists p. split; [|reflexivity].
    unfold markAllTodayJobs. apply list_elem_of_filter. split; [|exact Hp].
    unfold todayKey in Ht. cbn. congruence.
  - destruct Hor as [->| ->]; [discriminate|].
    apply isTaken_false. by apply (proj1 (Forall_forall _ _) Hsync p Hp).
Qed.

(** X11.  [markAllToday(false)] calls [toggleTaken] with [force = false]
    exactly for the planned pairs tracked as taken, and when the pairs
    tracked as not taken have no taken row in the backend, every planned
    pair reads as not taken after the reload, whatever the loaded range. *)
Theorem markAllToday_false_spec profile c (s : State) :
  (∀ m slot,
     (m, slot) ∈ markAllTodayJobs c false s
     ↔ m ∈ meds s ∧ slot ∈ Med.times m
       ∧ isTaken s (todayISO c, slot, Med.id m) = true)
  ∧ (Forall (λ p, isTaken s (todayKey c p) = false →
                  isTaken (loadWeek profile c s) (todayKey c p) = false)
       (plannedDosesForToday s) →
     Forall (λ p, isTaken (markAllToday profile c false s) (todayKey c p) = false)
       (plannedDosesForToday s)).
Proof.
  split; [|apply markAllToday_false_untaken].
  intros m slot. unfold markAllTodayJobs.
  rewrite list_elem_of_filter, plannedDosesForToday_elem. cbn.
  destruct (isTaken s (todayISO c, slot, Med.id m)); split; intros H;
    repeat split; try tauto; try congruence.
  destruct H as (_ & _ & ?). discriminate.
Qed.

Lemma markAllToday_false_spec_witness :
  Forall (λ p, isTaken (markAllToday Sample.profile Sample.clockWednesday false
                          Sample.oneOfThreeTaken)
                 (todayKey Sample.clockWednesday p) = false)
    (plannedDosesForToday Sample.oneOfThreeTaken).
Proof.
  refine (proj2 (markAllToday_false_spec Sample.profile Sample.clockWednesday
                   Sample.oneOfThreeTaken) _).
  apply (bool_decide_unpack _). vm_compute. exact I.
Defined.

(** X12.  When every planned pair is already in the wanted state a bulk
    click issues no call and only reloads; in particular a second "check
    all" or "uncheck all" right after a first one issues no call, so it
    moves no stock. *)
Theorem markAllToday_second_click profile c (s : State) :
  (∀ checked,
     Forall (λ p, isTaken s (todayKey c p) = checked) (plannedDosesForToday s) →
     markAllTodayJobs c checked s = []
     ∧ markAllToday profile c checked s = loadWeek profile c s)
  ∧ (weekFrom c s ≤ todayISO c ≤ weekTo c s →
     Forall (λ p, isTaken s (todayKey c p) = true →
                  isTaken (loadWeek profile c s) (todayKey c p) = true)
       (plannedDosesForToday s) →
     markAllTodayJobs c true (markAllToday profile c true s) = [])
  ∧ (Forall (λ p, isTaken s (todayKey c p) = false →
                  isTaken (loadWeek profile c s) (todayKey c p) = false)
       (plannedDosesForToday s) →
     markAllTodayJobs c false (markAllToday profile c false s) = []).
Proof.
  assert (Hnone : ∀ checked s',
            Forall (λ p, isTaken s' (todayKey c p) = checked)
              (plannedDosesForToday s') →
            markAllTodayJobs c checked s' = []).
  { intros checked s' Hall. unfold markAllTodayJobs. apply filter_none.
    intros p Hp Hne. apply Hne.
    apply (proj1 (Forall_forall _ _) Hall p Hp). }
  split.
  { intros checked Hall. pose proof (Hnone checked s Hall) as Hj.
    split; [exact Hj|]. unfold markAllToday. by rewrite Hj. }
  split.
  - intros Hwin Hsync. apply Hnone.
    rewrite (plannedDosesForToday_meds s) by apply markAllToday_meds.
    by apply markAllToday_true_taken.
  - intros Hsync. apply Hnone.
    rewrite (plannedDosesForToday_meds s) by apply markAllToday_meds.
    by apply markAllToday_false_untaken.
Qed.

Lemma markAllToday_second_click_witness :
  markAllTodayJobs Sample.clockWednesday true
    (markAllToday Sample.profile Sample.clockWednesday true Sample.oneOfThreeTaken)
  = [].
Proof.
  refine (proj1 (proj2 (markAllToday_second_click Sample.profile
                          Sample.clockWednesday Sample.oneOfThreeTaken)) _ _).
  - vm_compute. split; discriminate.
  - apply (bool_decide_unpack _). vm_compute. exact I.
Defined.

(** X13.  [plannedDosesForToday] lists a (medication, slot) pair exactly
    when the medication is listed and scheduled for the slot, and lists it
    once when no medication is listed twice, even if a [times] array repeats
    a slot; with unique medication ids a bulk click never issues two calls
    for the same key. *)
Theorem plannedDosesForToday_once c (s : State) :
  (∀ m slot, (m, slot) ∈ plannedDosesForToday s
             ↔ m ∈ meds s ∧ slot ∈ Med.times m)
  ∧ (NoDup (meds s) → NoDup (plannedDosesForToday s))
  ∧ (medIdsUnique (meds s) →
     ∀ checked, NoDup (todayKey c <$> markAllTodayJobs c checked s)).
Proof.
  assert (Hnd : NoDup (meds s) → NoDup (plannedDosesForToday s)).
  { intros Hm. unfold plannedDosesForToday. apply NoDup_bind.
    - intros t1 t2 p _ _ H1 H2.
      apply list_elem_of_fmap in H1 as (m1 & -> & _).
      apply list_elem_of_fmap in H2 as (m2 & [= _ ->] & _). reflexivity.
    - intros t _. apply NoDup_fmap_2; [|by apply NoDup_filter].
      intros m1 m2 [= ->]. reflexivity.
    - apply (bool_decide_unpack _). vm_compute. exact I. }
  split; [apply plannedDosesForToday_elem|]. split; [exact Hnd|].
  intros Hids checked.
  assert (Hm : NoDup (meds s)) by (by apply NoDup_fmap_1 in Hids).
  apply NoDup_fmap_2_strong; [|unfold markAllTodayJobs; by apply NoDup_filter, Hnd].
  intros [m1 t1] [m2 t2] H1 H2 Heq. unfold todayKey in Heq. cbn in Heq.
  inversion Heq as [[Ht Hid]]. f_equal.
  apply list_elem_of_filter in H1 as [_ H1]. apply list_elem_of_filter in H2 as [_ H2].
  apply plannedDosesForToday_elem in H1 as [H1 _].
  apply plannedDosesForToday_elem in H2 as [H2 _].
  by eapply (unique_key_inj Med.id); eauto.
Qed.

Lemma plannedDosesForToday_once_witness :
  NoDup (plannedDosesForToday Sample.oneOfThreeTaken)
  ∧ NoDup (todayKey Sample.clockWednesday
             <$> markAllTodayJobs Sample.clockWednesday true Sample.oneOfThreeTaken).
Proof.
  destruct (plannedDosesForToday_once Sample.clockWednesday Sample.oneOfThreeTaken)
    as (_ & Hnd & Hkeys).
  split.
  - apply Hnd. cbn. apply NoDup_cons. split; [|apply NoDup_singleton].
    intros Hin. apply list_elem_of_singleton in Hin. discriminate.
  - apply Hkeys. unfold medIdsUnique. apply (bool_decide_unpack _).
    vm_compute. exact I.
Defined.

(** ** The stock view *)

(** An update by an id that no row of medication [mid] carries does not
    change what is read for [mid]. *)
Lemma stocksAt_updateQty_other_med st i q mid loc :
  (∀ x, x ∈ st → Stock.id x = i → Stock.med_id x ≠ mid) →
  Sb.stocksAt mid loc (Sb.updateQty i q st) = Sb.stocksAt mid loc st.
Proof.
  intros Hother. rewrite stocksAt_updateQty. unfold Sb.updateQty.
  apply fmap_fixed. intros x Hx. case_decide as Hid; [|reflexivity].
  exfalso. apply list_elem_of_filter in Hx as [[Hm _] Hx].
  by apply (Hother x Hx Hid).
Qed.

Lemma updateQty_other_med_stable st i j q mid :
  (∀ x, x ∈ st → Stock.id x = i → Stock.med_id x ≠ mid) →
  ∀ x, x ∈ Sb.updateQty j q st → Stock.id x = i → Stock.med_id x ≠ mid.
Proof.
  intros Hother x Hx Hid. unfold Sb.updateQty in Hx.
  apply list_elem_of_fmap in Hx as (y & -> & Hy).
  destruct (decide (Stock.id y = j)); cbn in *; by apply (Hother y Hy).
Qed.

Lemma unique_id_other_med st r mid :
  stockIdsUnique st → r ∈ st → Stock.med_id r ≠ mid →
  ∀ x, x ∈ st → Stock.id x = Stock.id r → Stock.med_id x ≠ mid.
Proof.
  intros Hnd Hr Hne x Hx Hid.
  assert (x = r) by (eapply (unique_key_inj Stock.id); eauto).
  by subst x.
Qed.

Lemma single_stocksAt_row mid loc st r :
  single (Sb.stocksAt mid loc st) = Some r →
  r ∈ st ∧ Stock.med_id r = mid ∧ Stock.location r = loc.
Proof.
  intros Hr%single_elem. apply list_elem_of_filter in Hr as [[? ?] ?]. done.
Qed.

(** X14.  When a location row of the medication is missing, or doubled,
    the stock buttons do nothing at all: [moveFromPantry] moves nothing
    even if the other row is there, and [addPantry], [setBoxQty] and
    [setPantryQty] leave the state as it is. *)
Theorem stock_buttons_missing_row m qty s :
  (qtyAt (Med.id m) Box s = None ∨ qtyAt (Med.id m) Dispensa s = None →
   moveFromPantry m qty s = s)
  ∧ (qtyAt (Med.id m) Dispensa s = None →
     addPantry m qty s = s ∧ setPantryQty m qty s = s)
  ∧ (qtyAt (Med.id m) Box s = None → setBoxQty m qty s = s).
Proof.
  unfold moveFromPantry, addPantry, setPantryQty, setBoxQty.
  rewrite !qtyAt_None. unfold stocksOf.
  split; [|split].
  - intros Hn. destruct qty as [|q]; [reflexivity|].
    destruct ((q =? 0) || (q <=? 0)); [reflexivity|].
    destruct Hn as [-> | ->]; [reflexivity|].
    by destruct (single (Sb.stocksAt (Med.id m) Box (t_stocks (backend s)))).
  - intros ->. destruct qty as [|q]; [done|].
    split.
    + by destruct ((q =? 0) || (q <=? 0)).
    + by destruct (q <? 0).
  - intros ->. destruct qty as [|q]; [done|]. by destruct (q <? 0).
Qed.

Lemma stock_buttons_missing_row_witness :
  moveFromPantry Sample.aspirina (Num 5) Scenario.noStockRows = Scenario.noStockRows
  ∧ setBoxQty Sample.aspirina (Num 5) Scenario.noStockRows = Scenario.noStockRows.
Proof.
  destruct (stock_buttons_missing_row Sample.aspirina (Num 5) Scenario.noStockRows)
    as (Hmove & _ & Hset).
  split; [apply Hmove; by left | by apply Hset].
Defined.

(** X15.  [toggleTaken], [moveFromPantry], [addPantry], [setBoxQty] and
    [setPantryQty] keep every stored quantity at zero or above, for every
    argument. *)
Theorem stock_writers_keep_nonneg profile day time m force qty s :
  stocksNonneg (stocksOf s) →
  stocksNonneg (stocksOf (toggleTaken profile day time m force s))
  ∧ stocksNonneg (stocksOf (moveFromPantry m qty s))
  ∧ stocksNonneg (stocksOf (addPantry m qty s))
  ∧ stocksNonneg (stocksOf (setBoxQty m qty s))
  ∧ stocksNonneg (stocksOf (setPantryQty m qty s)).
Proof.
  intros Hst. split.
  { destruct (toggleTaken_force profile day time m force s) as [b ->].
    by apply toggleTaken_nonneg. }
  split; [by apply moveFromPantry_nonneg|].
  split; [by apply addPantry_nonneg|].
  split; [by apply setBoxQty_nonneg|by apply setPantryQty_nonneg].
Qed.

Lemma stock_writers_keep_nonneg_witness :
  stocksNonneg (stocksOf (Sample.stocked 0 3))
  ∧ stocksNonneg
      (stocksOf (toggleTaken Sample.profile 19725 Sera Sample.aspirina None
                   (Sample.stocked 0 3)))
  ∧ stocksNonneg
      (stocksOf (moveFromPantry Sample.aspirina (Num 5) (Sample.stocked 0 3))).
Proof.
  assert (Hst : stocksNonneg (stocksOf (Sample.stocked 0 3))).
  { repeat apply Forall_cons_2; cbn; [lia|lia|apply Forall_nil_2]. }
  split; [exact Hst|].
  destruct (stock_writers_keep_nonneg Sample.profile 19725 Sera Sample.aspirina
              None (Num 5) (Sample.stocked 0 3) Hst) as (Ht & Hm & _).
  split; [exact Ht | exact Hm].
Defined.

Lemma positive_qty_passes q : 0 < q → (q =? 0) || (q <=? 0) = false.
Proof.
  intros Hq. apply orb_false_iff. split; [apply Z.eqb_neq|apply Z.leb_gt]; lia.
Qed.

Lemma moveFromPantry_effect m q s rb rp :
  0 < q →
  single (Sb.stocksAt (Med.id m) Box (stocksOf s)) = Some rb →
  single (Sb.stocksAt (Med.id m) Dispensa (stocksOf s)) = Some rp →
  stocksOf (moveFromPantry m (Num q) s)
  = Sb.updateQty (Stock.id rp) (Z.max 0 (Stock.qty rp - q))
      (Sb.updateQty (Stock.id rb) (Stock.qty rb + q) (stocksOf s))
  ∧ stocks (moveFromPantry m (Num q) s)
    = <[Med.id m := {| box := Stock.qty rb + q;
                       dispensa := Z.max 0 (Stock.qty rp - q) |}]> (stocks s).
Proof.
  intros Hq Hb Hp. unfold moveFromPantry, stocksOf in *.
  by rewrite (positive_qty_passes q Hq), Hb, Hp.
Qed.

Lemma addPantry_effect m q s rp :
  0 < q →
  single (Sb.stocksAt (Med.id m) Dispensa (stocksOf s)) = Some rp →
  stocksOf (addPantry m (Num q) s)
  = Sb.updateQty (Stock.id rp) (Stock.qty rp + q) (stocksOf s)
  ∧ stocks (addPantry m (Num q) s)
    = <[Med.id m := {| box := box (pairOr0 (stocks s) (Med.id m));
                       dispensa := Stock.qty rp + q |}]> (stocks s).
Proof.
  intros Hq Hp. unfold addPantry, stocksOf in *.
  by rewrite (positive_qty_passes q Hq), Hp.
Qed.

Lemma setBoxQty_effect m q s rb :
  0 ≤ q →
  single (Sb.stocksAt (Med.id m) Box (stocksOf s)) = Some rb →
  stocksOf (setBoxQty m (Num q) s) = Sb.updateQty (Stock.id rb) q (stocksOf s)
  ∧ stocks (setBoxQty m (Num q) s)
    = <[Med.id m := {| box := q;
                       dispensa := dispensa (pairOr0 (stocks s) (Med.id m)) |}]>
        (stocks s).
Proof.
  intros Hq Hb. unfold setBoxQty, stocksOf in *.
  apply Z.ltb_ge in Hq. by rewrite Hq, Hb.
Qed.

Lemma setPantryQty_effect m q s rp :
  0 ≤ q →
  single (Sb.stocksAt (Med.id m) Dispensa (stocksOf s)) = Some rp →
  stocksOf (setPantryQty m (Num q) s) = Sb.updateQty (Stock.id rp) q (stocksOf s)
  ∧ stocks (setPantryQty m (Num q) s)
    = <[Med.id m := {| box := box (pairOr0 (stocks s) (Med.id m));
                       dispensa := q |}]> (stocks s).
Proof.
  intros Hq Hp. unfold setPantryQty, stocksOf in *.
  apply Z.ltb_ge in Hq. by rewrite Hq, Hp.
Qed.

(** Reading one location after an update of its row, and the other location
    of the same medication after it. *)
Lemma qtyAt_after_update st r q mid loc :
  single (Sb.stocksAt mid loc st) = Some r →
  Stock.qty <$> single (Sb.stocksAt mid loc (Sb.updateQty (Stock.id r) q st))
  = Some q.
Proof.
  intros Hr. rewrite single_stocksAt_updateQty, Hr. cbn.
  by rewrite decide_True.
Qed.

Lemma stocksAt_after_update_elsewhere st r q mid loc :
  stockIdsUnique st → r ∈ st →
  (Stock.med_id r, Stock.location r) ≠ (mid, loc) →
  single (Sb.stocksAt mid loc (Sb.updateQty (Stock.id r) q st))
  = single (Sb.stocksAt mid loc st).
Proof. intros. by rewrite stocksAt_updateQty_other. Qed.

Lemma moveFromPantry_qtyAt m q s b p :
  stockIdsUnique (stocksOf s) → 0 < q →
  qtyAt (Med.id m) Box s = Some b →
  qtyAt (Med.id m) Dispensa s = Some p →
  qtyAt (Med.id m) Box (moveFromPantry m (Num q) s) = Some (b + q)
  ∧ qtyAt (Med.id m) Dispensa (moveFromPantry m (Num q) s) = Some (Z.max 0 (p - q))
  ∧ stocks (moveFromPantry m (Num q) s) !! Med.id m
    = Some {| box := b + q; dispensa := Z.max 0 (p - q) |}.
Proof.
  intros Hnd Hq Hb Hp.
  apply qtyAt_Some in Hb as (rb & Hrb & <- & Hinb & Hmb & Hlb).
  apply qtyAt_Some in Hp as (rp & Hrp & <- & Hinp & Hmp & Hlp).
  destruct (moveFromPantry_effect m q s rb rp Hq Hrb Hrp) as [Hst Hui].
  unfold qtyAt. rewrite Hst, Hui.
  assert (Hrb' : single (Sb.stocksAt (Med.id m) Box
                           (Sb.updateQty (Stock.id rb) (Stock.qty rb + q) (stocksOf s)))
                 = Some (Sb.withQty (Stock.qty rb + q) rb)).
  { rewrite single_stocksAt_updateQty, Hrb. cbn. by rewrite decide_True. }
  assert (Hrp' : single (Sb.stocksAt (Med.id m) Dispensa
                           (Sb.updateQty (Stock.id rb) (Stock.qty rb + q) (stocksOf s)))
                 = Some rp).
  { rewrite stocksAt_after_update_elsewhere; [exact Hrp|exact Hnd|exact Hinb|].
    rewrite Hlb. intros [= _ ?]. }
  split; [|split].
  - rewrite stocksAt_after_update_elsewhere.
    + by rewrite Hrb'.
    + by apply updateQty_unique.
    + by apply single_elem, list_elem_of_filter in Hrp' as [_ ?].
    + rewrite Hlp. intros [= _ ?].
  - by rewrite (qtyAt_after_update _ rp).
  - apply lookup_insert_eq.
Qed.

(** X16.  A transfer of a positive quantity [q] leaves the medication with
    a total of [box + max(reserve, q)]: the total is kept when the reserve
    covers [q], and grows by the uncovered part when it does not. *)
Theorem moveFromPantry_total m q s b p :
  stockIdsUnique (stocksOf s) → 0 < q →
  qtyAt (Med.id m) Box s = Some b →
  qtyAt (Med.id m) Dispensa s = Some p →
  totalStock (moveFromPantry m (Num q) s) m = b + Z.max p q
  ∧ (∃ b' p', qtyAt (Med.id m) Box (moveFromPantry m (Num q) s) = Some b'
              ∧ qtyAt (Med.id m) Dispensa (moveFromPantry m (Num q) s) = Some p'
              ∧ b' + p' = b + Z.max p q)
  ∧ (q ≤ p → totalStock (moveFromPantry m (Num q) s) m = b + p)
  ∧ (p < q → totalStock (moveFromPantry m (Num q) s) m = b + p + (q - p)).
Proof.
  intros Hnd Hq Hb Hp.
  destruct (moveFromPantry_qtyAt m q s b p Hnd Hq Hb Hp) as (Hb' & Hp' & Hui).
  assert (Ht : totalStock (moveFromPantry m (Num q) s) m = b + Z.max p q).
  { unfold totalStock. rewrite Hui. cbn. lia. }
  split; [exact Ht|]. split.
  { exists (b + q), (Z.max 0 (p - q)). repeat split; [done|done|lia]. }
  split; intros Hpq; rewrite Ht; lia.
Qed.

Lemma moveFromPantry_total_witness :
  totalStock (moveFromPantry Sample.aspirina (Num 2) (Sample.stocked 10 3))
    Sample.aspirina = 13
  ∧ totalStock (moveFromPantry Sample.aspirina (Num 5) (Sample.stocked 10 3))
      Sample.aspirina = 15.
Proof.
  assert (Hnd : stockIdsUnique (stocksOf (Sample.stocked 10 3))).
  { unfold stockIdsUnique. cbn. apply NoDup_cons. split.
    - intros Hin. apply list_elem_of_singleton in Hin. discriminate.
    - apply NoDup_singleton. }
  split.
  - refine (proj1 (proj2 (proj2
      (moveFromPantry_total Sample.aspirina 2 (Sample.stocked 10 3) 10 3
         Hnd _ eq_refl eq_refl))) _); lia.
  - refine (proj1
      (moveFromPantry_total Sample.aspirina 5 (Sample.stocked 10 3) 10 3
         Hnd _ eq_refl eq_refl)); lia.
Defined.

Lemma sample_stock_ids_unique b d : stockIdsUnique (stocksOf (Sample.stocked b d)).
Proof.
  unfold stockIdsUnique. cbn. apply NoDup_cons. split.
  - intros Hin. apply list_elem_of_singleton in Hin. discriminate.
  - apply NoDup_singleton.
Qed.

(** X17.  [addPantry] with a NaN, zero or negative quantity changes
    nothing; with a positive quantity it adds it to the Dispensa row and to
    the dashboard's reserve figure, and leaves the Box quantity as it is. *)
Theorem addPantry_spec m s p :
  stockIdsUnique (stocksOf s) →
  qtyAt (Med.id m) Dispensa s = Some p →
  addPantry m NaN s = s
  ∧ (∀ q, q ≤ 0 → addPantry m (Num q) s = s)
  ∧ (∀ q, 0 < q →
       qtyAt (Med.id m) Dispensa (addPantry m (Num q) s) = Some (p + q)
       ∧ qtyAt (Med.id m) Box (addPantry m (Num q) s) = qtyAt (Med.id m) Box s
       ∧ dispensa (pairOr0 (stocks (addPantry m (Num q) s)) (Med.id m)) = p + q
       ∧ box (pairOr0 (stocks (addPantry m (Num q) s)) (Med.id m))
         = box (pairOr0 (stocks s) (Med.id m))).
Proof.
  intros Hnd Hp. split; [reflexivity|]. split.
  { intros q Hq. unfold addPantry.
    destruct (q =? 0) eqn:H0; [reflexivity|].
    apply Z.leb_le in Hq. by rewrite Hq. }
  intros q Hq.
  apply qtyAt_Some in Hp as (rp & Hrp & <- & Hinp & Hmp & Hlp).
  destruct (addPantry_effect m q s rp Hq Hrp) as [Hst Hui].
  unfold qtyAt. rewrite Hst, Hui.
  split; [by apply qtyAt_after_update|]. split.
  { rewrite stocksAt_after_update_elsewhere; [reflexivity|exact Hnd|exact Hinp|].
    rewrite Hlp. intros [= _ ?]. }
  unfold pairOr0 at 1 3. by rewrite lookup_insert_eq.
Qed.

Lemma addPantry_spec_witness :
  qtyAt "m1" Dispensa (addPantry Sample.aspirina (Num 20) (Sample.stocked 10 3))
    = Some 23
  ∧ qtyAt "m1" Box (addPantry Sample.aspirina (Num 20) (Sample.stocked 10 3))
    = Some 10.
Proof.
  destruct (addPantry_spec Sample.aspirina (Sample.stocked 10 3) 3
              (sample_stock_ids_unique 10 3) eq_refl) as (_ & _ & Hadd).
  destruct (Hadd 20 ltac:(lia)) as (Hd & Hb & _).
  split; [exact Hd | exact Hb].
Defined.

(** X18.  [setBoxQty] and [setPantryQty] with a NaN or negative quantity
    change nothing; with a quantity of zero or more they store exactly that
    quantity in their row, whatever it held, leave the other location as it
    is, and applying the same correction again changes no stock row. *)
Theorem setBoxQty_setPantryQty_spec m s :
  stockIdsUnique (stocksOf s) →
  setBoxQty m NaN s = s ∧ setPantryQty m NaN s = s
  ∧ (∀ q, q < 0 → setBoxQty m (Num q) s = s ∧ setPantryQty m (Num q) s = s)
  ∧ (∀ q b, 0 ≤ q → qtyAt (Med.id m) Box s = Some b →
       qtyAt (Med.id m) Box (setBoxQty m (Num q) s) = Some q
       ∧ qtyAt (Med.id m) Dispensa (setBoxQty m (Num q) s)
         = qtyAt (Med.id m) Dispensa s
       ∧ box (pairOr0 (stocks (setBoxQty m (Num q) s)) (Med.id m)) = q
       ∧ stocksOf (setBoxQty m (Num q) (setBoxQty m (Num q) s))
         = stocksOf (setBoxQty m (Num q) s))
  ∧ (∀ q p, 0 ≤ q → qtyAt (Med.id m) Dispensa s = Some p →
       qtyAt (Med.id m) Dispensa (setPantryQty m (Num q) s) = Some q
       ∧ qtyAt (Med.id m) Box (setPantryQty m (Num q) s)
         = qtyAt (Med.id m) Box s
       ∧ dispensa (pairOr0 (stocks (setPantryQty m (Num q) s)) (Med.id m)) = q
       ∧ stocksOf (setPantryQty m (Num q) (setPantryQty m (Num q) s))
         = stocksOf (setPantryQty m (Num q) s)).
Proof.
  intros Hnd. split; [reflexivity|]. split; [reflexivity|]. split.
  { intros q Hq%Z.ltb_lt. unfold setBoxQty, setPantryQty. by rewrite Hq. }
  assert (Hidem : ∀ i q st,
            Sb.updateQty i q (Sb.updateQty i q st) = Sb.updateQty i q st).
  { intros i q st. unfold Sb.updateQty. rewrite <- list_fmap_compose.
    apply list_fmap_ext. intros _ r _. cbn.
    destruct (decide (Stock.id r = i)) as [Hi|Hi]; cbn.
    - by rewrite decide_True.
    - by rewrite decide_False. }
  split.
  - intros q b Hq Hb.
    apply qtyAt_Some in Hb as (rb & Hrb & _ & Hinb & Hmb & Hlb).
    destruct (setBoxQty_effect m q s rb Hq Hrb) as [Hst Hui].
    assert (Hrb' : single (Sb.stocksAt (Med.id m) Box
                             (stocksOf (setBoxQty m (Num q) s)))
                   = Some (Sb.withQty q rb)).
    { rewrite Hst, single_stocksAt_updateQty, Hrb. cbn. by rewrite decide_True. }
    split; [unfold qtyAt; by rewrite Hrb'|]. split.
    { unfold qtyAt. rewrite Hst.
      rewrite stocksAt_after_update_elsewhere; [reflexivity|exact Hnd|exact Hinb|].
      rewrite Hlb. intros [= _ ?]. }
    split.
    { rewrite Hui. unfold pairOr0 at 1. by rewrite lookup_insert_eq. }
    destruct (setBoxQty_effect m q _ _ Hq Hrb') as [Hst2 _].
    rewrite Hst2, Hst. apply Hidem.
  - intros q p Hq Hp.
    apply qtyAt_Some in Hp as (rp & Hrp & _ & Hinp & Hmp & Hlp).
    destruct (setPantryQty_effect m q s rp Hq Hrp) as [Hst Hui].
    assert (Hrp' : single (Sb.stocksAt (Med.id m) Dispensa
                             (stocksOf (setPantryQty m (Num q) s)))
                   = Some (Sb.withQty q rp)).
    { rewrite Hst, single_stocksAt_updateQty, Hrp. cbn. by rewrite decide_True. }
    split; [unfold qtyAt; by rewrite Hrp'|]. split.
    { unfold qtyAt. rewrite Hst.
      rewrite stocksAt_after_update_elsewhere; [reflexivity|exact Hnd|exact Hinp|].
      rewrite Hlp. intros [= _ ?]. }
    split.
    { rewrite Hui. unfold pairOr0 at 1. by rewrite lookup_insert_eq. }
    destruct (setPantryQty_effect m q _ _ Hq Hrp') as [Hst2 _].
    rewrite Hst2, Hst. apply Hidem.
Qed.

Lemma setBoxQty_setPantryQty_spec_witness :
  qtyAt "m1" Box (setBoxQty Sample.aspirina (Num 42) (Sample.stocked 10 3))
    = Some 42
  ∧ qtyAt "m1" Dispensa (setBoxQty Sample.aspirina (Num 42) (Sample.stocked 10 3))
    = Some 3
  ∧ setPantryQty Sample.aspirina (Num (-1)) (Sample.stocked 10 3)
    = Sample.stocked 10 3.
Proof.
  destruct (setBoxQty_setPantryQty_spec Sample.aspirina (Sample.stocked 10 3)
              (sample_stock_ids_unique 10 3)) as (_ & _ & Hneg & Hbox & _).
  destruct (Hbox 42 10 ltac:(lia) eq_refl) as (Hb & Hd & _).
  split; [exact Hb|]. split; [exact Hd|].
  apply (Hneg (-1)). lia.
Defined.

(** X19.  With the numeric field left empty, "dalla Dispensa" and "da
    Farmacia" do nothing, while each "Salva" stores a quantity of zero; with
    an integer in the field the guard of the "Salva" buttons lets through
    exactly what [setBoxQty] and [setPantryQty] accept. *)
Theorem stock_buttons_field m s :
  clickMoveFromPantry m None s = s
  ∧ clickAddPantry m None s = s
  ∧ (∀ b, qtyAt (Med.id m) Box s = Some b →
          qtyAt (Med.id m) Box (clickSetBox m None s) = Some 0)
  ∧ (∀ p, qtyAt (Med.id m) Dispensa s = Some p →
          qtyAt (Med.id m) Dispensa (clickSetPantry m None s) = Some 0)
  ∧ (∀ v, clickSetBox m v s = setBoxQty m (numberOfField v) s)
  ∧ (∀ v, clickSetPantry m v s = setPantryQty m (numberOfField v) s).
Proof.
  split; [reflexivity|]. split; [reflexivity|].
  split.
  { intros b Hb. apply qtyAt_Some in Hb as (rb & Hrb & _).
    change (clickSetBox m None s) with (setBoxQty m (Num 0) s).
    destruct (setBoxQty_effect m 0 s rb ltac:(lia) Hrb) as [Hst _].
    unfold qtyAt. rewrite Hst. by apply qtyAt_after_update. }
  split.
  { intros p Hp. apply qtyAt_Some in Hp as (rp & Hrp & _).
    change (clickSetPantry m None s) with (setPantryQty m (Num 0) s).
    destruct (setPantryQty_effect m 0 s rp ltac:(lia) Hrp) as [Hst _].
    unfold qtyAt. rewrite Hst. by apply qtyAt_after_update. }
  split; intros v; unfold clickSetBox, clickSetPantry, numberOfField; cbn;
    destruct (0 <=? default 0 v) eqn:Hv; try reflexivity;
    apply Z.leb_gt, Z.ltb_lt in Hv;
    unfold setBoxQty, setPantryQty; by rewrite Hv.
Qed.

Lemma stock_buttons_field_witness :
  qtyAt "m1" Box (clickSetBox Sample.aspirina None (Sample.stocked 10 3)) = Some 0
  ∧ qtyAt "m1" Dispensa (clickSetPantry Sample.aspirina None (Sample.stocked 10 3))
    = Some 0.
Proof.
  destruct (stock_buttons_field Sample.aspirina (Sample.stocked 10 3))
    as (_ & _ & Hb & Hp & _).
  split; [exact (Hb 10 eq_refl) | exact (Hp 3 eq_refl)].
Defined.

Lemma moveFromPantry_cases m qty s :
  moveFromPantry m qty s = s
  ∨ ∃ q rb rp, qty = Num q ∧ 0 < q
      ∧ single (Sb.stocksAt (Med.id m) Box (stocksOf s)) = Some rb
      ∧ single (Sb.stocksAt (Med.id m) Dispensa (stocksOf s)) = Some rp.
Proof.
  unfold moveFromPantry, stocksOf. destruct qty as [|q]; [by left|].
  destruct ((q =? 0) || (q <=? 0)) eqn:Hq; [by left|].
  apply orb_false_iff in Hq as [_ Hq%Z.leb_gt].
  destruct (single (Sb.stocksAt (Med.id m) Box _)) as [rb|]; [|by left].
  destruct (single (Sb.stocksAt (Med.id m) Dispensa _)) as [rp|]; [|by left].
  right. exists q, rb, rp. done.
Qed.

Lemma addPantry_cases m qty s :
  addPantry m qty s = s
  ∨ ∃ q rp, qty = Num q ∧ 0 < q
      ∧ single (Sb.stocksAt (Med.id m) Dispensa (stocksOf s)) = Some rp.
Proof.
  unfold addPantry, stocksOf. destruct qty as [|q]; [by left|].
  destruct ((q =? 0) || (q <=? 0)) eqn:Hq; [by left|].
  apply orb_false_iff in Hq as [_ Hq%Z.leb_gt].
  destruct (single (Sb.stocksAt (Med.id m) Dispensa _)) as [rp|]; [|by left].
  right. exists q, rp. done.
Qed.

Lemma setBoxQty_cases m qty s :
  setBoxQty m qty s = s
  ∨ ∃ q rb, qty = Num q ∧ 0 ≤ q
      ∧ single (Sb.stocksAt (Med.id m) Box (stocksOf s)) = Some rb.
Proof.
  unfold setBoxQty, stocksOf. destruct qty as [|q]; [by left|].
  destruct (q <? 0) eqn:Hq; [by left|]. apply Z.ltb_ge in Hq.
  destruct (single (Sb.stocksAt (Med.id m) Box _)) as [rb|]; [|by left].
  right. exists q, rb. done.
Qed.

Lemma setPantryQty_cases m qty s :
  setPantryQty m qty s = s
  ∨ ∃ q rp, qty = Num q ∧ 0 ≤ q
      ∧ single (Sb.stocksAt (Med.id m) Dispensa (stocksOf s)) = Some rp.
Proof.
  unfold setPantryQty, stocksOf. destruct qty as [|q]; [by left|].
  destruct (q <? 0) eqn:Hq; [by left|]. apply Z.ltb_ge in Hq.
  destruct (single (Sb.stocksAt (Med.id m) Dispensa _)) as [rp|]; [|by left].
  right. exists q, rp. done.
Qed.

(** What a stock operation leaves alone, once its stock rows and map are
    known to be those of updates by ids of rows of [m]. *)
Lemma stockOperations_rest m qty s :
  Forall (λ op : State → State,
            logOf (op s) = logOf s ∧ medsOf (op s) = medsOf s
            ∧ intakes (op s) = intakes s ∧ meds (op s) = meds s
            ∧ weekStart (op s) = weekStart s ∧ onlyToday (op s) = onlyToday s)
    (stockOperations m qty).
Proof.
  unfold stockOperations, moveFromPantry, addPantry, setBoxQty, setPantryQty,
    logOf, medsOf.
  repeat apply Forall_cons_2; [| | | |apply Forall_nil_2];
    (destruct qty as [|q]; [done|]);
    repeat match goal with
           | |- context [if ?b then _ else _] => destruct b; [done|]
           | |- context [single ?l] => destruct (single l); [|done]
           end; done.
Qed.

Lemma stockOperations_other_med m qty s mid loc :
  stockIdsUnique (stocksOf s) → mid ≠ Med.id m →
  Forall (λ op : State → State,
            Sb.stocksAt mid loc (stocksOf (op s)) = Sb.stocksAt mid loc (stocksOf s)
            ∧ stocks (op s) !! mid = stocks s !! mid)
    (stockOperations m qty).
Proof.
  intros Hnd Hne.
  assert (Hrow : ∀ r l, single (Sb.stocksAt (Med.id m) l (stocksOf s)) = Some r →
            ∀ x, x ∈ stocksOf s → Stock.id x = Stock.id r → Stock.med_id x ≠ mid).
  { intros r l Hr. apply single_stocksAt_row in Hr as (Hin & Hm & _).
    apply unique_id_other_med; [exact Hnd|exact Hin|congruence]. }
  unfold stockOperations. repeat apply Forall_cons_2; [| | | |apply Forall_nil_2].
  - destruct (moveFromPantry_cases m qty s) as [->|(q & rb & rp & -> & Hq & Hb & Hp)];
      [done|].
    destruct (moveFromPantry_effect m q s rb rp Hq Hb Hp) as [-> ->].
    split; [|by rewrite lookup_insert_ne].
    rewrite !stocksAt_updateQty_other_med; eauto.
    apply updateQty_other_med_stable; eauto.
  - destruct (addPantry_cases m qty s) as [->|(q & rp & -> & Hq & Hp)]; [done|].
    destruct (addPantry_effect m q s rp Hq Hp) as [-> ->].
    split; [|by rewrite lookup_insert_ne].
    rewrite stocksAt_updateQty_other_med; eauto.
  - destruct (setBoxQty_cases m qty s) as [->|(q & rb & -> & Hq & Hb)]; [done|].
    destruct (setBoxQty_effect m q s rb Hq Hb) as [-> ->].
    split; [|by rewrite lookup_insert_ne].
    rewrite stocksAt_updateQty_other_med; eauto.
  - destruct (setPantryQty_cases m qty s) as [->|(q & rp & -> & Hq & Hp)]; [done|].
    destruct (setPantryQty_effect m q s rp Hq Hp) as [-> ->].
    split; [|by rewrite lookup_insert_ne].
    rewrite stocksAt_updateQty_other_med; eauto.
Qed.

(** X20.  None of the four stock operations touches the intake log, the
    medication table, the tracked intakes or the view settings, and with
    unique stock ids none changes a quantity, stored or shown, of another
    medication. *)
Theorem stockOperations_frame m qty s :
  Forall (λ op : State → State,
            logOf (op s) = logOf s ∧ medsOf (op s) = medsOf s
            ∧ intakes (op s) = intakes s ∧ meds (op s) = meds s
            ∧ weekStart (op s) = weekStart s ∧ onlyToday (op s) = onlyToday s)
    (stockOperations m qty)
  ∧ (stockIdsUnique (stocksOf s) →
     ∀ mid loc, mid ≠ Med.id m →
       Forall (λ op : State → State,
                 qtyAt mid loc (op s) = qtyAt mid loc s
                 ∧ stocks (op s) !! mid = stocks s !! mid)
         (stockOperations m qty)).
Proof.
  split; [apply stockOperations_rest|].
  intros Hnd mid loc Hne.
  eapply Forall_impl; [exact (stockOperations_other_med m qty s mid loc Hnd Hne)|].
  intros op [Hst Hui]. split; [|exact Hui]. unfold qtyAt. by rewrite Hst.
Qed.

Lemma stockOperations_frame_witness :
  Forall (λ op : State → State,
            qtyAt "m2" Box (op Sample.oneOfThreeTaken) = Some 7
            ∧ stocks (op Sample.oneOfThreeTaken) !! "m2"
              = Some {| box := 7; dispensa := 0 |})
    (stockOperations Sample.aspirina (Num 4)).
Proof.
  assert (Hnd : stockIdsUnique (stocksOf Sample.oneOfThreeTaken)).
  { unfold stockIdsUnique. apply (bool_decide_unpack _). vm_compute. exact I. }
  destruct (stockOperations_frame Sample.aspirina (Num 4) Sample.oneOfThreeTaken)
    as [_ Hother].
  eapply Forall_impl; [exact (Hother Hnd "m2" Box ltac:(discriminate))|].
  intros op [-> ->]. split; reflexivity.
Defined.

(** ** Reloading the catalog *)

Lemma loadMeds_stocks profile s :
  stocks (loadMeds profile s)
  = if (0 <? length (meds (loadMeds profile s)))%nat
    then stocksOfRows
           (filter (λ r, Stock.med_id r ∈ Med.id <$> meds (loadMeds profile s))
              (stocksOf s))
    else ∅.
Proof.
  rewrite loadMeds_meds. unfold loadMeds. cbv zeta. unfold medsOf.
  match goal with |- context [(0 <? ?n)%nat] => destruct (0 <? n)%nat end;
    reflexivity.
Qed.

Lemma pairOr0_insert_eq (m : gmap string StockPair) i v :
  pairOr0 (<[i := v]> m) i = v.
Proof. unfold pairOr0. by rewrite lookup_insert_eq. Qed.

Lemma pairOr0_insert_ne (m : gmap string StockPair) i j v :
  i ≠ j → pairOr0 (<[i := v]> m) j = pairOr0 m j.
Proof. intros. unfold pairOr0. by rewrite lookup_insert_ne. Qed.

(** The two figures the stock map holds for [mid] after the rows [st] are
    folded in: the quantity of the last row of each location, and the
    earlier figure when the location has no row. *)
Lemma stocks_fold_pair (st : list Stock.t) (acc : gmap string StockPair) mid :
  box (pairOr0 (foldl stockStep acc st) mid)
  = match last (Sb.stocksAt mid Box st) with
    | Some r => Stock.qty r
    | None => box (pairOr0 acc mid)
    end
  ∧ dispensa (pairOr0 (foldl stockStep acc st) mid)
    = match last (Sb.stocksAt mid Dispensa st) with
      | Some r => Stock.qty r
      | None => dispensa (pairOr0 acc mid)
      end.
Proof.
  revert acc. induction st as [|r st IH]; intros acc; [done|].
  cbn [foldl]. destruct (IH (stockStep acc r)) as [-> ->]. clear IH.
  unfold Sb.stocksAt. rewrite !filter_cons. unfold stockStep.
  destruct (decide (Stock.med_id r = mid)) as [Hm|Hm].
  - subst mid. rewrite !pairOr0_insert_eq.
    destruct (Stock.location r) eqn:Hl.
    + rewrite decide_True by done.
      rewrite (decide_False (P := Stock.med_id r = Stock.med_id r ∧ Box = Dispensa))
        by (by intros [_ ?]).
      rewrite last_cons. split; by destruct (last _).
    + rewrite (decide_False (P := Stock.med_id r = Stock.med_id r ∧ Dispensa = Box))
        by (by intros [_ ?]).
      rewrite decide_True by done.
      rewrite last_cons. split; by destruct (last _).
  - rewrite !decide_False by (by intros [? _]).
    by rewrite !pairOr0_insert_ne.
Qed.

Lemma stocks_fold_is_Some (st : list Stock.t) (acc : gmap string StockPair) mid :
  is_Some (foldl stockStep acc st !! mid)
  ↔ is_Some (acc !! mid) ∨ ∃ r, r ∈ st ∧ Stock.med_id r = mid.
Proof.
  revert acc. induction st as [|r st IH]; intros acc.
  - cbn. split; [by left|]. intros [?|(r & Hr & _)]; [done|].
    by apply elem_of_nil in Hr.
  - cbn [foldl]. rewrite IH. unfold stockStep. split.
    + intros [Hs|(x & Hx & Hm)].
      * destruct (decide (Stock.med_id r = mid)) as [Hm|Hm].
        -- right. exists r. split; [left|exact Hm].
        -- left. by rewrite lookup_insert_ne in Hs.
      * right. exists x. split; [by right|exact Hm].
    + intros [Hs|(x & Hx & Hm)].
      * destruct (decide (Stock.med_id r = mid)) as [Hm|Hm].
        -- left. subst mid. rewrite lookup_insert_eq. by eexists.
        -- left. by rewrite lookup_insert_ne.
      * apply elem_of_cons in Hx as [->|Hx].
        -- left. subst mid. rewrite lookup_insert_eq. by eexists.
        -- right. eauto.
Qed.

Lemma pairOr0_empty mid : pairOr0 ∅ mid = {| box := 0; dispensa := 0 |}.
Proof. unfold pairOr0. by rewrite lookup_empty. Qed.

Lemma stocksAt_filter_listed (ids : list string) mid loc st :
  mid ∈ ids →
  Sb.stocksAt mid loc (filter (λ r, Stock.med_id r ∈ ids) st) = Sb.stocksAt mid loc st.
Proof.
  intros Hin. unfold Sb.stocksAt. rewrite list_filter_filter.
  apply list_filter_iff. intros r. split; [tauto|].
  intros [Hm Hl]. repeat split; try done. by rewrite Hm.
Qed.

Lemma loadMeds_nonempty profile s (m : Med.t) :
  m ∈ meds (loadMeds profile s) →
  (0 <? length (meds (loadMeds profile s)))%nat = true.
Proof.
  intros Hm. destruct (meds (loadMeds profile s)); [by apply elem_of_nil in Hm|].
  reflexivity.
Qed.

(** X21.  After [loadMeds] the listing holds exactly the family's
    medications whose flag is false; the stock map has no entry for a
    medication outside the listing and is empty when the listing is; for a
    listed medication with one row per location the map shows the two
    stored quantities, and for a listed medication without stock rows it
    has no entry, which the indicators read as zero. *)
Theorem loadMeds_spec profile s :
  backend (loadMeds profile s) = backend s
  ∧ (∀ x, x ∈ meds (loadMeds profile s)
          ↔ x ∈ medsOf s ∧ Med.family_id x = Profile.family_id profile
            ∧ Med.archived x = Some false)
  ∧ (meds (loadMeds profile s) = [] → stocks (loadMeds profile s) = ∅)
  ∧ (∀ mid, mid ∉ Med.id <$> meds (loadMeds profile s) →
            stocks (loadMeds profile s) !! mid = None)
  ∧ (∀ m b d, m ∈ meds (loadMeds profile s) →
       qtyAt (Med.id m) Box s = Some b → qtyAt (Med.id m) Dispensa s = Some d →
       stocks (loadMeds profile s) !! Med.id m = Some {| box := b; dispensa := d |}
       ∧ totalStock (loadMeds profile s) m = b + d)
  ∧ (∀ m, m ∈ meds (loadMeds profile s) →
       (∀ r, r ∈ stocksOf s → Stock.med_id r ≠ Med.id m) →
       stocks (loadMeds profile s) !! Med.id m = None
       ∧ totalStock (loadMeds profile s) m = 0).
Proof.
  split; [apply loadMeds_backend|]. split; [apply loadMeds_listing|].
  split.
  { intros Hnil. rewrite loadMeds_stocks, Hnil. reflexivity. }
  assert (Hnone : ∀ mid,
            (∀ r, r ∈ filter (λ r, Stock.med_id r ∈ Med.id <$> meds (loadMeds profile s))
                        (stocksOf s) → Stock.med_id r ≠ mid) →
            stocks (loadMeds profile s) !! mid = None).
  { intros mid Hno. rewrite loadMeds_stocks.
    destruct (0 <? _)%nat; [|apply lookup_empty].
    apply eq_None_not_Some. unfold stocksOfRows. rewrite stocks_fold_is_Some.
    intros [Hs|(r & Hr & Hm)].
    - rewrite lookup_empty in Hs. by destruct Hs.
    - by apply (Hno r Hr). }
  split.
  { intros mid Hmid. apply Hnone. intros r Hr%list_elem_of_filter Hm.
    destruct Hr as [Hr _]. apply Hmid. by rewrite <- Hm. }
  split.
  - intros m b d Hm Hb Hd.
    apply qtyAt_Some in Hb as (rb & Hrb & <- & Hinb & Hmb & _).
    apply qtyAt_Some in Hd as (rd & Hrd & <- & _).
    assert (Hid : Med.id m ∈ Med.id <$> meds (loadMeds profile s))
      by (apply list_elem_of_fmap; eauto).
    assert (Hlook : stocks (loadMeds profile s) !! Med.id m
                    = Some {| box := Stock.qty rb; dispensa := Stock.qty rd |}).
    { rewrite loadMeds_stocks, (loadMeds_nonempty profile s m Hm).
      unfold stocksOfRows.
      match goal with |- ?map !! _ = _ =>
        destruct (stocks_fold_pair
                    (filter (λ r, Stock.med_id r ∈ Med.id <$> meds (loadMeds profile s))
                       (stocksOf s)) ∅ (Med.id m)) as [Hbx Hdx];
        assert (Hsome : is_Some (map !! Med.id m))
      end.
      { apply stocks_fold_is_Some. right. exists rb. split; [|exact Hmb].
        apply list_elem_of_filter. split; [by rewrite Hmb|exact Hinb]. }
      rewrite !stocksAt_filter_listed in Hbx, Hdx by exact Hid.
      apply single_Some in Hrb, Hrd. rewrite Hrb in Hbx. rewrite Hrd in Hdx.
      cbn in Hbx, Hdx. destruct Hsome as [[bx dx] Hsome].
      unfold pairOr0 in Hbx, Hdx. rewrite Hsome in Hbx, Hdx. cbn in Hbx, Hdx.
      rewrite Hsome. by subst. }
    split; [exact Hlook|]. unfold totalStock. by rewrite Hlook.
  - intros m Hm Hno.
    assert (Hlook : stocks (loadMeds profile s) !! Med.id m = None).
    { apply Hnone. intros r Hr%list_elem_of_filter. apply Hno. tauto. }
    split; [exact Hlook|]. unfold totalStock. by rewrite Hlook.
Qed.

Lemma loadMeds_spec_witness :
  Sample.aspirina ∈ meds (loadMeds Sample.profile (Sample.stocked 10 3))
  ∧ stocks (loadMeds Sample.profile (Sample.stocked 10 3)) !! "m1"
    = Some {| box := 10; dispensa := 3 |}
  ∧ totalStock (loadMeds Sample.profile Scenario.noStockRows) Sample.aspirina = 0.
Proof.
  assert (Hin : Sample.aspirina ∈ meds (loadMeds Sample.profile (Sample.stocked 10 3)))
    by (vm_compute; left).
  assert (Hin' : Sample.aspirina ∈ meds (loadMeds Sample.profile Scenario.noStockRows))
    by (vm_compute; left).
  split; [exact Hin|].
  destruct (loadMeds_spec Sample.profile (Sample.stocked 10 3))
    as (_ & _ & _ & _ & Hrows & _).
  destruct (loadMeds_spec Sample.profile Scenario.noStockRows)
    as (_ & _ & _ & _ & _ & Hnorows).
  split.
  - exact (proj1 (Hrows Sample.aspirina 10 3 Hin eq_refl eq_refl)).
  - refine (proj2 (Hnorows Sample.aspirina Hin' _)).
    intros r Hr. by apply elem_of_nil in Hr.
Defined.

(** ** Adding and editing a medication *)

Lemma loadMeds_form profile s :
  adding (loadMeds profile s) = adding s
  ∧ newMed (loadMeds profile s) = newMed s
  ∧ editing (loadMeds profile s) = editing s
  ∧ intakes (loadMeds profile s) = intakes s
  ∧ weekStart (loadMeds profile s) = weekStart s
  ∧ onlyToday (loadMeds profile s) = onlyToday s.
Proof.
  unfold loadMeds. cbv zeta.
  match goal with |- context [(0 <? ?n)%nat] => destruct (0 <? n)%nat end;
    done.
Qed.

Lemma addMed_accepts profile medId boxId dispId s :
  String.eqb (n_name (newMed s)) EmptyString
    || (length (n_times (newMed s)) =? 0)%nat = false →
  addMed profile medId boxId dispId s
  = loadMeds profile
      (setNewMed emptyNewMed
         (setAdding false
            (onBackend
               (onStocks (λ l, l ++
                  [ {| Stock.id := boxId; Stock.med_id := medId;
                       Stock.location := Box; Stock.qty := initBox (newMed s) |};
                    {| Stock.id := dispId; Stock.med_id := medId;
                       Stock.location := Dispensa;
                       Stock.qty := initDisp (newMed s) |} ]))
               (onBackend (onMeds (λ l, l ++ [medOfForm profile medId (newMed s)]))
                  s)))).
Proof. intros Hok. unfold addMed. cbv zeta. by rewrite Hok. Qed.

Lemma form_accepted (n : NewMed) :
  n_name n ≠ EmptyString → n_times n ≠ [] →
  String.eqb (n_name n) EmptyString || (length (n_times n) =? 0)%nat = false.
Proof.
  intros Hname Htimes. apply orb_false_iff. split.
  - by apply String.eqb_neq.
  - destruct (n_times n); [done|reflexivity].
Qed.

(** X22.  [addMed] changes nothing when the name is empty or no slot is
    ticked.  Otherwise it appends the medication row of the form and one
    stock row per location holding the form's initial quantities, keeps the
    log, closes the popup and resets the form; after its reload the new
    medication is listed and the dashboard shows the initial quantities for
    it, whatever rows the backend already held. *)
Theorem addMed_spec profile medId boxId dispId s :
  (n_name (newMed s) = EmptyString ∨ n_times (newMed s) = [] →
   addMed profile medId boxId dispId s = s)
  ∧ (n_name (newMed s) ≠ EmptyString → n_times (newMed s) ≠ [] →
     medsOf (addMed profile medId boxId dispId s)
       = medsOf s ++ [medOfForm profile medId (newMed s)]
     ∧ stocksOf (addMed profile medId boxId dispId s)
       = stocksOf s
         ++ [ {| Stock.id := boxId; Stock.med_id := medId; Stock.location := Box;
                 Stock.qty := initBox (newMed s) |};
              {| Stock.id := dispId; Stock.med_id := medId;
                 Stock.location := Dispensa; Stock.qty := initDisp (newMed s) |} ]
     ∧ logOf (addMed profile medId boxId dispId s) = logOf s
     ∧ adding (addMed profile medId boxId dispId s) = false
     ∧ newMed (addMed profile medId boxId dispId s) = emptyNewMed
     ∧ medOfForm profile medId (newMed s)
         ∈ meds (addMed profile medId boxId dispId s)
     ∧ stocks (addMed profile medId boxId dispId s) !! medId
       = Some {| box := initBox (newMed s); dispensa := initDisp (newMed s) |}).
Proof.
  split.
  { intros Hbad. unfold addMed. cbv zeta.
    destruct Hbad as [-> | ->]; [reflexivity|]. cbn. by rewrite orb_true_r. }
  intros Hname Htimes.
  pose proof (form_accepted _ Hname Htimes) as Hok.
  rewrite (addMed_accepts profile medId boxId dispId s Hok).
  set (s1 := setNewMed _ _).
  assert (Hlisted : medOfForm profile medId (newMed s) ∈ meds (loadMeds profile s1)).
  { apply loadMeds_listing. split; [|done].
    unfold s1, medsOf. unfold_state. apply elem_of_app. right. left. }
  unfold medsOf, stocksOf, logOf. rewrite !loadMeds_backend.
  destruct (loadMeds_form profile s1) as (-> & -> & _).
  split; [reflexivity|]. split; [reflexivity|]. split; [reflexivity|].
  split; [reflexivity|]. split; [reflexivity|]. split; [exact Hlisted|].
  rewrite loadMeds_stocks, (loadMeds_nonempty profile s1 _ Hlisted).
  unfold stocksOfRows, s1, stocksOf. unfold_state.
  assert (Hid : medId ∈ Med.id <$> meds (loadMeds profile s1))
    by (apply list_elem_of_fmap; eexists; split; [|exact Hlisted]; reflexivity).
  fold s1. rewrite filter_app, foldl_app, !filter_cons, filter_nil.
  rewrite !decide_True by exact Hid.
  cbn [foldl]. unfold stockStep at 1 2. cbn.
  by rewrite lookup_insert_eq, pairOr0_insert_eq.
Qed.

Lemma addMed_spec_witness :
  addMed Sample.profile "m2" "s3" "s4" Scenario.formNoSlot = Scenario.formNoSlot
  ∧ stocks (addMed Sample.profile "m2" "s3" "s4" Scenario.formCardio) !! "m2"
    = Some {| box := 7; dispensa := 20 |}
  ∧ adding (addMed Sample.profile "m2" "s3" "s4" Scenario.formCardio) = false.
Proof.
  split.
  - apply (proj1 (addMed_spec Sample.profile "m2" "s3" "s4" Scenario.formNoSlot)).
    by right.
  - destruct (proj2 (addMed_spec Sample.profile "m2" "s3" "s4" Scenario.formCardio))
      as (_ & _ & _ & Hadd & _ & _ & Hst); [discriminate|discriminate|].
    split; [exact Hst | exact Hadd].
Defined.

Lemma saveMed_medsOf profile s e :
  editing s = Some e →
  medsOf (saveMed profile s)
  = (λ m, if decide (Med.id m = e_id e)
          then {| Med.id := Med.id m; Med.family_id := Med.family_id m;
                  Med.name := e_name e; Med.dosage := e_dosage e;
                  Med.per_dose := e_per_dose e; Med.times := e_times e;
                  Med.threshold := Med.threshold m;
                  Med.archived := Med.archived m |}
          else m) <$> medsOf s.
Proof.
  intros He. unfold saveMed, medsOf. rewrite He, loadMeds_backend. reflexivity.
Qed.

Lemma saveMed_editing profile s : editing (saveMed profile s) = None.
Proof.
  unfold saveMed. destruct (editing s) eqn:He; [|exact He].
  by destruct (loadMeds_form profile (setEditing None
    (onBackend (onMeds (fmap (λ m,
        if decide (Med.id m = e_id e)
        then {| Med.id := Med.id m; Med.family_id := Med.family_id m;
                Med.name := e_name e; Med.dosage := e_dosage e;
                Med.per_dose := e_per_dose e; Med.times := e_times e;
                Med.threshold := Med.threshold m; Med.archived := Med.archived m |}
        else m))) s))) as (_ & _ & -> & _).
Qed.

(** X23.  Opening the edit popup on a medication of the table and saving
    without a change leaves the table as it is, when ids are unique; saving
    always closes the popup. *)
Theorem openEditor_saveMed profile m s :
  editing (saveMed profile s) = None
  ∧ (medIdsUnique (medsOf s) → m ∈ medsOf s →
     medsOf (saveMed profile (openEditor m s)) = medsOf s
     ∧ stocksOf (saveMed profile (openEditor m s)) = stocksOf s
     ∧ logOf (saveMed profile (openEditor m s)) = logOf s).
Proof.
  split; [apply saveMed_editing|].
  intros Hnd Hm. split.
  - rewrite (saveMed_medsOf profile (openEditor m s) _ eq_refl).
    change (medsOf (openEditor m s)) with (medsOf s).
    apply fmap_fixed. intros r Hr. cbn. case_decide as Hid; [|reflexivity].
    assert (r = m) by (eapply (unique_key_inj Med.id); eauto).
    subst r. by destruct m.
  - unfold saveMed, stocksOf, logOf. cbn [editing openEditor setEditing].
    by rewrite !loadMeds_backend.
Qed.

Lemma openEditor_saveMed_witness :
  medsOf (saveMed Sample.profile (openEditor Sample.aspirina (Sample.stocked 10 3)))
  = [Sample.aspirina].
Proof.
  refine (proj1 (proj2 (openEditor_saveMed Sample.profile Sample.aspirina
                          (Sample.stocked 10 3)) _ _)).
  - apply NoDup_singleton.
  - left.
Defined.

(** X24.  After [archiveMed] a reload of the week tracks what it tracked
    before, the archived medication's intakes included; after
    [hardDeleteMed] it tracks no intake of the deleted medication and the
    other keys load as before. *)
Theorem loadWeek_after_removal profile c m s :
  intakes (loadWeek profile c (archiveMed profile m s))
    = intakes (loadWeek profile c s)
  ∧ (∀ day time,
       intakes (loadWeek profile c (hardDeleteMed profile m s))
         !! (day, time, Med.id m) = None)
  ∧ (∀ k, k.2 ≠ Med.id m →
       intakes (loadWeek profile c (hardDeleteMed profile m s)) !! k
       = intakes (loadWeek profile c s) !! k).
Proof.
  assert (Hw : ∀ s', weekFrom c (loadMeds profile s') = weekFrom c s'
                     ∧ weekTo c (loadMeds profile s') = weekTo c s').
  { intros s'. unfold weekFrom, weekTo.
    by destruct (loadMeds_form profile s') as (_ & _ & _ & _ & -> & ->). }
  split; [|split].
  - rewrite !loadWeek_intakes. unfold archiveMed.
    destruct (Hw (onBackend (onStocks (Sb.deleteStocksOf (Med.id m)))
                    (onBackend (onMeds (fmap (λ r,
                       if decide (Med.id r = Med.id m)
                       then {| Med.id := Med.id r; Med.family_id := Med.family_id r;
                               Med.name := Med.name r; Med.dosage := Med.dosage r;
                               Med.per_dose := Med.per_dose r;
                               Med.times := Med.times r;
                               Med.threshold := Med.threshold r;
                               Med.archived := Some true |}
                       else r))) s))) as [-> ->].
    unfold logOf. by rewrite loadMeds_backend.
  - intros day time. rewrite loadWeek_intakes, intakesOfRows_lookup.
    rewrite filter_none; [reflexivity|].
    intros r Hr Hu. apply list_elem_of_filter in Hr as [[Hf _] Hr].
    unfold hardDeleteMed, logOf in Hr. rewrite loadMeds_backend in Hr.
    unfold_state_in Hr. apply list_elem_of_filter in Hr as [Hne _].
    apply Hne. unfold uiKey in Hu. split; congruence.
  - intros k Hk. rewrite !loadWeek_intakes, !intakesOfRows_lookup.
    unfold hardDeleteMed at 1 2 3.
    destruct (Hw (onBackend (onMeds (filter (λ r, Med.id r ≠ Med.id m)))
                    (onBackend (onStocks (Sb.deleteStocksOf (Med.id m)))
                       (onBackend (onIntakeLogs
                          (Sb.deleteIntakesOf (Med.id m) (Profile.family_id profile)))
                          s)))) as [-> ->].
    unfold logOf. rewrite loadMeds_backend. unfold_state.
    unfold weekFrom, weekTo. unfold_state.
    unfold Sb.intakesBetween, Sb.deleteIntakesOf. rewrite !list_filter_filter.
    f_equal. f_equal. apply list_filter_iff. intros r. split; [tauto|].
    intros [Hu Hq]. repeat split; try tauto.
    intros [Hmid _]. apply Hk. rewrite <- Hu. exact Hmid.
Qed.

(** X25.  A click on a slot checkbox of a popup turns that slot on when it
    was off and off when it was on, leaves the other slots as they are and
    never makes a slot appear twice in a list without repeats; two clicks
    give back the same set of slots, and the same list when the slot was
    off. *)
Theorem clickSlot_spec (t : TimeSlot) (times : list TimeSlot) :
  (t ∈ clickSlot t times ↔ t ∉ times)
  ∧ (∀ x, x ≠ t → (x ∈ clickSlot t times ↔ x ∈ times))
  ∧ (NoDup times → NoDup (clickSlot t times))
  ∧ (∀ x, x ∈ clickSlot t (clickSlot t times) ↔ x ∈ times)
  ∧ (t ∉ times → clickSlot t (clickSlot t times) = times).
Proof.
  assert (Hoff : t ∉ times → clickSlot t times = times ++ [t]).
  { intros Ht. unfold clickSlot. by rewrite bool_decide_eq_false_2. }
  assert (Hon : t ∈ times → clickSlot t times = filter (λ x, x ≠ t) times).
  { intros Ht. unfold clickSlot. by rewrite bool_decide_eq_true_2. }
  assert (Hself : t ∈ clickSlot t times ↔ t ∉ times).
  { destruct (decide (t ∈ times)) as [Ht|Ht].
    - rewrite (Hon Ht), list_elem_of_filter. tauto.
    - rewrite (Hoff Ht), elem_of_app, list_elem_of_singleton. tauto. }
  assert (Hother : ∀ l x, x ≠ t → (x ∈ clickSlot t l ↔ x ∈ l)).
  { intros l x Hx. unfold clickSlot, toggleSlot.
    destruct (bool_decide (t ∈ l)); cbn.
    - rewrite list_elem_of_filter. tauto.
    - rewrite elem_of_app, list_elem_of_singleton. tauto. }
  split; [exact Hself|]. split; [apply Hother|]. split.
  { intros Hnd. destruct (decide (t ∈ times)) as [Ht|Ht].
    - rewrite (Hon Ht). by apply NoDup_filter.
    - rewrite (Hoff Ht). apply NoDup_app. split; [exact Hnd|].
      split; [|apply NoDup_singleton].
      intros x Hx ->%list_elem_of_singleton. contradiction. }
  split.
  { intros x. destruct (decide (x = t)) as [->|Hx].
    - unfold clickSlot at 1.
      destruct (decide (t ∈ clickSlot t times)) as [Ht|Ht].
      + rewrite bool_decide_eq_true_2 by exact Ht. cbn.
        rewrite list_elem_of_filter. apply Hself in Ht. tauto.
      + rewrite bool_decide_eq_false_2 by exact Ht. cbn.
        rewrite elem_of_app, list_elem_of_singleton.
        destruct (decide (t ∈ times)) as [Ht'|Ht']; [tauto|].
        exfalso. by apply Ht, Hself.
    - by rewrite !Hother. }
  intros Ht. rewrite (Hoff Ht).
  unfold clickSlot. rewrite bool_decide_eq_true_2
    by (apply elem_of_app; right; left).
  cbn. rewrite filter_app, filter_cons, filter_nil.
  rewrite decide_False by (intros Hne; by apply Hne).
  rewrite app_nil_r. apply filter_all. intros x Hx ->. contradiction.
Qed.

Lemma clickSlot_spec_witness :
  NoDup (clickSlot Mezzogiorno [Mattina; Sera])
  ∧ clickSlot Mezzogiorno (clickSlot Mezzogiorno [Mattina; Sera]) = [Mattina; Sera].
Proof.
  destruct (clickSlot_spec Mezzogiorno [Mattina; Sera]) as (_ & _ & Hnd & _ & Hrt).
  split.
  - apply Hnd. apply (bool_decide_unpack _). vm_compute. exact I.
  - apply Hrt. apply (bool_decide_unpack _). vm_compute. exact I.
Defined.

Lemma loadWeek_after_removal_witness :
  intakes (loadWeek Sample.profile Sample.clockWednesday
             (hardDeleteMed Sample.profile Sample.cardio Sample.oneOfThreeTaken))
    !! (19725, Mattina, "m1") = Some true.
Proof.
  destruct (loadWeek_after_removal Sample.profile Sample.clockWednesday
              Sample.cardio Sample.oneOfThreeTaken) as (_ & _ & Hother).
  rewrite (Hother (19725, Mattina, "m1")); [reflexivity|discriminate].
Defined.

(** ** Indicators *)

Lemma slots_at_most_three (times : list TimeSlot) :
  NoDup times → (length times ≤ 3)%nat.
Proof.
  intros Hnd. change 3%nat with (length TIMES).
  apply submseteq_length, NoDup_submseteq; [exact Hnd|].
  intros t _. unfold TIMES. destruct t.
  - left.
  - right. left.
  - right. right. left.
Qed.

Lemma statusTone_of_total s m :
  toneRank (statusTone (statusText s m))
  = if totalStock s m <? Med.threshold m then 0
    else if totalStock s m <? weeklyNeed m then 1 else 2.
Proof.
  unfold statusText.
  destruct (totalStock s m <? Med.threshold m); [reflexivity|].
  by destruct (totalStock s m <? weeklyNeed m).
Qed.

(** X26.  The status never gets worse when the total stock grows, whatever
    else differs between the two states; amber can only show for a
    medication whose threshold is below its weekly need; a medication with
    no entry in the stock map counts as zero; and with slots ticked at most
    once each the weekly need is at most twenty-one doses. *)
Theorem status_indicators s s' m :
  (totalStock s m ≤ totalStock s' m →
   toneRank (statusTone (statusText s m))
   ≤ toneRank (statusTone (statusText s' m)))
  ∧ (statusTone (statusText s m) = amber → Med.threshold m < weeklyNeed m)
  ∧ (stocks s !! Med.id m = None →
     totalStock s m = 0
     ∧ (0 < Med.threshold m → statusTone (statusText s m) = red))
  ∧ (NoDup (Med.times m) → 0 ≤ Med.per_dose m →
     0 ≤ weeklyNeed m ≤ 21 * Med.per_dose m).
Proof.
  split; [|split; [|split]].
  - intros Hle. rewrite !statusTone_of_total.
    repeat match goal with
           | |- context [?a <? ?b] => destruct (Z.ltb_spec a b)
           end; lia.
  - intros Ha. pose proof (statusTone_of_total s m) as Hr. rewrite Ha in Hr.
    cbn in Hr.
    repeat match goal with
           | H : context [?a <? ?b] |- _ => destruct (Z.ltb_spec a b)
           end; lia.
  - intros Hno.
    assert (Ht : totalStock s m = 0) by (unfold totalStock; by rewrite Hno).
    split; [exact Ht|]. intros Hthr. unfold statusText. rewrite Ht.
    apply Z.ltb_lt in Hthr. by rewrite Hthr.
  - intros Hnd Hp. pose proof (slots_at_most_three _ Hnd) as Hlen.
    unfold weeklyNeed. nia.
Qed.

Lemma status_indicators_witness :
  toneRank (statusTone (statusText (Sample.withStock 3 2) Sample.aspirina))
  ≤ toneRank (statusTone (statusText (Sample.withStock 6 6) Sample.aspirina))
  ∧ 0 ≤ weeklyNeed Sample.aspirina ≤ 21 * Med.per_dose Sample.aspirina.
Proof.
  destruct (status_indicators (Sample.withStock 3 2) (Sample.withStock 6 6)
              Sample.aspirina) as (Hmono & _ & _ & Hneed).
  split.
  - apply Hmono. vm_compute. discriminate.
  - apply Hneed; [|cbn; lia]. apply (bool_decide_unpack _). vm_compute. exact I.
Defined.

(** ** Removing one medication among others *)

Lemma archiveMed_medsOf_other profile m s (x : Med.t) :
  Med.id x ≠ Med.id m →
  (x ∈ medsOf (archiveMed profile m s) ↔ x ∈ medsOf s).
Proof.
  intros Hx. unfold archiveMed, medsOf. rewrite loadMeds_backend. unfold_state.
  rewrite list_elem_of_fmap. split.
  - intros (r & -> & Hr). case_decide as Hid; [|exact Hr].
    exfalso. by apply Hx.
  - intros Hin. exists x. split; [|exact Hin]. by rewrite decide_False.
Qed.

(** X27.  Archiving or deleting one medication keeps every medication of
    another id in the table and in the listing exactly as a plain reload
    would show it, and keeps its stock rows. *)
Theorem removal_keeps_others profile m s (x : Med.t) :
  Med.id x ≠ Med.id m →
  (x ∈ medsOf (archiveMed profile m s) ↔ x ∈ medsOf s)
  ∧ (x ∈ meds (archiveMed profile m s) ↔ x ∈ meds (loadMeds profile s))
  ∧ (x ∈ meds (hardDeleteMed profile m s) ↔ x ∈ meds (loadMeds profile s))
  ∧ (∀ loc, qtyAt (Med.id x) loc (archiveMed profile m s) = qtyAt (Med.id x) loc s)
  ∧ (∀ loc, qtyAt (Med.id x) loc (hardDeleteMed profile m s)
            = qtyAt (Med.id x) loc s).
Proof.
  intros Hx.
  pose proof (archiveMed_medsOf_other profile m s x Hx) as Harch.
  assert (Hstock : ∀ loc st,
            Sb.stocksAt (Med.id x) loc (Sb.deleteStocksOf (Med.id m) st)
            = Sb.stocksAt (Med.id x) loc st).
  { intros loc st. unfold Sb.stocksAt, Sb.deleteStocksOf.
    rewrite list_filter_filter. apply list_filter_iff. intros r.
    split; [tauto|]. intros [Hm Hl]. repeat split; try done. congruence. }
  split; [exact Harch|]. split; [|split; [|split]].
  - unfold archiveMed at 1. rewrite !loadMeds_listing.
    fold (archiveMed profile m s).
    assert (Heq : ∀ s1, medsOf (loadMeds profile s1) = medsOf s1)
      by (intros s1; unfold medsOf; by rewrite loadMeds_backend).
    unfold archiveMed in Harch. rewrite Heq in Harch. by rewrite Harch.
  - unfold hardDeleteMed. rewrite !loadMeds_listing. unfold medsOf. unfold_state.
    rewrite list_elem_of_filter. tauto.
  - intros loc. unfold qtyAt, archiveMed, stocksOf. rewrite loadMeds_backend.
    unfold_state. by rewrite Hstock.
  - intros loc. unfold qtyAt, hardDeleteMed, stocksOf. rewrite loadMeds_backend.
    unfold_state. by rewrite Hstock.
Qed.

Lemma removal_keeps_others_witness :
  Sample.cardio
    ∈ meds (archiveMed Sample.profile Sample.aspirina Sample.oneOfThreeTaken)
  ∧ qtyAt "m2" Box (hardDeleteMed Sample.profile Sample.aspirina
                      Sample.oneOfThreeTaken) = Some 7.
Proof.
  destruct (removal_keeps_others Sample.profile Sample.aspirina
              Sample.oneOfThreeTaken Sample.cardio ltac:(discriminate))
    as (_ & Hlist & _ & _ & Hqty).
  split.
  - apply Hlist. vm_compute. right. left.
  - by rewrite Hqty.
Defined.
